(** * The CRM API worker (backend/src/index.ts) and its D1 schema (schema.sql)

    A shallow embedding of the Hono application: the JWT helpers, the rate
    limiter, the authentication middleware and the route handlers, over a model of
    the D1 (SQLite) tables they read and write.

    Conventions.
    - JavaScript numbers are IEEE-754 binary64 values ([float]); integers that only
      ever hold row ids (ids, tenant ids) are [Z].
    - Strings are sequences of 8-bit characters, the range on which [btoa] is
      defined.
    - Instants are [Z] milliseconds since the epoch ([Date.now()]); one request
      observes one instant.
    - What the Workers runtime and the npm packages provide (HMAC-SHA256, JSON for
      the token claims, bcrypt, string-to-number conversions) is the interface
      [Runtime]; a reference implementation is given further down. *)

From Stdlib Require Import ZArith String Ascii List Bool Lia Wellfounded.
From Stdlib Require Import Floats.PrimFloat Floats.FloatOps Floats.SpecFloat.
From Stdlib Require Import Numbers.Cyclic.Int63.Uint63Axioms.
From Stdlib Require Import DecimalString.
From stdpp Require Import gmap strings list sorting.

Local Open Scope string_scope.
Local Open Scope Z_scope.

(** ** Identity and token claims *)

(** [Variables.user]: what the middleware attaches to the request context. *)
Record identity := Identity {
  userId : Z;
  tenantId : Z;
  email : string;
  role : string;
}.

(** The object [generateJWT] signs: the payload spread, then [iat] and [exp]. *)
Record claims := Claims {
  sub : identity;
  iat : Z;
  exp : Z;
}.

(** SQLite storage classes. A TEXT value written by [datetime('now')] is kept as
    its instant in whole seconds ([SDate]): all such values have one format, so
    comparing the texts is comparing the instants. *)
Inductive sqlval :=
  | SNull
  | SInt (n : Z)
  | SReal (x : float)
  | SText (s : string)
  | SDate (secs : Z).

(** ** The runtime interface *)

Class Runtime := {
  (** [crypto.subtle.sign('HMAC', key, data)] with SHA-256: key bytes, message
      bytes, the 32-byte tag. *)
  hmac_sha256 : string -> string -> string;
  (** [JSON.stringify] of a claims object. *)
  JSON_stringify : claims -> string;
  (** [JSON.parse] followed by reading the claims; [None] when it throws. *)
  JSON_parse : string -> option claims;
  (** [JSON.stringify] of a string. *)
  JSON_quote : string -> string;
  (** [bcrypt.hash(password, 10)] and [bcrypt.compare]. *)
  bcrypt_hash : string -> string;
  bcrypt_compare : string -> string -> bool;
  (** ECMAScript [ToNumber] on a string, [parseInt], and [ToString] on a
      number. *)
  StringToNumber : string -> float;
  parseInt : string -> float;
  NumberToString : float -> string;
  (** SQLite's conversions under column affinity: well-formed numeric text to a
      number ([None]: the text stays text), and a number to text. *)
  sqlite_numeric : string -> option sqlval;
  sqlite_text : sqlval -> string;
  (** SQLite's floating-point [SUM], over the values in scan order. *)
  sqlite_sum : list float -> float;
}.

(** ** JavaScript values *)

Module JS.

(** The values a parsed JSON body holds. An array or nested object is opaque
    and carried by its JSON text. *)
Inductive value :=
  | Undefined
  | Null
  | Bool (b : bool)
  | Num (x : float)
  | Str (s : string)
  | Obj (json : string).

Definition truthy (v : value) : bool :=
  match v with
  | Undefined | Null => false
  | Bool b => b
  | Num x => negb (PrimFloat.eqb x 0 || PrimFloat.is_nan x)
  | Str s => negb (String.eqb s "")
  | Obj _ => true
  end.

(** [a || b] *)
Definition or (a b : value) : value := if truthy a then a else b.

Section WithRuntime.
Context `{Runtime}.

(** [ToNumber]; on an object the result is never observed here, because
    [bind] refuses the object before any statement runs. *)
Definition to_number (v : value) : float :=
  match v with
  | Undefined => PrimFloat.nan
  | Null => 0%float
  | Bool b => if b then 1%float else 0%float
  | Num x => x
  | Str s => StringToNumber s
  | Obj _ => PrimFloat.nan
  end.

(** [a * b] and [a / b] *)
Definition mul (a b : value) : value :=
  Num (PrimFloat.mul (to_number a) (to_number b)).
Definition div (a b : value) : value :=
  Num (PrimFloat.div (to_number a) (to_number b)).

(** [ToString], as a template literal applies it. *)
Definition to_string (v : value) : string :=
  match v with
  | Undefined => "undefined"
  | Null => "null"
  | Bool b => if b then "true" else "false"
  | Num x => NumberToString x
  | Str s => s
  | Obj _ => "[object Object]"
  end.
End WithRuntime.

(** [v !== undefined] *)
Definition defined (v : value) : bool :=
  match v with Undefined => false | _ => true end.

(** A parsed JSON object and property access on it. *)
Definition get (data : gmap string value) (k : string) : value :=
  default Undefined (data !! k).

End JS.

Abbreviation jsobject := (gmap string JS.value).

(** ** Numbers between JavaScript and SQLite *)

(** The integer a float holds exactly, if it holds one. *)
Definition Z_of_float (x : float) : option Z :=
  match Prim2SF x with
  | S754_zero _ => Some 0
  | S754_finite s m e =>
      let mag :=
        if 0 <=? e then Some (Z.pos m * 2 ^ e)
        else if (Z.pos m) mod 2 ^ (- e) =? 0 then Some (Z.pos m / 2 ^ (- e))
        else None in
      (fun z => if s then - z else z) <$> mag
  | _ => None
  end.

Definition float_of_Z (n : Z) : float :=
  if 0 <=? n then PrimFloat.of_uint63 (of_Z n)
  else PrimFloat.opp (PrimFloat.of_uint63 (of_Z (- n))).

(** ** D1: values, rows and tables *)

Module D1.

Abbreviation row := (gmap string sqlval).

(** A table with [id INTEGER PRIMARY KEY AUTOINCREMENT]: its rows by id, and
    the largest id ever given out ([sqlite_sequence]). The [id] column lives in
    the key. *)
Record table := Table {
  rows : gmap Z row;
  seq : Z;
}.

Definition empty_table : table := Table ∅ 0.

(** A column of a row; a column that was never written reads as NULL. *)
Definition col (r : row) (c : string) : sqlval := default SNull (r !! c).

(** What [SELECT *] yields for the row stored under [k]. *)
Definition with_id (k : Z) (r : row) : row := <["id" := SInt k]> r.

Definition is_null (v : sqlval) : bool :=
  match v with SNull => true | _ => false end.

(** The SQL comparison [a = b] being true (never so when a side is NULL). *)
Definition sql_eqb (a b : sqlval) : bool :=
  match a, b with
  | SInt n, SInt m => n =? m
  | SReal x, SReal y => PrimFloat.eqb x y
  | SInt n, SReal x | SReal x, SInt n => PrimFloat.eqb (float_of_Z n) x
  | SText s, SText t => String.eqb s t
  | SDate s, SDate t => s =? t
  | _, _ => false
  end.

(** [.bind(v)]: the D1 client turns a JavaScript value into a parameter, and
    throws [D1_TYPE_ERROR] on [undefined] and on objects. A number that JSON
    cannot carry (NaN, an infinity) arrives as NULL. *)
Definition bind (v : JS.value) : option sqlval :=
  match v with
  | JS.Undefined => None
  | JS.Null => Some SNull
  | JS.Bool b => Some (SInt (if b then 1 else 0))
  | JS.Num x =>
      Some (if PrimFloat.is_nan x || PrimFloat.is_infinity x then SNull
            else SReal x)
  | JS.Str s => Some (SText s)
  | JS.Obj _ => None
  end.

(** A JavaScript number that holds a row id, bound as a parameter. *)
Definition bind_id (n : Z) : sqlval := SInt n.

Inductive affinity := AffInt | AffReal | AffText.

Section WithRuntime.
Context `{Runtime}.

(** The conversion SQLite applies to a value stored in (or compared with) a
    column of the given affinity. *)
Definition apply_affinity (a : affinity) (v : sqlval) : sqlval :=
  match a, v with
  | AffInt, SReal x =>
      match Z_of_float x with Some n => SInt n | None => v end
  | AffInt, SText s =>
      match sqlite_numeric s with
      | Some (SInt n) => SInt n
      | Some (SReal x) =>
          match Z_of_float x with Some n => SInt n | None => SReal x end
      | _ => v
      end
  | AffReal, SInt n => SReal (float_of_Z n)
  | AffReal, SText s =>
      match sqlite_numeric s with
      | Some (SInt n) => SReal (float_of_Z n)
      | Some (SReal x) => SReal x
      | _ => v
      end
  | AffText, SInt _ | AffText, SReal _ => SText (sqlite_text v)
  | _, _ => v
  end.

(** The row id a parameter denotes in [WHERE id = ?]. *)
Definition rowid_of (v : sqlval) : option Z :=
  match apply_affinity AffInt v with
  | SInt n => Some n
  | _ => None
  end.
End WithRuntime.

(** *** Table definitions (schema.sql) *)

Record schema := Schema {
  sch_cols : list (string * affinity);
  sch_not_null : list string;
  sch_check : list (string * list string);
  sch_fk : list (string * string);
  sch_unique : list (list string);
  sch_default : Z -> list (string * sqlval);
}.

Definition now_text (now : Z) : sqlval := SDate (now / 1000).

Definition tenants_schema : schema := {|
  sch_cols := [("tenant_key", AffText); ("company_name", AffText);
    ("subscription_tier", AffText); ("is_active", AffInt); ("max_users", AffInt);
    ("max_storage_mb", AffInt); ("created_at", AffText);
    ("subscription_start_date", AffText); ("subscription_end_date", AffText);
    ("settings", AffText); ("logo_url", AffText); ("contact_email", AffText);
    ("stripe_customer_id", AffText)];
  sch_not_null := ["tenant_key"; "company_name"];
  sch_check := [("subscription_tier",
    ["trial"; "basic"; "professional"; "enterprise"])];
  sch_fk := [];
  sch_unique := [["tenant_key"]];
  sch_default := fun now => [("subscription_tier", SText "trial");
    ("is_active", SInt 1); ("max_users", SInt 5); ("max_storage_mb", SInt 1000);
    ("created_at", now_text now)];
|}.

Definition users_schema : schema := {|
  sch_cols := [("tenant_id", AffInt); ("email", AffText);
    ("password_hash", AffText); ("first_name", AffText); ("last_name", AffText);
    ("role", AffText); ("is_active", AffInt); ("last_login", AffText);
    ("created_at", AffText)];
  sch_not_null := ["tenant_id"; "email"; "password_hash"];
  sch_check := [("role", ["admin"; "manager"; "user"])];
  sch_fk := [("tenant_id", "tenants")];
  sch_unique := [["tenant_id"; "email"]];
  sch_default := fun now => [("role", SText "user"); ("is_active", SInt 1);
    ("created_at", now_text now)];
|}.

Definition companies_schema : schema := {|
  sch_cols := [("tenant_id", AffInt); ("name", AffText); ("type", AffText);
    ("industry", AffText); ("website", AffText); ("duns_number", AffText);
    ("cage_code", AffText); ("uei_number", AffText); ("naics_codes", AffText);
    ("phone", AffText); ("address", AffText); ("city", AffText);
    ("state", AffText); ("zip_code", AffText); ("country", AffText);
    ("created_at", AffText); ("updated_at", AffText); ("created_by", AffInt)];
  sch_not_null := ["tenant_id"; "name"];
  sch_check := [("type",
    ["customer"; "partner"; "competitor"; "teaming_partner"])];
  sch_fk := [("tenant_id", "tenants"); ("created_by", "users")];
  sch_unique := [];
  sch_default := fun now => [("type", SText "customer");
    ("country", SText "USA"); ("created_at", now_text now);
    ("updated_at", now_text now)];
|}.

Definition contacts_schema : schema := {|
  sch_cols := [("tenant_id", AffInt); ("first_name", AffText);
    ("last_name", AffText); ("email", AffText); ("phone", AffText);
    ("title", AffText); ("company_id", AffInt); ("linkedin_url", AffText);
    ("is_decision_maker", AffInt); ("contact_role", AffText);
    ("notes", AffText); ("created_at", AffText); ("updated_at", AffText);
    ("created_by", AffInt)];
  sch_not_null := ["tenant_id"; "first_name"; "last_name"];
  sch_check := [];
  sch_fk := [("tenant_id", "tenants"); ("company_id", "companies");
    ("created_by", "users")];
  sch_unique := [];
  sch_default := fun now => [("is_decision_maker", SInt 0);
    ("created_at", now_text now); ("updated_at", now_text now)];
|}.

Definition opportunities_schema : schema := {|
  sch_cols := [("tenant_id", AffInt); ("name", AffText);
    ("company_id", AffInt); ("type", AffText); ("stage", AffText);
    ("probability", AffReal); ("amount", AffReal);
    ("expected_revenue", AffReal); ("close_date", AffText);
    ("description", AffText); ("owner_id", AffInt); ("created_at", AffText);
    ("updated_at", AffText)];
  sch_not_null := ["tenant_id"; "name"];
  sch_check := [
    ("type", ["new_business"; "existing_business"; "recompete"; "task_order"]);
    ("stage", ["prospecting"; "qualification"; "proposal"; "negotiation";
               "closed_won"; "closed_lost"])];
  sch_fk := [("tenant_id", "tenants"); ("company_id", "companies");
    ("owner_id", "users")];
  sch_unique := [];
  sch_default := fun now => [("stage", SText "prospecting");
    ("probability", SReal 0); ("created_at", now_text now);
    ("updated_at", now_text now)];
|}.

Definition captures_schema : schema := {|
  sch_cols := [("tenant_id", AffInt); ("name", AffText);
    ("customer_name", AffText); ("opportunity_id", AffInt);
    ("capture_type", AffText); ("current_phase", AffText); ("status", AffText);
    ("pwin", AffReal); ("contract_value", AffReal);
    ("rfp_release_date", AffText); ("proposal_due_date", AffText);
    ("award_date", AffText); ("strategic_importance", AffText);
    ("win_strategy", AffText); ("capture_manager_id", AffInt);
    ("created_at", AffText); ("updated_at", AffText)];
  sch_not_null := ["tenant_id"; "name"; "customer_name"];
  sch_check := [
    ("capture_type", ["sole"; "joint"]);
    ("current_phase", ["phase0_long_range"; "phase1_positioning";
      "phase2_qualifying"; "phase3_solution_dev"; "phase4_proposal";
      "phase5_production"]);
    ("status", ["active"; "on_hold"; "won"; "lost"; "no_bid"]);
    ("strategic_importance", ["low"; "medium"; "high"; "critical"])];
  sch_fk := [("tenant_id", "tenants"); ("opportunity_id", "opportunities");
    ("capture_manager_id", "users")];
  sch_unique := [];
  sch_default := fun now => [("current_phase", SText "phase0_long_range");
    ("status", SText "active"); ("created_at", now_text now);
    ("updated_at", now_text now)];
|}.

Definition activity_log_schema : schema := {|
  sch_cols := [("tenant_id", AffInt); ("user_id", AffInt);
    ("activity_type", AffText); ("entity_type", AffText);
    ("entity_id", AffInt); ("description", AffText); ("ip_address", AffText);
    ("user_agent", AffText); ("created_at", AffText)];
  sch_not_null := ["tenant_id"];
  sch_check := [];
  sch_fk := [("tenant_id", "tenants"); ("user_id", "users")];
  sch_unique := [];
  sch_default := fun now => [("created_at", now_text now)];
|}.

Definition no_schema : schema := Schema [] [] [] [] [] (fun _ => []).

Definition schema_of (tname : string) : schema :=
  if String.eqb tname "tenants" then tenants_schema
  else if String.eqb tname "users" then users_schema
  else if String.eqb tname "companies" then companies_schema
  else if String.eqb tname "contacts" then contacts_schema
  else if String.eqb tname "opportunities" then opportunities_schema
  else if String.eqb tname "captures" then captures_schema
  else if String.eqb tname "activity_log" then activity_log_schema
  else no_schema.

(** A row of [rate_limits]. [window_start] holds [Date.toISOString()] texts; all
    have one format, so the text is kept as its instant in milliseconds. *)
Record rate_limit := RateLimit {
  identifier : string;
  endpoint : string;
  count : Z;
  window_start : Z;
}.

(** The database: the id-keyed tables by name, and [rate_limits] in rowid
    order. *)
Record DB := Db {
  tables : gmap string table;
  rate_limits : list rate_limit;
}.

Definition table_of (db : DB) (tname : string) : table :=
  default empty_table (tables db !! tname).

Definition set_table (tname : string) (t : table) (db : DB) : DB :=
  Db (<[tname := t]> (tables db)) (rate_limits db).

Definition set_rate_limits (l : list rate_limit) (db : DB) : DB :=
  Db (tables db) l.

(** *** Statements *)

Definition max_rowid (m : gmap Z row) : Z :=
  map_fold (fun k _ acc => Z.max k acc) 0 m.

(** AUTOINCREMENT: one more than the largest id ever used. *)
Definition next_rowid (t : table) : Z := Z.max (seq t) (max_rowid (rows t)) + 1.

Definition affinity_of (sch : schema) (c : string) : option affinity :=
  snd <$> List.find (fun p => String.eqb (fst p) c) (sch_cols sch).

Definition check_ok (r : row) (chk : string * list string) : bool :=
  match col r (fst chk) with
  | SNull => true
  | SText s => existsb (String.eqb s) (snd chk)
  | _ => false
  end.

Definition fk_ok (db : DB) (r : row) (fk : string * string) : bool :=
  match col r (fst fk) with
  | SNull => true
  | SInt n => bool_decide (is_Some (rows (table_of db (snd fk)) !! n))
  | _ => false
  end.

(** Two rows collide on a UNIQUE column list when every listed column is equal
    (a NULL never collides). *)
Definition same_on (cs : list string) (r1 r2 : row) : bool :=
  forallb (fun c => sql_eqb (col r1 c) (col r2 c)) cs.

Definition unique_ok (others : gmap Z row) (r : row) (cs : list string) : bool :=
  bool_decide (map_Forall (fun _ r' => same_on cs r r' = false) others).

Definition constraints_ok (sch : schema) (db : DB) (others : gmap Z row)
    (r : row) : bool :=
  forallb (fun c => negb (is_null (col r c))) (sch_not_null sch)
  && forallb (check_ok r) (sch_check sch)
  && forallb (fk_ok db r) (sch_fk sch)
  && forallb (unique_ok others r) (sch_unique sch).

Section WithRuntime.
Context `{Runtime}.

Definition convert (sch : schema) (c : string) (v : sqlval) : sqlval :=
  match affinity_of sch c with
  | Some a => apply_affinity a v
  | None => v
  end.

(** The row an INSERT stores: the listed columns, the DEFAULT of every
    column left out, each converted to its column's affinity. *)
Definition stored_row (sch : schema) (vals : list (string * sqlval))
    (now : Z) : row :=
  map_imap (fun c v => Some (convert sch c v))
    ((list_to_map vals : row) ∪ list_to_map (sch_default sch now)).

(** [INSERT INTO tname (cols) VALUES (vals)]: [None] when a constraint
    fails (the statement throws and stores nothing), else
    [meta.last_row_id] and the new database. *)
Definition insert (tname : string) (vals : list (string * sqlval))
    (now : Z) (db : DB) : option (Z * DB) :=
  let sch := schema_of tname in
  let t := table_of db tname in
  let r := stored_row sch vals now in
  if constraints_ok sch db (rows t) r then
    let id := next_rowid t in
    Some (id, set_table tname (Table (<[id := r]> (rows t)) id) db)
  else None.

(** [UPDATE tname SET sets WHERE id = ? AND ...] on the row stored under
    [id], when [guard] accepts it: [None] when a constraint fails. *)
Definition update_row (tname : string) (id : Z) (guard : row -> bool)
    (sets : list (string * sqlval)) (db : DB) : option DB :=
  let sch := schema_of tname in
  let t := table_of db tname in
  match rows t !! id with
  | Some r =>
      if guard r then
        let r' := foldl (fun acc s => <[fst s := convert sch (fst s) (snd s)]> acc)
                    r sets in
        if constraints_ok sch db (delete id (rows t)) r' then
          Some (set_table tname (Table (<[id := r']> (rows t)) (seq t)) db)
        else None
      else Some db
  | None => Some db
  end.
End WithRuntime.

(** [SELECT * FROM tname WHERE id = ?], [.first()]. *)
Definition select_by_id (tname : string) (id : Z) (db : DB) : option row :=
  with_id id <$> rows (table_of db tname) !! id.

Definition by_rowid (p q : Z * row) : Prop := fst p <= fst q.

#[global] Instance by_rowid_dec : RelDecision by_rowid.
Proof. intros p q. unfold by_rowid. apply _. Defined.

(** The rows of a table in rowid order, as [SELECT *] yields them. *)
Definition scan (t : table) : list row :=
  (fun p => with_id (fst p) (snd p))
    <$> merge_sort by_rowid (map_to_list (rows t)).

(** [SELECT * FROM tname WHERE cond]. *)
Definition select_where (tname : string) (cond : row -> bool) (db : DB)
    : list row :=
  List.filter cond (scan (table_of db tname)).

(** *** Expressions *)

(** The id of a selected row. *)
Definition id_of (r : row) : Z :=
  match col r "id" with SInt k => k | _ => 0 end.

(** JavaScript truthiness of a selected column ([!tenant.is_active]). *)
Definition js_truthy (v : sqlval) : bool :=
  match v with
  | SNull => false
  | SInt n => negb (n =? 0)
  | SReal x => negb (PrimFloat.eqb x 0 || PrimFloat.is_nan x)
  | SText s => negb (String.eqb s "")
  | SDate _ => true
  end.

(** The string a selected TEXT column holds in JavaScript (a NULL, which no
    statement here writes into the columns read this way, as the empty
    string). *)
Definition text_of (v : sqlval) : string :=
  match v with SText s => s | _ => "" end.

(** [a || b] in SQL: NULL when a side is NULL. *)
Definition concat (a b : sqlval) : sqlval :=
  match a, b with
  | SText s, SText t => SText (s ++ t)
  | _, _ => SNull
  end.

(** [COALESCE(v, 0)] *)
Definition coalesce0 (v : sqlval) : sqlval :=
  match v with SNull => SInt 0 | _ => v end.

(** The order ORDER BY uses: NULL first, then numbers, then text. Timestamps
    written by [datetime('now')] sort among themselves by instant. *)
Definition class_of (v : sqlval) : Z :=
  match v with
  | SNull => 0
  | SInt _ | SReal _ => 1
  | SDate _ => 2
  | SText _ => 3
  end.

Definition sql_leb (a b : sqlval) : bool :=
  match a, b with
  | SInt n, SInt m => n <=? m
  | SReal x, SReal y => PrimFloat.leb x y
  | SInt n, SReal y => PrimFloat.leb (float_of_Z n) y
  | SReal x, SInt m => PrimFloat.leb x (float_of_Z m)
  | SText s, SText t => String.leb s t
  | SDate s, SDate t => s <=? t
  | _, _ => class_of a <=? class_of b
  end.

Definition sql_ltb (a b : sqlval) : bool := sql_leb a b && negb (sql_leb b a).

(** An ORDER BY clause as a comparison of rows. *)
Definition ordered (le : row -> row -> bool) : relation row :=
  fun a b => le a b = true.

#[global] Instance ordered_dec le : RelDecision (ordered le).
Proof. intros a b. unfold ordered. apply _. Defined.

(** [ORDER BY c] and [ORDER BY c DESC]; rows that tie come out in an order
    SQLite leaves open, here the one the sort produces. *)
Definition asc (c : string) (a b : row) : bool := sql_leb (col a c) (col b c).
Definition desc (c : string) (a b : row) : bool := sql_leb (col b c) (col a c).
(** [ORDER BY c1, c2] *)
Definition asc2 (c1 c2 : string) (a b : row) : bool :=
  sql_ltb (col a c1) (col b c1)
  || (sql_leb (col a c1) (col b c1) && sql_leb (col a c2) (col b c2)).

Definition order_by (le : row -> row -> bool) (l : list row) : list row :=
  merge_sort (ordered le) l.

End D1.

(** ** Handlers: database effects and exceptions *)

(** What an awaited step yields: a value, or a thrown error with its message. *)
Inductive outcome (A : Type) :=
  | Return (a : A)
  | Throw (e : string).
Arguments Return {A} a.
Arguments Throw {A} e.

(** A piece of handler code: it runs against the database, which keeps every
    statement already executed when a later one throws (no transaction). *)
Definition action (A : Type) : Type := D1.DB -> outcome A * D1.DB.

#[global] Instance action_ret : MRet action :=
  fun A a db => (Return a, db).

#[global] Instance action_bind : MBind action :=
  fun A B f m db =>
    match m db with
    | (Return a, db') => f a db'
    | (Throw e, db') => (Throw e, db')
    end.

Definition throw {A} (e : string) : action A := fun db => (Throw e, db).

(** A statement that only writes. *)
Definition exec (f : D1.DB -> D1.DB) : action unit := fun db => (Return tt, f db).

(** A read-only statement. *)
Definition query {A} (f : D1.DB -> A) : action A := fun db => (Return (f db), db).

(** [.bind(...)] over a statement's parameters, each tagged with its column. *)
Definition bind_all (ps : list (string * option sqlval))
    : action (list (string * sqlval)) :=
  match mapM (fun p => pair (fst p) <$> snd p) ps with
  | Some vs => mret vs
  | None => throw "D1_TYPE_ERROR"
  end.

Section Statements.
Context `{Runtime}.

Definition run_insert (tname : string) (vals : list (string * sqlval)) (now : Z)
    : action Z :=
  fun db =>
    match D1.insert tname vals now db with
    | Some (id, db') => (Return id, db')
    | None => (Throw "D1_ERROR: constraint failed", db)
    end.

Definition run_update (tname : string) (id : Z) (guard : D1.row -> bool)
    (sets : list (string * sqlval)) : action unit :=
  fun db =>
    match D1.update_row tname id guard sets db with
    | Some db' => (Return tt, db')
    | None => (Throw "D1_ERROR: constraint failed", db)
    end.

End Statements.

(** ** Requests and responses *)

(** The JSON bodies the application sends. *)
Inductive json :=
  | JError (error : string) (details : option string)
  | JRow (r : option D1.row)
  | JRows (rs : list D1.row)
  | JRegistered (tenantKey : string) (tenant : Z)
  | JLogin (token : string) (id email firstName lastName role : sqlval)
      (tenantKey : JS.value)
  | JKpis (totalRevenue openOpportunities winRate pipelineValue : sqlval)
  | JHealth (timestamp : Z)
  | JNotFound
  | JEmpty.

Record response := Response {
  status : Z;
  body : json;
}.

(** [c.json(body, status)] *)
Definition c_json (b : json) (st : Z) : response := Response st b.

(** [try { ... } catch (error) { return on_error(error.message) }] *)
Definition try_catch (m : action response) (on_error : string -> response)
    : D1.DB -> response * D1.DB :=
  fun db =>
    match m db with
    | (Return r, db') => (r, db')
    | (Throw e, db') => (on_error e, db')
    end.

(** [await c.req.json()]: the parsed body. [None] stands for a body on which
    the handler's first property access throws (not JSON, or [null]); any other
    non-object body has none of the properties read and is the empty object. *)
Definition req_json (b : option jsobject) : action jsobject :=
  match b with
  | Some data => mret data
  | None => throw "SyntaxError"
  end.

(** [c.get('user')] followed by a property read: a [TypeError] when the
    middleware attached nothing. *)
Definition c_get_user (user : option identity) : action identity :=
  match user with
  | Some u => mret u
  | None => throw "TypeError"
  end.

(** ** Opportunities *)

Section Opportunities.
Context `{Runtime}.

Definition tenant_is (t : Z) (r : D1.row) : bool :=
  D1.sql_eqb (D1.col r "tenant_id") (D1.bind_id t).

(** [(data.amount || 0) * (data.probability || 0) / 100] *)
Definition expectedRevenue (data : jsobject) : JS.value :=
  JS.div
    (JS.mul (JS.or (JS.get data "amount") (JS.Num 0))
            (JS.or (JS.get data "probability") (JS.Num 0)))
    (JS.Num 100).

(** The parameters of [INSERT INTO opportunities], by column. *)
Definition opportunity_params (user : identity) (data : jsobject)
    : list (string * option sqlval) :=
  [("tenant_id", Some (D1.bind_id (tenantId user)));
   ("name", D1.bind (JS.get data "name"));
   ("company_id", D1.bind (JS.or (JS.get data "companyId") JS.Null));
   ("type", D1.bind (JS.get data "type"));
   ("stage", D1.bind (JS.or (JS.get data "stage") (JS.Str "prospecting")));
   ("amount", D1.bind (JS.or (JS.get data "amount") JS.Null));
   ("probability", D1.bind (JS.or (JS.get data "probability") (JS.Num 0)));
   ("expected_revenue", D1.bind (expectedRevenue data));
   ("close_date", D1.bind (JS.or (JS.get data "closeDate") JS.Null));
   ("description", D1.bind (JS.or (JS.get data "description") JS.Null));
   ("owner_id", Some (D1.bind_id (userId user)))].

(** The parameters of the [INSERT INTO activity_log] that follows. *)
Definition opportunity_log (user : identity) (data : jsobject) (last_row_id : Z)
    : list (string * option sqlval) :=
  [("tenant_id", Some (D1.bind_id (tenantId user)));
   ("user_id", Some (D1.bind_id (userId user)));
   ("activity_type", Some (SText "create"));
   ("entity_type", Some (SText "opportunity"));
   ("entity_id", Some (D1.bind_id last_row_id));
   ("description",
     Some (SText ("Created: " ++ JS.to_string (JS.get data "name"))))].

(** [app.post('/api/opportunities', ...)] *)
Definition post_opportunities (user : option identity) (b : option jsobject)
    (now : Z) : D1.DB -> response * D1.DB :=
  try_catch
    (user ← c_get_user user;
     data ← req_json b;
     vals ← bind_all (opportunity_params user data);
     last_row_id ← run_insert "opportunities" vals now;
     log ← bind_all (opportunity_log user data last_row_id);
     _ ← run_insert "activity_log" log now;
     opportunity ← query (D1.select_by_id "opportunities" last_row_id);
     mret (c_json (JRow opportunity) 201))
    (fun _ => c_json (JError "Failed to create opportunity" None) 500).

(** The [updates]/[params] pair the PUT handler builds, as column assignments
    in the order pushed. *)
Definition opportunity_updates (data : jsobject) (now : Z)
    : list (string * option sqlval) :=
  (if JS.truthy (JS.get data "name")
   then [("name", D1.bind (JS.get data "name"))] else [])
  ++ (if JS.truthy (JS.get data "stage")
      then [("stage", D1.bind (JS.get data "stage"))] else [])
  ++ (if JS.defined (JS.get data "amount")
      then [("amount", D1.bind (JS.get data "amount"))] else [])
  ++ (if JS.defined (JS.get data "probability")
      then [("probability", D1.bind (JS.get data "probability"));
            ("expected_revenue",
              D1.bind (JS.div
                (JS.mul (JS.or (JS.get data "amount") (JS.Num 0))
                        (JS.get data "probability"))
                (JS.Num 100)))]
      else [])
  ++ [("updated_at", Some (D1.now_text now))].

(** [SELECT id FROM opportunities WHERE id = ? AND tenant_id = ?], [.first()]:
    the id of the row, when the path parameter names one of the tenant's. *)
Definition own_opportunity (tenant : Z) (id : string) (db : D1.DB) : option Z :=
  k ← D1.rowid_of (SText id);
  r ← D1.rows (D1.table_of db "opportunities") !! k;
  if tenant_is tenant r then Some k else None.

(** [app.put('/api/opportunities/:id', ...)]; [id] is the path parameter. The
    two later statements bind the same parameter, hence name the same row. *)
Definition put_opportunity (user : option identity) (id : string)
    (b : option jsobject) (now : Z) : D1.DB -> response * D1.DB :=
  try_catch
    (user ← c_get_user user;
     data ← req_json b;
     existing ← query (own_opportunity (tenantId user) id);
     match existing with
     | None => mret (c_json (JError "Opportunity not found" None) 404)
     | Some k =>
         sets ← bind_all (opportunity_updates data now);
         _ ← run_update "opportunities" k (tenant_is (tenantId user)) sets;
         opportunity ← query (D1.select_by_id "opportunities" k);
         mret (c_json (JRow opportunity) 200)
     end)
    (fun _ => c_json (JError "Failed to update opportunity" None) 500).

End Opportunities.

(** ** Rate limiting *)

Section RateLimit.
Context `{Runtime}.

(** The [limit: number = 100] default parameter. *)
Definition default_limit : Z := 100.

Definition same_key (ident path : string) (r : D1.rate_limit) : bool :=
  String.eqb (D1.identifier r) ident && String.eqb (D1.endpoint r) path.

(** [INSERT INTO rate_limits ... VALUES (?, ?, 1, ?) ON CONFLICT(identifier,
    endpoint, window_start) DO UPDATE SET count = count + 1] *)
Fixpoint upsert (ident path : string) (at_ : Z) (l : list D1.rate_limit)
    : list D1.rate_limit :=
  match l with
  | [] => [D1.RateLimit ident path 1 at_]
  | r :: l' =>
      if same_key ident path r && (D1.window_start r =? at_)
      then D1.RateLimit (D1.identifier r) (D1.endpoint r) (D1.count r + 1)
             (D1.window_start r) :: l'
      else r :: upsert ident path at_ l'
  end.

(** [rateLimit(c, identifier, limit)]; [path] is [c.req.path]. It returns the
    429 response, or [None] for JavaScript's [null]. *)
Definition rateLimit (path : string) (ident : JS.value) (limit : option Z)
    (now : Z) : action (option response) :=
  let limit := default default_limit limit in
  let windowStart := now - 60000 in
  (* Clean old entries *)
  _ ← exec (fun db =>
         D1.set_rate_limits
           (List.filter (fun r => negb (D1.window_start r <? windowStart))
              (D1.rate_limits db)) db);
  (* Get current count *)
  ps ← bind_all [("identifier", D1.bind ident)];
  let ident_text := D1.apply_affinity D1.AffText (default SNull (snd <$> head ps)) in
  result ← query (fun db =>
    head (List.filter
      (fun r => match ident_text with
                | SText i => same_key i path r && (windowStart <=? D1.window_start r)
                | _ => false
                end)
      (D1.rate_limits db)));
  if match result with Some r => limit <=? D1.count r | None => false end
  then mret (Some (c_json (JError "Rate limit exceeded" None) 429))
  else
    (* Increment or insert *)
    match ident_text with
    | SText i =>
        _ ← exec (fun db =>
               D1.set_rate_limits (upsert i path now (D1.rate_limits db)) db);
        mret None
    | _ => throw "D1_ERROR: constraint failed"
    end.

End RateLimit.

(** ** Strings: [split], [includes], [startsWith], [substring] *)

(** [s.split(sep)] for a one-character separator. *)
Fixpoint split (sep : ascii) (s : string) : list string :=
  match s with
  | EmptyString => [EmptyString]
  | String c r =>
      if Ascii.eqb c sep then EmptyString :: split sep r
      else match split sep r with
           | p :: ps => String c p :: ps
           | [] => [String c EmptyString]
           end
  end.

(** [hay.includes(needle)] *)
Fixpoint includes (needle hay : string) : bool :=
  String.prefix needle hay ||
  match hay with
  | EmptyString => false
  | String _ r => includes needle r
  end.

(** [s.substring(n)] *)
Fixpoint substring_from (n : nat) (s : string) : string :=
  match n, s with
  | O, _ => s
  | S n', String _ r => substring_from n' r
  | S _, EmptyString => EmptyString
  end.

(** ** Base64 and UTF-8 *)

Definition b64_alphabet : string :=
  "ABCDEFGHIJKLMNOPQRSTUVWXYZabcdefghijklmnopqrstuvwxyz0123456789+/".

Definition b64_char (i : N) : ascii :=
  default "A"%char (String.get (N.to_nat i) b64_alphabet).

Fixpoint index_in (c : ascii) (s : string) (i : N) : option N :=
  match s with
  | EmptyString => None
  | String d r => if Ascii.eqb c d then Some i else index_in c r (N.succ i)
  end.

Definition b64_index (c : ascii) : option N := index_in c b64_alphabet 0%N.

Definition code (c : ascii) : N := N_of_ascii c.
Definition chr (n : N) : ascii := ascii_of_N n.

(** [btoa] on a binary string. *)
Fixpoint btoa (s : string) : string :=
  match s with
  | EmptyString => EmptyString
  | String a EmptyString =>
      let a := code a in
      String (b64_char (a / 4)) (String (b64_char (a mod 4 * 16)) "==")
  | String a (String b EmptyString) =>
      let a := code a in let b := code b in
      String (b64_char (a / 4))
        (String (b64_char (a mod 4 * 16 + b / 16))
          (String (b64_char (b mod 16 * 4)) "="))
  | String a (String b (String c r)) =>
      let a := code a in let b := code b in let c := code c in
      String (b64_char (a / 4))
        (String (b64_char (a mod 4 * 16 + b / 16))
          (String (b64_char (b mod 16 * 4 + c / 64))
            (String (b64_char (c mod 64)) (btoa r))))
  end%N.

(** [atob] on padded base64, the form [btoa] produces; [None] when it throws.
    (The forgiving parts of [atob], white space and missing padding, are
    left out: such input is a failure here.) *)
Fixpoint atob (s : string) : option string :=
  match s with
  | EmptyString => Some EmptyString
  | String c1 (String c2 (String c3 (String c4 r))) =>
      i1 ← b64_index c1;
      i2 ← b64_index c2;
      if Ascii.eqb c4 "="%char then
        match r with
        | EmptyString =>
            if Ascii.eqb c3 "="%char then
              Some (String (chr (i1 * 4 + i2 / 16)) EmptyString)
            else
              i3 ← b64_index c3;
              Some (String (chr (i1 * 4 + i2 / 16))
                     (String (chr (i2 mod 16 * 16 + i3 / 4)) EmptyString))
        | _ => None
        end
      else
        i3 ← b64_index c3;
        i4 ← b64_index c4;
        rest ← atob r;
        Some (String (chr (i1 * 4 + i2 / 16))
               (String (chr (i2 mod 16 * 16 + i3 / 4))
                 (String (chr (i3 mod 4 * 64 + i4)) rest)))
  | _ => None
  end%N.

(** [new TextEncoder().encode(s)], the bytes again as a binary string. *)
Fixpoint utf8 (s : string) : string :=
  match s with
  | EmptyString => EmptyString
  | String c r =>
      let n := code c in
      if (n <? 128)%N then String c (utf8 r)
      else String (chr (192 + n / 64)) (String (chr (128 + n mod 64)) (utf8 r))
  end.

(** ** Tokens *)

Inductive jwt_error :=
  | InvalidSignature   (* Error('Invalid signature') *)
  | TokenExpired       (* Error('Token expired') *)
  | Malformed.         (* [atob] or [JSON.parse] threw *)

Section Tokens.
Context `{Runtime}.

(** [signHS256(data, secret)] *)
Definition signHS256 (data secret : string) : string :=
  btoa (hmac_sha256 (utf8 secret) (utf8 data)).

Definition dq : string := String (chr 34) EmptyString.

(** [JSON.stringify({ alg: 'HS256', typ: 'JWT' })] *)
Definition header_json : string :=
  "{" ++ dq ++ "alg" ++ dq ++ ":" ++ dq ++ "HS256" ++ dq ++ ","
      ++ dq ++ "typ" ++ dq ++ ":" ++ dq ++ "JWT" ++ dq ++ "}".

(** The claims [generateJWT] signs at instant [now]. *)
Definition jwtPayload (payload : identity) (now : Z) : claims :=
  let now := now / 1000 in
  Claims payload now (now + 24 * 60 * 60).

(** [generateJWT(payload, secret)] at instant [now] *)
Definition generateJWT (payload : identity) (secret : string) (now : Z) : string :=
  let encodedHeader := btoa header_json in
  let encodedPayload := btoa (JSON_stringify (jwtPayload payload now)) in
  let signature := signHS256 (encodedHeader ++ "." ++ encodedPayload) secret in
  encodedHeader ++ "." ++ encodedPayload ++ "." ++ signature.

(** A destructured array element inside a template literal. *)
Definition interpolate (o : option string) : string := default "undefined" o.

(** [verifyJWT(token, secret)] at instant [now] *)
Definition verifyJWT (token secret : string) (now : Z) : jwt_error + claims :=
  let parts := split "."%char token in
  let header := parts !! 0%nat in
  let payload := parts !! 1%nat in
  let signature := parts !! 2%nat in
  let expectedSignature :=
    signHS256 (interpolate header ++ "." ++ interpolate payload) secret in
  if bool_decide (signature = Some expectedSignature) then
    match atob (interpolate payload) ≫= JSON_parse with
    | Some decodedPayload =>
        if exp decodedPayload <? now / 1000 then inl TokenExpired
        else inr decodedPayload
    | None => inl Malformed
    end
  else inl InvalidSignature.

End Tokens.

(** ** Authentication routes *)

Section Auth.
Context `{Runtime}.

Definition lower (c : ascii) : ascii :=
  let n := code c in
  if ((65 <=? n) && (n <=? 90))%N then chr (n + 32) else c.

Definition alnum (c : ascii) : bool :=
  let n := code c in
  (((97 <=? n) && (n <=? 122)) || ((48 <=? n) && (n <=? 57)))%N.

(** [.replace(/[^a-z0-9]/g, '-').replace(/-+/g, '-')] after [toLowerCase()]:
    every other character becomes a dash, runs of dashes become one. *)
Fixpoint dashes (s : string) : string :=
  match s with
  | EmptyString => EmptyString
  | String c r =>
      let c := lower c in
      if alnum c then String c (dashes r)
      else match dashes r with
           | String "-"%char _ as d => d
           | d => String "-"%char d
           end
  end.

(** [.replace(/^-|-$/g, '')] *)
Fixpoint drop_last_dash (s : string) : string :=
  match s with
  | EmptyString => EmptyString
  | String "-"%char EmptyString => EmptyString
  | String c r => String c (drop_last_dash r)
  end.

Definition trim_dashes (s : string) : string :=
  match s with
  | String "-"%char r => drop_last_dash r
  | _ => drop_last_dash s
  end.

(** The tenant key of a company name. *)
Definition tenant_key_of (companyName : string) : string :=
  trim_dashes (dashes companyName).

(** [hashPassword] and [verifyPassword]; bcryptjs throws on an argument that
    is not a string. *)
Definition hashPassword (password : JS.value) : action string :=
  match password with
  | JS.Str p => mret (bcrypt_hash p)
  | _ => throw "Illegal arguments"
  end.

Definition verifyPassword (password : JS.value) (hash : sqlval) : action bool :=
  match password, hash with
  | JS.Str p, SText h => mret (bcrypt_compare p h)
  | _, _ => throw "Illegal arguments"
  end.

(** A bound parameter compared with a TEXT column. *)
Definition text_param (ps : list (string * sqlval)) : sqlval :=
  D1.apply_affinity D1.AffText (default SNull (snd <$> head ps)).

Definition invalid_credentials : response :=
  c_json (JError "Invalid credentials" None) 401.

(** [SELECT id, is_active FROM tenants WHERE tenant_key = ?], [.first()] *)
Definition find_tenant (tenant_key : sqlval) (db : D1.DB) : option D1.row :=
  head (D1.select_where "tenants"
    (fun r => D1.sql_eqb (D1.col r "tenant_key") tenant_key) db).

(** [SELECT * FROM users WHERE tenant_id = ? AND email = ? AND is_active = 1],
    [.first()] *)
Definition find_user (tenant : Z) (email : sqlval) (db : D1.DB) : option D1.row :=
  head (D1.select_where "users"
    (fun r => tenant_is tenant r
              && D1.sql_eqb (D1.col r "email") email
              && D1.sql_eqb (D1.col r "is_active") (SInt 1)) db).

(** [app.post('/api/auth/register', ...)] *)
Definition post_register (path : string) (b : option jsobject) (now : Z)
    : D1.DB -> response * D1.DB :=
  try_catch
    (data ← req_json b;
     let companyName := JS.get data "companyName" in
     let email := JS.get data "email" in
     rateLimited ← rateLimit path email (Some 5) now;
     match rateLimited with
     | Some r => mret r
     | None =>
         tenantKey ← match companyName with
                     | JS.Str n => mret (tenant_key_of n)
                     | _ => throw "TypeError"
                     end;
         existingTenant ← query (find_tenant (SText tenantKey));
         match existingTenant with
         | Some _ => mret (c_json (JError "Company name already registered" None) 400)
         | None =>
             vals ← bind_all [
               ("tenant_key", Some (SText tenantKey));
               ("company_name", D1.bind companyName);
               ("contact_email", D1.bind email)];
             tenant ← run_insert "tenants" vals now;
             passwordHash ← hashPassword (JS.get data "password");
             vals ← bind_all [
               ("tenant_id", Some (D1.bind_id tenant));
               ("email", D1.bind email);
               ("password_hash", Some (SText passwordHash));
               ("first_name", D1.bind (JS.get data "firstName"));
               ("last_name", D1.bind (JS.get data "lastName"));
               ("role", Some (SText "admin"))];
             _ ← run_insert "users" vals now;
             mret (c_json (JRegistered tenantKey tenant) 201)
         end
     end)
    (fun e => c_json (JError "Registration failed" (Some e)) 500).

(** [app.post('/api/auth/login', ...)] *)
Definition post_login (secret path : string) (b : option jsobject) (now : Z)
    : D1.DB -> response * D1.DB :=
  try_catch
    (data ← req_json b;
     let email := JS.get data "email" in
     let tenantKey := JS.get data "tenantKey" in
     rateLimited ← rateLimit path email (Some 10) now;
     match rateLimited with
     | Some r => mret r
     | None =>
         (* Get tenant *)
         ps ← bind_all [("tenant_key", D1.bind tenantKey)];
         tenant ← query (find_tenant (text_param ps));
         match tenant with
         | None => mret invalid_credentials
         | Some tenant =>
             if negb (D1.js_truthy (D1.col tenant "is_active"))
             then mret invalid_credentials
             else
               (* Get user *)
               ps ← bind_all [("email", D1.bind email)];
               user ← query (find_user (D1.id_of tenant) (text_param ps));
               match user with
               | None => mret invalid_credentials
               | Some user =>
                   (* Verify password *)
                   validPassword ← verifyPassword (JS.get data "password")
                                     (D1.col user "password_hash");
                   if negb validPassword then mret invalid_credentials
                   else
                     (* Update last login *)
                     _ ← run_update "users" (D1.id_of user) (fun _ => true)
                           [("last_login", D1.now_text now)];
                     (* Generate JWT *)
                     let token := generateJWT
                       (Identity (D1.id_of user) (D1.id_of tenant)
                          (D1.text_of (D1.col user "email"))
                          (D1.text_of (D1.col user "role")))
                       secret now in
                     (* Log activity *)
                     _ ← run_insert "activity_log" [
                           ("tenant_id", D1.bind_id (D1.id_of tenant));
                           ("user_id", D1.bind_id (D1.id_of user));
                           ("activity_type", SText "login");
                           ("description", SText "User logged in")] now;
                     mret (c_json
                       (JLogin token (D1.col user "id") (D1.col user "email")
                          (D1.col user "first_name") (D1.col user "last_name")
                          (D1.col user "role") tenantKey) 200)
               end
         end
     end)
    (fun e => c_json (JError "Login failed" (Some e)) 500).

End Auth.

(** ** Lists, creation of contacts, companies and captures, dashboards *)

Section Domain.
Context `{Runtime}.

(** [LEFT JOIN tname j ON base.fk = j.id AND base.tenant_id = j.tenant_id]:
    the joined row, if any. *)
Definition joined_in_tenant (db : D1.DB) (tname : string) (base : D1.row)
    (fk : string) : option D1.row :=
  match D1.col base fk with
  | SInt k =>
      r ← D1.rows (D1.table_of db tname) !! k;
      if D1.sql_eqb (D1.col base "tenant_id") (D1.col r "tenant_id")
      then Some r else None
  | _ => None
  end.

(** [LEFT JOIN tname j ON base.fk = j.id] *)
Definition joined (db : D1.DB) (tname : string) (base : D1.row) (fk : string)
    : option D1.row :=
  match D1.col base fk with
  | SInt k => D1.rows (D1.table_of db tname) !! k
  | _ => None
  end.

Definition joined_col (j : option D1.row) (c : string) : sqlval :=
  match j with Some r => D1.col r c | None => SNull end.

(** [u.first_name || ' ' || u.last_name] *)
Definition full_name (j : option D1.row) : sqlval :=
  D1.concat (D1.concat (joined_col j "first_name") (SText " "))
    (joined_col j "last_name").

(** [app.get('/api/opportunities', ...)]; [q] is [c.req.query()]. *)
Definition get_opportunities (user : option identity) (q : gmap string string)
    : D1.DB -> response * D1.DB :=
  try_catch
    (user ← c_get_user user;
     let stage := q !! "stage" in
     let ownerId := q !! "ownerId" in
     let by_stage (r : D1.row) :=
       match stage with
       | Some s => if String.eqb s "" then true
                   else D1.sql_eqb (D1.col r "stage") (SText s)
       | None => true
       end in
     owner ← match ownerId with
             | Some o => if String.eqb o "" then mret None
                         else ps ← bind_all [("owner_id", D1.bind (JS.Num (parseInt o)))];
                              mret (snd <$> head ps)
             | None => mret None
             end;
     let by_owner (r : D1.row) :=
       match owner with
       | Some p => D1.sql_eqb (D1.col r "owner_id") p
       | None => true
       end in
     result ← query (fun db =>
       D1.order_by (D1.desc "created_at")
         ((fun o =>
            <["owner_name" := full_name (joined_in_tenant db "users" o "owner_id")]>
              (<["company_name" :=
                   joined_col (joined_in_tenant db "companies" o "company_id") "name"]> o))
          <$> D1.select_where "opportunities"
                (fun o => tenant_is (tenantId user) o && by_stage o && by_owner o) db));
     mret (c_json (JRows result) 200))
    (fun _ => c_json (JError "Failed to fetch opportunities" None) 500).

(** [app.get('/api/contacts', ...)] *)
Definition get_contacts (user : option identity) : D1.DB -> response * D1.DB :=
  try_catch
    (user ← c_get_user user;
     result ← query (fun db =>
       D1.order_by (D1.asc2 "last_name" "first_name")
         ((fun c =>
            <["company_name" :=
                joined_col (joined_in_tenant db "companies" c "company_id") "name"]> c)
          <$> D1.select_where "contacts" (tenant_is (tenantId user)) db));
     mret (c_json (JRows result) 200))
    (fun _ => c_json (JError "Failed to fetch contacts" None) 500).

(** The parameters of [INSERT INTO contacts], by column. *)
Definition contact_params (user : identity) (data : jsobject)
    : list (string * option sqlval) :=
  [("tenant_id", Some (D1.bind_id (tenantId user)));
   ("first_name", D1.bind (JS.get data "firstName"));
   ("last_name", D1.bind (JS.get data "lastName"));
   ("email", D1.bind (JS.or (JS.get data "email") JS.Null));
   ("phone", D1.bind (JS.or (JS.get data "phone") JS.Null));
   ("title", D1.bind (JS.or (JS.get data "title") JS.Null));
   ("company_id", D1.bind (JS.or (JS.get data "companyId") JS.Null));
   ("contact_role", D1.bind (JS.or (JS.get data "contactRole") JS.Null));
   ("is_decision_maker",
     Some (SInt (if JS.truthy (JS.get data "isDecisionMaker") then 1 else 0)));
   ("notes", D1.bind (JS.or (JS.get data "notes") JS.Null))].

(** [app.post('/api/contacts', ...)] *)
Definition post_contacts (user : option identity) (b : option jsobject) (now : Z)
    : D1.DB -> response * D1.DB :=
  try_catch
    (user ← c_get_user user;
     data ← req_json b;
     vals ← bind_all (contact_params user data);
     last_row_id ← run_insert "contacts" vals now;
     contact ← query (D1.select_by_id "contacts" last_row_id);
     mret (c_json (JRow contact) 201))
    (fun _ => c_json (JError "Failed to create contact" None) 500).

(** [app.get('/api/companies', ...)] *)
Definition get_companies (user : option identity) : D1.DB -> response * D1.DB :=
  try_catch
    (user ← c_get_user user;
     result ← query (fun db =>
       D1.order_by (D1.asc "name")
         (D1.select_where "companies" (tenant_is (tenantId user)) db));
     mret (c_json (JRows result) 200))
    (fun _ => c_json (JError "Failed to fetch companies" None) 500).

(** [data.naicsCodes ? JSON.stringify(data.naicsCodes) : null] *)
Definition naics_param (v : JS.value) : sqlval :=
  if JS.truthy v then
    SText (match v with
           | JS.Obj j => j
           | JS.Str s => JSON_quote s
           | JS.Num x => if PrimFloat.is_infinity x then "null" else NumberToString x
           | v => JS.to_string v
           end)
  else SNull.

(** The parameters of [INSERT INTO companies], by column. *)
Definition company_params (user : identity) (data : jsobject)
    : list (string * option sqlval) :=
  [("tenant_id", Some (D1.bind_id (tenantId user)));
   ("name", D1.bind (JS.get data "name"));
   ("type", D1.bind (JS.or (JS.get data "type") (JS.Str "customer")));
   ("industry", D1.bind (JS.or (JS.get data "industry") JS.Null));
   ("website", D1.bind (JS.or (JS.get data "website") JS.Null));
   ("naics_codes", Some (naics_param (JS.get data "naicsCodes")));
   ("duns_number", D1.bind (JS.or (JS.get data "dunsNumber") JS.Null));
   ("cage_code", D1.bind (JS.or (JS.get data "cageCode") JS.Null))].

(** [app.post('/api/companies', ...)] *)
Definition post_companies (user : option identity) (b : option jsobject) (now : Z)
    : D1.DB -> response * D1.DB :=
  try_catch
    (user ← c_get_user user;
     data ← req_json b;
     vals ← bind_all (company_params user data);
     last_row_id ← run_insert "companies" vals now;
     company ← query (D1.select_by_id "companies" last_row_id);
     mret (c_json (JRow company) 201))
    (fun _ => c_json (JError "Failed to create company" None) 500).

(** [app.get('/api/captures', ...)] *)
Definition get_captures (user : option identity) : D1.DB -> response * D1.DB :=
  try_catch
    (user ← c_get_user user;
     result ← query (fun db =>
       D1.order_by (D1.desc "created_at")
         ((fun c =>
            <["capture_manager_name" :=
                full_name (joined db "users" c "capture_manager_id")]> c)
          <$> D1.select_where "captures" (tenant_is (tenantId user)) db));
     mret (c_json (JRows result) 200))
    (fun _ => c_json (JError "Failed to fetch captures" None) 500).

(** The parameters of [INSERT INTO captures], by column. *)
Definition capture_params (user : identity) (data : jsobject)
    : list (string * option sqlval) :=
  [("tenant_id", Some (D1.bind_id (tenantId user)));
   ("name", D1.bind (JS.get data "name"));
   ("customer_name", D1.bind (JS.get data "customerName"));
   ("capture_type", D1.bind (JS.get data "captureType"));
   ("current_phase",
     D1.bind (JS.or (JS.get data "currentPhase") (JS.Str "phase0_long_range")));
   ("pwin", D1.bind (JS.or (JS.get data "pwin") JS.Null));
   ("contract_value", D1.bind (JS.or (JS.get data "contractValue") JS.Null));
   ("rfp_release_date", D1.bind (JS.or (JS.get data "rfpReleaseDate") JS.Null));
   ("proposal_due_date", D1.bind (JS.or (JS.get data "proposalDueDate") JS.Null));
   ("capture_manager_id", Some (D1.bind_id (userId user)))].

(** [app.post('/api/captures', ...)] *)
Definition post_captures (user : option identity) (b : option jsobject) (now : Z)
    : D1.DB -> response * D1.DB :=
  try_catch
    (user ← c_get_user user;
     data ← req_json b;
     vals ← bind_all (capture_params user data);
     last_row_id ← run_insert "captures" vals now;
     capture ← query (D1.select_by_id "captures" last_row_id);
     mret (c_json (JRow capture) 201))
    (fun _ => c_json (JError "Failed to create capture" None) 500).

(** [stage = 'closed_won'] and [stage NOT IN ('closed_won', 'closed_lost')] *)
Definition won (r : D1.row) : bool :=
  D1.sql_eqb (D1.col r "stage") (SText "closed_won").
Definition lost (r : D1.row) : bool :=
  D1.sql_eqb (D1.col r "stage") (SText "closed_lost").
Definition open_stage (r : D1.row) : bool :=
  negb (D1.is_null (D1.col r "stage")) && negb (won r) && negb (lost r).

(** [SUM(c)] over selected rows: NULL when no row has a value. A REAL column
    holds reals, or text that is no number and counts as zero. *)
Definition sum_of (c : string) (rs : list D1.row) : sqlval :=
  let vs := List.filter (fun v => negb (D1.is_null v)) ((fun r => D1.col r c) <$> rs) in
  match vs with
  | [] => SNull
  | _ => SReal (sqlite_sum ((fun v => match v with
                                       | SReal x => x
                                       | SInt n => float_of_Z n
                                       | _ => 0%float
                                       end) <$> vs))
  end.

(** [v || 0] on a selected number *)
Definition or0 (v : sqlval) : sqlval := if D1.js_truthy v then v else SInt 0.

(** The four figures of the KPI dashboard over a tenant's opportunities. *)
Definition kpis_of (opps : list D1.row) : json :=
  let revenue := D1.coalesce0 (sum_of "amount" (List.filter won opps)) in
  let openOpps := SInt (Z.of_nat (length (List.filter open_stage opps))) in
  let closed := Z.of_nat (length (List.filter (fun r => won r || lost r) opps)) in
  let winRate :=
    if closed =? 0 then SNull
    else SReal (PrimFloat.div
           (PrimFloat.mul
              (float_of_Z (Z.of_nat (length (List.filter won opps)))) 100%float)
           (float_of_Z closed)) in
  let pipeline :=
    D1.coalesce0 (sum_of "expected_revenue" (List.filter open_stage opps)) in
  JKpis (or0 revenue) (or0 openOpps) (or0 winRate) (or0 pipeline).

(** [app.get('/api/dashboard/kpis', ...)] *)
Definition get_kpis (user : option identity) : D1.DB -> response * D1.DB :=
  try_catch
    (user ← c_get_user user;
     opps ← query (D1.select_where "opportunities" (tenant_is (tenantId user)));
     mret (c_json (kpis_of opps) 200))
    (fun _ => c_json (JError "Failed to fetch KPIs" None) 500).

(** [GROUP BY stage] with [COUNT( * )] and [COALESCE(SUM(amount), 0)]. *)
Fixpoint stages_of (rs : list D1.row) : list sqlval :=
  match rs with
  | [] => []
  | r :: rs' =>
      let s := D1.col r "stage" in
      s :: List.filter (fun s' => negb (D1.sql_eqb s s')) (stages_of rs')
  end.

Definition pipeline_of (opps : list D1.row) : list D1.row :=
  let rs := List.filter open_stage opps in
  D1.order_by (D1.asc "stage")
    ((fun s =>
       let grp := List.filter (fun r => D1.sql_eqb (D1.col r "stage") s) rs in
       (list_to_map [
          ("stage", s);
          ("count", SInt (Z.of_nat (length grp)));
          ("value", D1.coalesce0 (sum_of "amount" grp))] : D1.row))
     <$> stages_of rs).

(** [app.get('/api/dashboard/pipeline-by-stage', ...)] *)
Definition get_pipeline (user : option identity) : D1.DB -> response * D1.DB :=
  try_catch
    (user ← c_get_user user;
     opps ← query (D1.select_where "opportunities" (tenant_is (tenantId user)));
     mret (c_json (JRows (pipeline_of opps)) 200))
    (fun _ => c_json (JError "Failed to fetch pipeline data" None) 500).

End Domain.

(** ** The application: middleware and routes *)

Inductive method := GET | POST | PUT | DELETE | OPTIONS.

Record request := Request {
  req_method : method;
  req_path : string;                    (* c.req.path *)
  req_authorization : option string;    (* c.req.header('Authorization') *)
  req_query : gmap string string;       (* c.req.query() *)
  req_body : option jsobject;           (* c.req.json() *)
}.

Record bindings := Bindings {
  JWT_SECRET : string;
  ENCRYPTION_KEY : string;
}.

Section App.
Context `{Runtime}.

(** The route table, in registration order. [path] matches
    ['/api/opportunities/:id'] when one non-empty segment follows the prefix. *)
Definition opportunity_id (path : string) : option string :=
  if String.prefix "/api/opportunities/" path then
    let id := substring_from 19 path in
    if String.eqb id "" || includes "/" id then None else Some id
  else None.

Definition route (env : bindings) (user : option identity) (req : request)
    (now : Z) : D1.DB -> response * D1.DB :=
  let path := req_path req in
  match req_method req with
  | POST =>
      if String.eqb path "/api/auth/register" then
        post_register path (req_body req) now
      else if String.eqb path "/api/auth/login" then
        post_login (JWT_SECRET env) path (req_body req) now
      else if String.eqb path "/api/opportunities" then
        post_opportunities user (req_body req) now
      else if String.eqb path "/api/contacts" then
        post_contacts user (req_body req) now
      else if String.eqb path "/api/companies" then
        post_companies user (req_body req) now
      else if String.eqb path "/api/captures" then
        post_captures user (req_body req) now
      else fun db => (c_json JNotFound 404, db)
  | GET =>
      if String.eqb path "/api/opportunities" then
        get_opportunities user (req_query req)
      else if String.eqb path "/api/contacts" then get_contacts user
      else if String.eqb path "/api/companies" then get_companies user
      else if String.eqb path "/api/captures" then get_captures user
      else if String.eqb path "/api/dashboard/kpis" then get_kpis user
      else if String.eqb path "/api/dashboard/pipeline-by-stage" then
        get_pipeline user
      else if String.eqb path "/health" then
        fun db => (c_json (JHealth now) 200, db)
      else fun db => (c_json JNotFound 404, db)
  | PUT =>
      match opportunity_id path with
      | Some id => put_opportunity user id (req_body req) now
      | None => fun db => (c_json JNotFound 404, db)
      end
  | _ => fun db => (c_json JNotFound 404, db)
  end.

(** [app.use('/api/*', ...)]: the JWT authentication middleware. [next] is the
    rest of the chain, given what [c.set('user', ...)] attached. *)
Definition auth_middleware (env : bindings) (req : request) (now : Z)
    (next : option identity -> D1.DB -> response * D1.DB)
    : D1.DB -> response * D1.DB :=
  let path := req_path req in
  (* Skip auth for login and register *)
  if includes "/auth/login" path || includes "/auth/register" path then next None
  else
    match req_authorization req with
    | None => fun db => (c_json (JError "Unauthorized" None) 401, db)
    | Some authHeader =>
        if String.eqb authHeader "" || negb (String.prefix "Bearer " authHeader)
        then fun db => (c_json (JError "Unauthorized" None) 401, db)
        else
          let token := substring_from 7 authHeader in
          match verifyJWT token (JWT_SECRET env) now with
          | inr payload =>
              next (Some (Identity (userId (sub payload)) (tenantId (sub payload))
                            (email (sub payload)) (role (sub payload))))
          | inl _ => fun db => (c_json (JError "Invalid token" None) 401, db)
          end
    end.

(** The Hono application: CORS answers a preflight itself; the middleware
    guards ['/api/*']; then the routes. *)
Definition app (env : bindings) (req : request) (now : Z)
    : D1.DB -> response * D1.DB :=
  match req_method req with
  | OPTIONS => fun db => (c_json JEmpty 204, db)
  | _ =>
      if String.eqb (req_path req) "/api" || String.prefix "/api/" (req_path req)
      then auth_middleware env req now (fun user => route env user req now)
      else route env None req now
  end.

End App.

(** ** A reference runtime

    HMAC-SHA256 as FIPS 180-4 and RFC 2104 define it, JSON for claims objects as
    [JSON.stringify] prints them, and number conversions that are exact on
    integers (what the worked examples use; other numerals are not covered).
    bcrypt is stood in for by a tagged copy of the password. *)

Module Reference.

Definition bytes_of (s : string) : list Z :=
  (fun c => Z.of_N (code c)) <$> list_ascii_of_string s.

Definition string_of_bytes (l : list Z) : string :=
  string_of_list_ascii ((fun b => chr (Z.to_N b)) <$> l).

(** *** SHA-256 *)

Definition w32 (x : Z) : Z := x mod 2 ^ 32.
Definition rotr (n x : Z) : Z := w32 (Z.lor (Z.shiftr x n) (Z.shiftl x (32 - n))).
Definition Ch (x y z : Z) : Z :=
  Z.lxor (Z.land x y) (Z.land (Z.lxor x (2 ^ 32 - 1)) z).
Definition Maj (x y z : Z) : Z :=
  Z.lxor (Z.lxor (Z.land x y) (Z.land x z)) (Z.land y z).
Definition Sigma0 (x : Z) : Z := Z.lxor (Z.lxor (rotr 2 x) (rotr 13 x)) (rotr 22 x).
Definition Sigma1 (x : Z) : Z := Z.lxor (Z.lxor (rotr 6 x) (rotr 11 x)) (rotr 25 x).
Definition sigma0 (x : Z) : Z := Z.lxor (Z.lxor (rotr 7 x) (rotr 18 x)) (Z.shiftr x 3).
Definition sigma1 (x : Z) : Z := Z.lxor (Z.lxor (rotr 17 x) (rotr 19 x)) (Z.shiftr x 10).

Definition K256 : list Z := [
  1116352408; 1899447441; 3049323471; 3921009573; 961987163; 1508970993;
  2453635748; 2870763221; 3624381080; 310598401; 607225278; 1426881987;
  1925078388; 2162078206; 2614888103; 3248222580; 3835390401; 4022224774;
  264347078; 604807628; 770255983; 1249150122; 1555081692; 1996064986;
  2554220882; 2821834349; 2952996808; 3210313671; 3336571891; 3584528711;
  113926993; 338241895; 666307205; 773529912; 1294757372; 1396182291;
  1695183700; 1986661051; 2177026350; 2456956037; 2730485921; 2820302411;
  3259730800; 3345764771; 3516065817; 3600352804; 4094571909; 275423344;
  430227734; 506948616; 659060556; 883997877; 958139571; 1322822218;
  1537002063; 1747873779; 1955562222; 2024104815; 2227730452; 2361852424;
  2428436474; 2756734187; 3204031479; 3329325298].

Definition H256 : list Z := [
  1779033703; 3144134277; 1013904242; 2773480762; 1359893119; 2600822924;
  528734635; 1541459225].

(** The message followed by 0x80, zeros, and its bit length on 8 bytes. *)
Definition be_bytes (n : nat) (x : Z) : list Z :=
  (fun i => (x / 2 ^ (8 * Z.of_nat i)) mod 256) <$> rev (seq 0 n).

Definition pad (msg : list Z) : list Z :=
  let len := Z.of_nat (length msg) in
  let zeros := Z.to_nat ((55 - len) mod 64) in
  msg ++ [128] ++ repeat 0 zeros ++ be_bytes 8 (8 * len).

Fixpoint words (l : list Z) : list Z :=
  match l with
  | a :: b :: c :: d :: r => (((a * 256 + b) * 256 + c) * 256 + d) :: words r
  | _ => []
  end.

Fixpoint blocks (fuel : nat) (ws : list Z) : list (list Z) :=
  match fuel, ws with
  | S f, _ :: _ => take 16 ws :: blocks f (drop 16 ws)
  | _, _ => []
  end.

Definition at_ (ws : list Z) (i : nat) : Z := nth i ws 0.

Fixpoint schedule (n : nat) (ws : list Z) : list Z :=
  match n with
  | O => ws
  | S n' =>
      let t := length ws in
      schedule n'
        (ws ++ [w32 (sigma1 (at_ ws (t - 2)) + at_ ws (t - 7)
                     + sigma0 (at_ ws (t - 15)) + at_ ws (t - 16))])
  end.

Definition round (st : list Z) (kw : Z * Z) : list Z :=
  match st with
  | [a; b; c; d; e; f; g; h] =>
      let t1 := h + Sigma1 e + Ch e f g + fst kw + snd kw in
      let t2 := Sigma0 a + Maj a b c in
      [w32 (t1 + t2); a; b; c; w32 (d + t1); e; f; g]
  | _ => st
  end.

Definition compress (st block : list Z) : list Z :=
  let w := schedule 48 block in
  let st' := foldl round st (zip K256 w) in
  (fun p => w32 (fst p + snd p)) <$> zip st st'.

Definition sha256 (msg : list Z) : list Z :=
  let ws := words (pad msg) in
  foldl compress H256 (blocks (length ws) ws) ≫= be_bytes 4.

(** *** HMAC *)

Definition hmac (key msg : list Z) : list Z :=
  let key := if (64 <? length key)%nat then sha256 key else key in
  let key := (key ++ repeat 0 (64 - length key)%nat)%list in
  sha256 ((Z.lxor 92 <$> key) ++ sha256 ((Z.lxor 54 <$> key) ++ msg))%list.

Definition hmac_sha256 (key msg : string) : string :=
  string_of_bytes (hmac (bytes_of key) (bytes_of msg)).

(** *** Numbers as text *)

Definition dec (n : Z) : string := NilZero.string_of_int (Z.to_int n).

Definition all_digits (s : string) : bool :=
  forallb (fun c => let n := code c in ((48 <=? n) && (n <=? 57))%N)
    (list_ascii_of_string s).

(** An optional sign and decimal digits. *)
Definition parse_dec (s : string) : option Z :=
  let digits := match s with
                | String "-"%char r => r
                | _ => s
                end in
  if String.eqb digits "" || negb (all_digits digits) then None
  else Z.of_int <$> NilZero.int_of_string s.

Definition StringToNumber (s : string) : float :=
  match parse_dec s with
  | Some n => float_of_Z n
  | None => if String.eqb s "" then 0%float else PrimFloat.nan
  end.

Definition NumberToString (x : float) : string :=
  match Z_of_float x with
  | Some n => dec n
  | None => if PrimFloat.is_nan x then "NaN"
            else if PrimFloat.ltb x 0 then "-Infinity" else "Infinity"
  end.

Definition sqlite_numeric (s : string) : option sqlval := SInt <$> parse_dec s.

Definition sqlite_text (v : sqlval) : string :=
  match v with
  | SInt n => dec n
  | SReal x => match Z_of_float x with
               | Some n => dec n ++ ".0"
               | None => NumberToString x
               end
  | SText s => s
  | _ => ""
  end.

Definition sqlite_sum (l : list float) : float := foldl PrimFloat.add 0%float l.

(** *** JSON *)

Definition hex_digit (n : N) : ascii :=
  default "0"%char (String.get (N.to_nat n) "0123456789abcdef").

Fixpoint escape (s : string) : string :=
  match s with
  | EmptyString => EmptyString
  | String c r =>
      let n := code c in
      (if (n =? 34)%N then "\" ++ dq
       else if (n =? 92)%N then "\\"
       else if (n =? 8)%N then "\b"
       else if (n =? 9)%N then "\t"
       else if (n =? 10)%N then "\n"
       else if (n =? 12)%N then "\f"
       else if (n =? 13)%N then "\r"
       else if (n <? 32)%N then
         "\u00" ++ String (hex_digit (n / 16)) (String (hex_digit (n mod 16)) "")
       else String c "") ++ escape r
  end.

Definition JSON_quote (s : string) : string := dq ++ escape s ++ dq.

Definition key (k : string) : string := dq ++ k ++ dq ++ ":".

Definition JSON_stringify (c : claims) : string :=
  "{" ++ key "userId" ++ dec (userId (sub c))
  ++ "," ++ key "tenantId" ++ dec (tenantId (sub c))
  ++ "," ++ key "email" ++ JSON_quote (email (sub c))
  ++ "," ++ key "role" ++ JSON_quote (role (sub c))
  ++ "," ++ key "iat" ++ dec (iat c)
  ++ "," ++ key "exp" ++ dec (exp c) ++ "}".

(** Reading back: the text after a given prefix. *)
Fixpoint after (p s : string) : option string :=
  match p, s with
  | EmptyString, _ => Some s
  | String a p', String b s' => if Ascii.eqb a b then after p' s' else None
  | _, EmptyString => None
  end.

(** A number, up to the next comma or closing brace. *)
Fixpoint number (s : string) : string * string :=
  match s with
  | EmptyString => (EmptyString, EmptyString)
  | String c r =>
      if Ascii.eqb c ","%char || Ascii.eqb c "}"%char then (EmptyString, s)
      else let (d, rest) := number r in (String c d, rest)
  end.

Definition hex_value (c : ascii) : option N :=
  index_in c "0123456789abcdef" 0%N.

(** The characters of a string literal after its opening quote, and what
    follows its closing quote. *)
Fixpoint literal (s : string) : option (string * string) :=
  match s with
  | EmptyString => None
  | String c r =>
      if (code c =? 34)%N then Some (EmptyString, r)
      else if (code c =? 92)%N then
        match r with
        | String e r' =>
            let simple (x : N) :=
              p ← literal r'; Some (String (chr x) (fst p), snd p) in
            if Ascii.eqb e "b"%char then simple 8%N
            else if Ascii.eqb e "t"%char then simple 9%N
            else if Ascii.eqb e "n"%char then simple 10%N
            else if Ascii.eqb e "f"%char then simple 12%N
            else if Ascii.eqb e "r"%char then simple 13%N
            else if Ascii.eqb e "u"%char then
              match r' with
              | String "0"%char (String "0"%char (String h (String l r''))) =>
                  hi ← hex_value h;
                  lo ← hex_value l;
                  p ← literal r'';
                  Some (String (chr (hi * 16 + lo)) (fst p), snd p)
              | _ => None
              end
            else simple (code e)
        | EmptyString => None
        end
      else p ← literal r; Some (String c (fst p), snd p)
  end.

Definition field_int (k : string) (s : string) : option (Z * string) :=
  s ← after (key k) s;
  let (d, rest) := number s in
  n ← parse_dec d;
  Some (n, rest).

Definition field_str (k : string) (s : string) : option (string * string) :=
  s ← after (key k ++ dq) s;
  literal s.

(** Accepts the texts [JSON_stringify] prints: these keys, in this order, no
    white space. *)
Definition JSON_parse (s : string) : option claims :=
  s ← after "{" s;
  '(uid, s) ← field_int "userId" s;
  s ← after "," s;
  '(tid, s) ← field_int "tenantId" s;
  s ← after "," s;
  '(em, s) ← field_str "email" s;
  s ← after "," s;
  '(ro, s) ← field_str "role" s;
  s ← after "," s;
  '(i, s) ← field_int "iat" s;
  s ← after "," s;
  '(e, s) ← field_int "exp" s;
  if String.eqb s "}" then Some (Claims (Identity uid tid em ro) i e) else None.

(** *** bcrypt, stood in for *)

Definition bcrypt_hash (password : string) : string := "$2a$10$" ++ password.
Definition bcrypt_compare (password hash : string) : bool :=
  String.eqb hash (bcrypt_hash password).

Definition parseInt (s : string) : float :=
  match parse_dec s with
  | Some n => float_of_Z n
  | None => PrimFloat.nan
  end.

Definition runtime : Runtime :=
  Build_Runtime hmac_sha256 JSON_stringify JSON_parse JSON_quote
    bcrypt_hash bcrypt_compare StringToNumber parseInt NumberToString
    sqlite_numeric sqlite_text sqlite_sum.

End Reference.

(** ** The demonstration database (seed.sql) *)

Module Demo.

#[local] Existing Instance Reference.runtime.

Definition empty : D1.DB := D1.Db ∅ [].

(** A seed statement; the clock of the seed is the epoch. *)
Definition load (tname : string) (vals : list (string * sqlval)) (db : D1.DB)
    : D1.DB :=
  match D1.insert tname vals 0 db with
  | Some (_, db') => db'
  | None => db
  end.

Definition seed : D1.DB :=
  load "captures" [("tenant_id", SInt 1);
      ("name", SText "DoD Cybersecurity Initiative");
      ("customer_name", SText "Department of Defense");
      ("capture_type", SText "joint"); ("current_phase", SText "phase2_qualifying");
      ("pwin", SInt 55); ("contract_value", SInt 5000000);
      ("capture_manager_id", SInt 1)]
  (load "opportunities" [("tenant_id", SInt 1);
      ("name", SText "Federal Cloud Migration"); ("company_id", SInt 1);
      ("type", SText "new_business"); ("stage", SText "qualification");
      ("amount", SInt 2500000); ("probability", SInt 60);
      ("expected_revenue", SInt 1500000); ("owner_id", SInt 1)]
  (load "contacts" [("tenant_id", SInt 1); ("first_name", SText "John");
      ("last_name", SText "Anderson"); ("email", SText "john@acme.gov");
      ("company_id", SInt 1); ("is_decision_maker", SInt 1)]
  (load "companies" [("tenant_id", SInt 1);
      ("name", SText "Acme Government Solutions"); ("type", SText "customer");
      ("industry", SText "Federal Contracting")]
  (load "users" [("tenant_id", SInt 1); ("email", SText "demo@example.com");
      ("password_hash", SText (Reference.bcrypt_hash "password123"));
      ("first_name", SText "Demo"); ("last_name", SText "User");
      ("role", SText "admin")]
  (load "tenants" [("tenant_key", SText "demo");
      ("company_name", SText "Demo Company"); ("subscription_tier", SText "trial");
      ("contact_email", SText "demo@example.com")] empty))))).

(** The seed plus a second tenant with one user. *)
Definition two_tenants : D1.DB :=
  load "users" [("tenant_id", SInt 2); ("email", SText "ann@other.example");
      ("password_hash", SText (Reference.bcrypt_hash "hunter2hunter2"));
      ("first_name", SText "Ann"); ("last_name", SText "Other");
      ("role", SText "admin")]
  (load "tenants" [("tenant_key", SText "other-co");
      ("company_name", SText "Other Co"); ("contact_email", SText "ann@other.example")]
     seed).

Definition env : bindings := Bindings "s3cret" "k".
Definition demo_user : identity := Identity 1 1 "demo@example.com" "admin".
Definition other_user : identity := Identity 2 2 "ann@other.example" "admin".

(** The seed after the demo tenant and its user were deactivated. *)
Definition deactivated : D1.DB :=
  default seed
    (db ← D1.update_row "tenants" 1 (fun _ => true) [("is_active", SInt 0)] seed;
     D1.update_row "users" 1 (fun _ => true) [("is_active", SInt 0)] db).

(** An instant, in milliseconds since the epoch, and the header of a request
    whose token was issued at it. *)
Definition clock : Z := 1700000000000.

Definition bearer (user : identity) : option string :=
  Some ("Bearer " ++ generateJWT user (JWT_SECRET env) clock).

Definition list_companies (user : identity) : request :=
  Request GET "/api/companies" (bearer user) ∅ None.

(** A creation whose body names another tenant. *)
Definition create_company (user : identity) : request :=
  Request POST "/api/companies" (bearer user) ∅
    (Some (list_to_map [("name", JS.Str "Globex"); ("type", JS.Str "partner");
                        ("tenantId", JS.Num 1); ("tenant_id", JS.Num 1)])).

Definition update_opportunity (user : identity) (id : string) (data : jsobject)
    : request :=
  Request PUT ("/api/opportunities/" ++ id) (bearer user) ∅ (Some data).

(** The body of the creation scenario. *)
Definition cloud_migration : jsobject :=
  list_to_map [("name", JS.Str "Cloud Migration II");
               ("type", JS.Str "new_business");
               ("amount", JS.Num 2500000); ("probability", JS.Num 60)].

Definition login_with (tenantKey address password : string) : jsobject :=
  list_to_map [("tenantKey", JS.Str tenantKey); ("email", JS.Str address);
               ("password", JS.Str password)].

End Demo.

(** * Notions used to state the properties *)

(** [has c s]: the character occurs in the string. *)
Fixpoint has (c : ascii) (s : string) : bool :=
  match s with
  | EmptyString => false
  | String d r => Ascii.eqb d c || has c r
  end.


Section TokenNotions.
Context `{Runtime}.

(** The three segments of an issued token. *)
Definition segments (payload : identity) (secret : string) (at_ : Z)
    : string * string * string :=
  let h := btoa header_json in
  let p := btoa (JSON_stringify (jwtPayload payload at_)) in
  (h, p, signHS256 (h ++ "." ++ p) secret).



End TokenNotions.

(** The 64 indices into the base64 alphabet. *)
Definition sextets : list N := N.of_nat <$> seq 0 64.

(** Lookup in a literal column list. *)
Fixpoint assoc {V} (k : string) (l : list (string * V)) : option V :=
  match l with
  | [] => None
  | (k', v) :: l' => if String.eqb k' k then Some v else assoc k l'
  end.

(** The rows a response carries. *)
Definition rows_of (b : json) : list D1.row :=
  match b with
  | JRows rs => rs
  | JRow (Some r) => [r]
  | _ => []
  end.

(** Every row the response carries belongs to tenant [t]. *)
Definition reads_only (t : Z) (resp : response) : Prop :=
  forall r, r ∈ rows_of (body resp) -> tenant_is t r = true.

(** Every row of an id-keyed table that the step from [db] to [db'] created or
    changed belongs to tenant [t]. *)
Definition writes_only (t : Z) (db db' : D1.DB) : Prop :=
  forall tname k r,
    D1.rows (D1.table_of db' tname) !! k = Some r ->
    D1.rows (D1.table_of db tname) !! k = Some r \/ tenant_is t r = true.

(** A handler's answer and effect stay within tenant [t]. *)
Definition guarded (t : Z) (db : D1.DB) (result : response * D1.DB) : Prop :=
  reads_only t (fst result) /\ writes_only t db (snd result).

(** The request was not counted and not refused by the rate limiter. *)
Definition unmetered (db : D1.DB) (result : response * D1.DB) : Prop :=
  D1.rate_limits (snd result) = D1.rate_limits db /\ status (fst result) <> 429.

(** The value [v] of a joined column is NULL, or is what [f] reads off a row
    of table [tname] that belongs to tenant [t]. *)
Definition drawn_from (db : D1.DB) (t : Z) (tname : string)
    (f : D1.row -> sqlval) (v : sqlval) : Prop :=
  v = SNull
  \/ exists k r, D1.rows (D1.table_of db tname) !! k = Some r
                 /\ tenant_is t r = true /\ v = f r.

(** [r] is a row of table [tname] that belongs to tenant [t], as it is stored
    and with its id, but for the columns [extra] that the query adds. *)
Definition stored_for (db : D1.DB) (t : Z) (tname : string)
    (extra : list string) (r : D1.row) : Prop :=
  exists k r0, D1.rows (D1.table_of db tname) !! k = Some r0
               /\ tenant_is t r0 = true
               /\ forall c, c ∉ extra -> D1.col r c = D1.col (D1.with_id k r0) c.

(** Every capture whose manager is a row id is managed by a stored user, who
    belongs to each tenant the capture belongs to. *)
Definition managers_in_tenant (db : D1.DB) : Prop :=
  forall k c m,
    D1.rows (D1.table_of db "captures") !! k = Some c ->
    D1.col c "capture_manager_id" = SInt m ->
    exists u, D1.rows (D1.table_of db "users") !! m = Some u
              /\ forall t, tenant_is t c = true -> tenant_is t u = true.

(** The user an identity names is stored, and belongs to the tenant the
    identity names. *)
Definition user_in_tenant (db : D1.DB) (ident : identity) : Prop :=
  exists u, D1.rows (D1.table_of db "users") !! userId ident = Some u
            /\ tenant_is (tenantId ident) u = true.

(** A check that suffices for [managers_in_tenant] on one capture: its
    manager, if it is a row id, is a stored user whose tenant is the same
    integer. *)
Definition manager_of_tenant (db : D1.DB) (c : D1.row) : bool :=
  match D1.col c "capture_manager_id" with
  | SInt m =>
      match D1.rows (D1.table_of db "users") !! m with
      | Some u =>
          match D1.col c "tenant_id", D1.col u "tenant_id" with
          | SInt a, SInt b => a =? b
          | _, _ => false
          end
      | None => false
      end
  | _ => true
  end.

(** The message of an error answer. *)
Definition error_of (b : json) : option string :=
  match b with JError msg _ => Some msg | _ => None end.

Section LoginNotions.
Context `{Runtime}.

(** The ways a login attempt with well-formed fields fails, against the
    database [db] the rate limiter leaves behind. *)
Inductive login_failure (data : jsobject) (db : D1.DB) : Prop :=
  | unknown_tenant key :
      D1.bind (JS.get data "tenantKey") = Some key ->
      find_tenant (D1.apply_affinity D1.AffText key) db = None ->
      login_failure data db
  | inactive_tenant key tenant :
      D1.bind (JS.get data "tenantKey") = Some key ->
      find_tenant (D1.apply_affinity D1.AffText key) db = Some tenant ->
      D1.js_truthy (D1.col tenant "is_active") = false ->
      login_failure data db
  | unknown_user key tenant address :
      D1.bind (JS.get data "tenantKey") = Some key ->
      find_tenant (D1.apply_affinity D1.AffText key) db = Some tenant ->
      D1.js_truthy (D1.col tenant "is_active") = true ->
      D1.bind (JS.get data "email") = Some address ->
      find_user (D1.id_of tenant) (D1.apply_affinity D1.AffText address) db = None ->
      login_failure data db
  | wrong_password key tenant address user password hash :
      D1.bind (JS.get data "tenantKey") = Some key ->
      find_tenant (D1.apply_affinity D1.AffText key) db = Some tenant ->
      D1.js_truthy (D1.col tenant "is_active") = true ->
      D1.bind (JS.get data "email") = Some address ->
      find_user (D1.id_of tenant) (D1.apply_affinity D1.AffText address) db
        = Some user ->
      JS.get data "password" = JS.Str password ->
      D1.col user "password_hash" = SText hash ->
      bcrypt_compare password hash = false ->
      login_failure data db.

(** [rateLimit] called at each instant of [times] in turn: what each call
    returned, and the table at the end. *)
Fixpoint limited (path : string) (ident : JS.value) (limit : option Z)
    (times : list Z) (db : D1.DB)
    : list (outcome (option response)) * list D1.rate_limit :=
  match times with
  | [] => ([], D1.rate_limits db)
  | now :: times' =>
      let '(o, db') := rateLimit path ident limit now db in
      let '(os, final) := limited path ident limit times' db' in
      (o :: os, final)
  end.

End LoginNotions.

(** A column of the row a handler answered with. *)
Definition field (r : response) (c : string) : option sqlval :=
  match body r with
  | JRow (Some row) => Some (D1.col row c)
  | _ => None
  end.

(** Every counter stands at one and was started before [now]. *)
Definition single_before (now : Z) (l : list D1.rate_limit) : Prop :=
  Forall (fun r => D1.count r = 1 /\ D1.window_start r < now) l.

(** * Further notions *)

(** The body carries neither rows nor a token nor figures: it is an error, the
    not-found answer, the empty preflight answer or the health report. *)
Definition carries_no_data (b : json) : bool :=
  match b with
  | JError _ _ | JNotFound | JEmpty | JHealth _ => true
  | _ => false
  end.

(** The characters of a tenant key: lower-case letters, digits and the dash. *)
Definition slug_char (c : ascii) : bool := alnum c || Ascii.eqb c "-"%char.

Fixpoint last_char (s : string) : option ascii :=
  match s with
  | EmptyString => None
  | String c EmptyString => Some c
  | String _ r => last_char r
  end.

(** Referential integrity of [users.tenant_id]: every stored user belongs to a
    stored tenant. *)
Definition user_has_tenant (db : D1.DB) (u : D1.row) : bool :=
  match D1.col u "tenant_id" with
  | SInt t => bool_decide (is_Some (D1.rows (D1.table_of db "tenants") !! t))
  | _ => false
  end.

Definition users_have_tenants (db : D1.DB) : Prop :=
  map_Forall (fun _ u => user_has_tenant db u = true)
    (D1.rows (D1.table_of db "users")).

Section ListNotions.
Context `{Runtime}.

(** The two joined columns of an opportunity in a list. *)
Definition with_names (db : D1.DB) (o : D1.row) : D1.row :=
  <["owner_name" := full_name (joined_in_tenant db "users" o "owner_id")]>
    (<["company_name" :=
         joined_col (joined_in_tenant db "companies" o "company_id") "name"]> o).

(** The [stage] query parameter admits the row: it is absent or empty, or the
    row is in that stage. *)
Definition stage_matches (q : gmap string string) (r : D1.row) : Prop :=
  match q !! "stage" with
  | Some s => s = "" \/ D1.col r "stage" = SText s
  | None => True
  end.

End ListNotions.

(** The win rate a KPI answer carries. *)
Definition win_rate (b : json) : option sqlval :=
  match b with
  | JKpis _ _ w _ => Some w
  | _ => None
  end.

(** From [db] to [db']: the captures are as they were, and every stored user
    is still stored, in the same tenant. *)
Definition memberships_kept (db db' : D1.DB) : Prop :=
  D1.table_of db' "captures" = D1.table_of db "captures"
  /\ forall k u, D1.rows (D1.table_of db "users") !! k = Some u ->
       exists u', D1.rows (D1.table_of db' "users") !! k = Some u'
                  /\ D1.col u' "tenant_id" = D1.col u "tenant_id".

(** An action that keeps the memberships, whatever it returns or throws. *)
Definition keeps_memberships {A} (m : action A) : Prop :=
  forall db, memberships_kept db (snd (m db)).

(** * Further scenario data *)

Module Cases.

#[local] Existing Instance Reference.runtime.

(** The body of a registration, and two variations of it: the same company
    name written differently, and the same body without its password. *)
Definition registration : jsobject :=
  list_to_map [("companyName", JS.Str "Initech Federal");
               ("email", JS.Str "peter@initech.example");
               ("password", JS.Str "tps-reports-123");
               ("firstName", JS.Str "Peter"); ("lastName", JS.Str "Gibbons")].

Definition registration_again : jsobject :=
  list_to_map [("companyName", JS.Str "INITECH  (Federal)");
               ("email", JS.Str "bill@initech.example");
               ("password", JS.Str "initech-rules-1");
               ("firstName", JS.Str "Bill"); ("lastName", JS.Str "Lumbergh")].

Definition registration_without_password : jsobject :=
  list_to_map [("companyName", JS.Str "Initech Federal");
               ("email", JS.Str "peter@initech.example");
               ("firstName", JS.Str "Peter"); ("lastName", JS.Str "Gibbons")].

(** The database after the registration, on the seed data. *)
Definition registered : D1.DB :=
  snd (post_register "/api/auth/register" (Some registration) Demo.clock
         Demo.seed).

(** A request that presents a token of the demo user 25 hours after its
    issue. *)
Definition late : Z := Demo.clock + 25 * 60 * 60 * 1000.

(** A database whose only content is a full login window, opened a minute and
    a millisecond before [Demo.clock]. *)
Definition stale_window : D1.DB :=
  D1.Db ∅ [D1.RateLimit "peter@initech.example" "/api/auth/login" 10
             (Demo.clock - 60001)].

End Cases.

(** * Properties *)

(** ** Strings *)

Lemma has_app c a b : has c (a ++ b) = has c a || has c b.
Proof. induction a as [|d a IH]; simpl; [done|]. by rewrite IH, orb_assoc. Qed.

Lemma split_free sep s : has sep s = false -> split sep s = [s].
Proof.
  induction s as [|c s IH]; simpl; [done|].
  intros [Hc Hs]%orb_false_elim. rewrite Hc, (IH Hs). done.
Qed.

Lemma split_app sep a b :
  has sep a = false -> split sep (a ++ String sep b) = a :: split sep b.
Proof.
  induction a as [|c a IH]; simpl.
  - intros _. by rewrite Ascii.eqb_refl.
  - intros [Hc Ha]%orb_false_elim. rewrite Hc, (IH Ha). done.
Qed.

(** ** Base64 *)

Lemma code_lt c : (code c < 256)%N.
Proof. apply N_ascii_bounded. Qed.

Lemma chr_code c : chr (code c) = c.
Proof. apply ascii_N_embedding. Qed.

Lemma sextet_in i : (i < 64)%N -> In i sextets.
Proof.
  intros Hi. unfold sextets. apply in_map_iff. exists (N.to_nat i).
  split; [lia|]. apply in_seq. lia.
Qed.

Lemma b64_index_char i : (i < 64)%N -> b64_index (b64_char i) = Some i.
Proof.
  intros Hi. revert i Hi.
  assert (H : Forall (fun i => b64_index (b64_char i) = Some i) sextets)
    by (repeat constructor).
  intros i Hi. eapply Forall_forall in H; [exact H|]. by apply list_elem_of_In, sextet_in.
Qed.

Lemma b64_char_plain i : (i < 64)%N ->
  Ascii.eqb (b64_char i) "."%char = false /\ Ascii.eqb (b64_char i) "="%char = false.
Proof.
  intros Hi. revert i Hi.
  assert (H : Forall (fun i => Ascii.eqb (b64_char i) "."%char = false
                               /\ Ascii.eqb (b64_char i) "="%char = false) sextets)
    by (repeat constructor).
  intros i Hi. eapply Forall_forall in H; [exact H|]. by apply list_elem_of_In, sextet_in.
Qed.

(** Arithmetic on bytes and sextets: [lia] with division by constants. *)
Ltac Zify.zify_post_hook ::= Z.to_euclidean_division_equations.

Ltac bytes :=
  repeat match goal with
         | c : ascii |- _ =>
             lazymatch goal with
             | H : (code c < 256)%N |- _ => fail
             | _ => pose proof (code_lt c)
             end
         end.

(** Induction three characters at a time, the way [btoa] recurses. *)
Lemma string_ind3 (P : string -> Prop) :
  P EmptyString ->
  (forall a, P (String a EmptyString)) ->
  (forall a b, P (String a (String b EmptyString))) ->
  (forall a b c r, P r -> P (String a (String b (String c r)))) ->
  forall s, P s.
Proof.
  intros H0 H1 H2 H3 s.
  induction s as [s IH] using
    (well_founded_induction (wf_inverse_image _ nat _ String.length lt_wf)).
  destruct s as [|a [|b [|c r]]]; auto.
  apply H3, IH. simpl. lia.
Qed.

Lemma chr_eq n c : n = code c -> chr n = c.
Proof. intros ->. apply chr_code. Qed.

Lemma atob_btoa s : atob (btoa s) = Some s.
Proof.
  induction s as [|a|a b|a b c r IH] using string_ind3; [done| | |];
    bytes; cbn [btoa atob String.append];
    rewrite !b64_index_char by lia; cbn [mbind option_bind].
  - cbn [Ascii.eqb Bool.eqb]. do 2 f_equal. apply chr_eq. lia.
  - destruct (b64_char_plain (code b mod 16 * 4)) as [_ ->]; [lia|].
    cbn [Ascii.eqb Bool.eqb].
    f_equal. f_equal; [|f_equal]; apply chr_eq; lia.
  - destruct (b64_char_plain (code c mod 64)) as [_ ->]; [lia|].
    rewrite IH. cbn [mbind option_bind].
    f_equal. f_equal; [|f_equal; [|f_equal]]; apply chr_eq; lia.
Qed.

Lemma btoa_has_no_dot s : has "."%char (btoa s) = false.
Proof.
  induction s as [|a|a b|a b c r IH] using string_ind3; [done| | |];
    bytes; cbn [btoa has].
  - destruct (b64_char_plain (code a / 4)) as [-> _]; [lia|].
    destruct (b64_char_plain (code a mod 4 * 16)) as [-> _]; [lia|]. done.
  - destruct (b64_char_plain (code a / 4)) as [-> _]; [lia|].
    destruct (b64_char_plain (code a mod 4 * 16 + code b / 16)) as [-> _]; [lia|].
    destruct (b64_char_plain (code b mod 16 * 4)) as [-> _]; [lia|]. done.
  - destruct (b64_char_plain (code a / 4)) as [-> _]; [lia|].
    destruct (b64_char_plain (code a mod 4 * 16 + code b / 16)) as [-> _]; [lia|].
    destruct (b64_char_plain (code b mod 16 * 4 + code c / 64)) as [-> _]; [lia|].
    destruct (b64_char_plain (code c mod 64)) as [-> _]; [lia|].
    apply IH.
Qed.

(** ** Tokens *)

Lemma split_three h p s :
  has "."%char h = false -> has "."%char p = false -> has "."%char s = false ->
  split "."%char (h ++ "." ++ p ++ "." ++ s) = [h; p; s].
Proof.
  intros Hh Hp Hs.
  change (h ++ "." ++ p ++ "." ++ s)
    with (h ++ String "."%char (p ++ String "."%char s)).
  rewrite (split_app _ _ _ Hh), (split_app _ _ _ Hp), (split_free _ _ Hs). done.
Qed.

Section TokenFacts.
Context `{Runtime}.

Lemma signHS256_has_no_dot data secret : has "."%char (signHS256 data secret) = false.
Proof. apply btoa_has_no_dot. Qed.

Lemma generateJWT_segments payload secret at_ :
  split "."%char (generateJWT payload secret at_) =
    let '(h, p, s) := segments payload secret at_ in [h; p; s].
Proof.
  unfold generateJWT, segments. cbv zeta.
  apply split_three; auto using btoa_has_no_dot, signHS256_has_no_dot.
Qed.

(** What [verifyJWT] answers on an issued token, at any later instant. *)
Lemma verifyJWT_generateJWT payload secret issued now :
  JSON_parse (JSON_stringify (jwtPayload payload issued))
    = Some (jwtPayload payload issued) ->
  verifyJWT (generateJWT payload secret issued) secret now =
    if issued / 1000 + 86400 <? now / 1000 then inl TokenExpired
    else inr (jwtPayload payload issued).
Proof.
  intros Hjson. unfold verifyJWT.
  rewrite generateJWT_segments. unfold segments. cbv zeta.
  cbn [lookup list_lookup interpolate default from_option id].
  rewrite bool_decide_eq_true_2 by done.
  rewrite atob_btoa. cbn [mbind option_bind]. rewrite Hjson.
  cbn [exp jwtPayload]. done.
Qed.

End TokenFacts.

Lemma seconds_within_a_day issued now :
  now <= issued + 24 * 60 * 60 * 1000 -> now / 1000 <= issued / 1000 + 86400.
Proof. lia. Qed.

(** C5 (amended). For a payload that is valid, in that parsing reads back
    the JSON of its claims, and any secret: a token issued for [payload] and
    verified with the same secret within 24 hours returns the original
    payload, as the subject of claims that add the issue and expiry seconds.
    The expiry is compared in whole seconds: verification fails with
    [TokenExpired] exactly when the expiry second is below the current second,
    and still succeeds during what is left of the second the token expires
    in. *)
Theorem token_round_trip_and_expiry `{Runtime} payload secret issued now :
  JSON_parse (JSON_stringify (jwtPayload payload issued))
    = Some (jwtPayload payload issued) ->
  (now <= issued + 24 * 60 * 60 * 1000 ->
     verifyJWT (generateJWT payload secret issued) secret now
       = inr (jwtPayload payload issued)
     /\ sub (jwtPayload payload issued) = payload)
  /\ (exp (jwtPayload payload issued) < now / 1000 ->
      verifyJWT (generateJWT payload secret issued) secret now = inl TokenExpired)
  /\ (now / 1000 <= exp (jwtPayload payload issued) ->
      verifyJWT (generateJWT payload secret issued) secret now
        = inr (jwtPayload payload issued)).
Proof.
  intros Hjson. rewrite (verifyJWT_generateJWT _ _ _ _ Hjson).
  cbn [exp jwtPayload sub].
  destruct (Z.ltb_spec (issued / 1000 + 86400) (now / 1000)) as [Hlate|Hearly].
  - split; [|split]; [intros Hnow%seconds_within_a_day; lia | done | lia].
  - split; [|split]; [done | lia | done].
Qed.

Section Worked.
#[local] Existing Instance Reference.runtime.

(** C5, as stated. One millisecond after the 24 hours (the token was issued at
    the epoch, so it expires at 86,400,000 ms) verification still succeeds. *)
Lemma token_still_accepted_after_expiry_instant :
  exp (jwtPayload Demo.demo_user 0) * 1000 < 86400001
  /\ verifyJWT (generateJWT Demo.demo_user "s3cret" 0) "s3cret" 86400001
     = inr (jwtPayload Demo.demo_user 0).
Proof. split; [done|]. vm_compute. reflexivity. Qed.

(** The demo user's token, on the reference runtime. *)
Lemma token_round_trip_and_expiry_witness :
  (verifyJWT (generateJWT Demo.demo_user "s3cret" 1700000000123) "s3cret"
     (1700000000123 + 86400000)
   = inr (jwtPayload Demo.demo_user 1700000000123)
   /\ sub (jwtPayload Demo.demo_user 1700000000123) = Demo.demo_user)
  /\ verifyJWT (generateJWT Demo.demo_user "s3cret" 1700000000123) "s3cret"
       1700086401000
     = inl TokenExpired.
Proof.
  destruct (token_round_trip_and_expiry Demo.demo_user "s3cret" 1700000000123
              (1700000000123 + 86400000)) as (Hin & _ & _);
    [vm_compute; reflexivity|].
  destruct (token_round_trip_and_expiry Demo.demo_user "s3cret" 1700000000123
              1700086401000) as (_ & Hout & _);
    [vm_compute; reflexivity|].
  split; [apply Hin; vm_compute; discriminate | apply Hout; vm_compute; reflexivity].
Defined.
End Worked.

Lemma bearer_header token :
  String.eqb ("Bearer " ++ token) "" = false
  /\ String.prefix "Bearer " ("Bearer " ++ token) = true
  /\ substring_from 7 ("Bearer " ++ token) = token.
Proof. repeat split; try reflexivity. by destruct token. Qed.

(** C10. What the authentication middleware decides (the answer it gives, or
    the identity it passes on) is fixed by the request, the secret and the
    clock: the same for every database and every continuation. In particular a
    token is accepted, with the identity it was issued for, throughout its 24
    hours, whatever has happened to the user or the tenant in the database. *)
Theorem middleware_ignores_database `{Runtime} env req now :
  (exists decision : response + option identity,
     forall next db,
       auth_middleware env req now next db =
         match decision with
         | inl r => (r, db)
         | inr user => next user db
         end)
  /\ forall payload issued,
       includes "/auth/login" (req_path req) = false ->
       includes "/auth/register" (req_path req) = false ->
       req_authorization req
         = Some ("Bearer " ++ generateJWT payload (JWT_SECRET env) issued) ->
       JSON_parse (JSON_stringify (jwtPayload payload issued))
         = Some (jwtPayload payload issued) ->
       now <= issued + 24 * 60 * 60 * 1000 ->
       forall next db, auth_middleware env req now next db = next (Some payload) db.
Proof.
  split.
  - unfold auth_middleware.
    destruct (includes "/auth/login" (req_path req)
              || includes "/auth/register" (req_path req));
      [by exists (inr None)|].
    destruct (req_authorization req) as [authHeader|];
      [|by exists (inl (c_json (JError "Unauthorized" None) 401))].
    destruct (String.eqb authHeader "" || negb (String.prefix "Bearer " authHeader));
      [by exists (inl (c_json (JError "Unauthorized" None) 401))|].
    destruct (verifyJWT _ _ _) as [e|payload].
    + by exists (inl (c_json (JError "Invalid token" None) 401)).
    + by exists (inr (Some (Identity (userId (sub payload)) (tenantId (sub payload))
                          (email (sub payload)) (role (sub payload))))).
  - intros payload issued Hlogin Hregister Hauth Hjson Hnow next db.
    unfold auth_middleware. rewrite Hlogin, Hregister, Hauth.
    destruct (bearer_header (generateJWT payload (JWT_SECRET env) issued))
      as (-> & -> & ->).
    cbn [orb negb].
    rewrite (verifyJWT_generateJWT _ _ _ _ Hjson).
    apply seconds_within_a_day in Hnow.
    destruct (Z.ltb_spec (issued / 1000 + 86400) (now / 1000)); [lia|].
    cbn [sub jwtPayload]. by destruct payload.
Qed.

(** ** Tampering *)




Lemma append_cons c (a b : string) : String c a ++ b = String c (a ++ b).
Proof. reflexivity. Qed.





Section TamperFacts.
Context `{Runtime}.

Lemma generateJWT_eq payload secret issued :
  generateJWT payload secret issued =
    let '(h, p, s) := segments payload secret issued in h ++ "." ++ p ++ "." ++ s.
Proof. reflexivity. Qed.



End TamperFacts.

(** ** Actions *)

Section ActionFacts.
Context `{Runtime}.

Lemma bind_ret {A B} (a : A) (f : A -> action B) db : (mret a ≫= f) db = f a db.
Proof. reflexivity. Qed.

Lemma bind_assoc {A B C} (m : action A) (f : A -> action B) (g : B -> action C) db :
  ((m ≫= f) ≫= g) db = (m ≫= (fun x => f x ≫= g)) db.
Proof.
  unfold mbind, action_bind. destruct (m db) as [[a|e] db']; [|done]. done.
Qed.

Lemma bind_throw {A B} e (f : A -> action B) db :
  (throw e ≫= f) db = (Throw e, db).
Proof. reflexivity. Qed.

Lemma bind_query {A B} (g : D1.DB -> A) (f : A -> action B) db :
  (query g ≫= f) db = f (g db) db.
Proof. reflexivity. Qed.

Lemma bind_exec {B} (g : D1.DB -> D1.DB) (f : unit -> action B) db :
  (exec g ≫= f) db = f tt (g db).
Proof. reflexivity. Qed.

Lemma bind_run_insert {B} tname vals now (f : Z -> action B) db :
  (run_insert tname vals now ≫= f) db =
    match D1.insert tname vals now db with
    | Some (id, db') => f id db'
    | None => (Throw "D1_ERROR: constraint failed", db)
    end.
Proof.
  unfold mbind, action_bind, run_insert.
  by destruct (D1.insert tname vals now db) as [[id db']|].
Qed.

Lemma bind_run_update {B} tname id guard sets (f : unit -> action B) db :
  (run_update tname id guard sets ≫= f) db =
    match D1.update_row tname id guard sets db with
    | Some db' => f tt db'
    | None => (Throw "D1_ERROR: constraint failed", db)
    end.
Proof.
  unfold mbind, action_bind, run_update.
  by destruct (D1.update_row tname id guard sets db).
Qed.

Lemma bind_bind_all {B} ps (f : list (string * sqlval) -> action B) db :
  (bind_all ps ≫= f) db =
    match mapM (fun p => pair (fst p) <$> snd p) ps with
    | Some vs => f vs db
    | None => (Throw "D1_TYPE_ERROR", db)
    end.
Proof. unfold bind_all. by destruct (mapM _ ps). Qed.

End ActionFacts.

(** Running a handler one statement at a time. *)
Ltac step :=
  first [ rewrite bind_assoc | rewrite bind_ret | rewrite bind_query | rewrite bind_throw
        | rewrite bind_exec | rewrite bind_bind_all | rewrite bind_run_insert
        | rewrite bind_run_update ].
Ltac finish := unfold mret, action_ret; cbn [fst snd body status c_json rows_of].

(** ** Tables *)

Lemma lookup_list_to_map {V} (l : list (string * V)) k :
  (list_to_map l : gmap string V) !! k = assoc k l.
Proof.
  induction l as [|[k' v] l IH]; [done|]. cbn [list_to_map foldr assoc].
  unfold uncurry, Datatypes.uncurry. cbn [fst snd]. rewrite lookup_insert.
  destruct (String.eqb_spec k' k); case_decide; done.
Qed.

Lemma assoc_bound (ps : list (string * option sqlval)) vs k :
  mapM (fun p => pair (fst p) <$> snd p) ps = Some vs ->
  assoc k vs = assoc k ps ≫= (fun o => o).
Proof.
  revert vs. induction ps as [|[k' o] ps IH]; intros vs.
  - by intros [= <-].
  - cbn [mapM fst snd]. destruct o as [v|]; [|done]. cbn [fmap option_fmap option_map mbind option_bind].
    destruct (mapM _ ps) as [vs'|]; [|done]. cbn [mbind option_bind mret option_ret].
    intros [= <-]. cbn [assoc]. destruct (String.eqb k' k); [done|]. by apply IH.
Qed.

Lemma table_of_set_table tname t db tname' :
  D1.table_of (D1.set_table tname t db) tname' =
    if String.eqb tname tname' then t else D1.table_of db tname'.
Proof.
  unfold D1.table_of, D1.set_table. cbn [D1.tables]. rewrite lookup_insert.
  destruct (String.eqb_spec tname tname'); case_decide; done.
Qed.

Lemma max_rowid_ge (m : gmap Z D1.row) k r : m !! k = Some r -> k <= D1.max_rowid m.
Proof.
  unfold D1.max_rowid. revert k r.
  apply (map_fold_weak_ind (fun acc (m : gmap Z D1.row) =>
           forall k r, m !! k = Some r -> k <= acc)).
  - intros k r. by rewrite lookup_empty.
  - intros i x m' acc Hi IH k r. rewrite lookup_insert. case_decide.
    + intros _. subst. lia.
    + intros Hk. specialize (IH _ _ Hk). lia.
Qed.

Lemma next_rowid_fresh t : D1.rows t !! D1.next_rowid t = None.
Proof.
  destruct (D1.rows t !! D1.next_rowid t) as [r|] eqn:Hr; [|done].
  apply max_rowid_ge in Hr. unfold D1.next_rowid in Hr. lia.
Qed.

Section TableFacts.
Context `{Runtime}.

Lemma col_stored_row sch vals now c :
  D1.col (D1.stored_row sch vals now) c =
    match assoc c vals with
    | Some v => D1.convert sch c v
    | None => match assoc c (D1.sch_default sch now) with
              | Some v => D1.convert sch c v
              | None => SNull
              end
    end.
Proof.
  unfold D1.col, D1.stored_row. rewrite map_lookup_imap, lookup_union.
  rewrite !lookup_list_to_map.
  by destruct (assoc c vals), (assoc c (D1.sch_default sch now)).
Qed.

(** What a successful INSERT did. *)
Lemma insert_inv tname vals now db id db' :
  D1.insert tname vals now db = Some (id, db') ->
  id = D1.next_rowid (D1.table_of db tname)
  /\ db' = D1.set_table tname
       (D1.Table (<[id := D1.stored_row (D1.schema_of tname) vals now]>
                    (D1.rows (D1.table_of db tname))) id) db.
Proof.
  unfold D1.insert. destruct (D1.constraints_ok _ _ _ _); [|done].
  by intros [= <- <-].
Qed.

Lemma bound_real_is_stable x v :
  D1.bind (JS.Num x) = Some v -> D1.apply_affinity D1.AffReal v = v.
Proof.
  cbn [D1.bind]. destruct (_ || _); by intros [= <-].
Qed.

End TableFacts.

Section Create.
Context `{Runtime}.

(** A generic account of the creation handlers: bind, insert, read back. *)
Lemma created_row tname ps vs now db id db1 :
  mapM (fun p => pair (fst p) <$> snd p) ps = Some vs ->
  D1.insert tname vs now db = Some (id, db1) ->
  let r := D1.stored_row (D1.schema_of tname) vs now in
  D1.rows (D1.table_of db tname) !! id = None
  /\ D1.rows (D1.table_of db1 tname) !! id = Some r
  /\ D1.select_by_id tname id db1 = Some (D1.with_id id r)
  /\ D1.rate_limits db1 = D1.rate_limits db
  /\ (forall k, k <> id ->
        D1.rows (D1.table_of db1 tname) !! k = D1.rows (D1.table_of db tname) !! k)
  /\ (forall t', t' <> tname -> D1.table_of db1 t' = D1.table_of db t').
Proof.
  intros Hvs [-> ->]%insert_inv. cbv zeta.
  set (r := D1.stored_row (D1.schema_of tname) vs now).
  split; [apply next_rowid_fresh|].
  assert (Hrow : D1.rows (D1.table_of (D1.set_table tname
             (D1.Table (<[D1.next_rowid (D1.table_of db tname) := r]>
                          (D1.rows (D1.table_of db tname)))
                (D1.next_rowid (D1.table_of db tname))) db) tname)
             !! D1.next_rowid (D1.table_of db tname) = Some r).
  { rewrite table_of_set_table, String.eqb_refl. cbn [D1.rows].
    apply lookup_insert_eq. }
  split; [exact Hrow|]. split; [|split; [done|split]].
  - unfold D1.select_by_id. by rewrite Hrow.
  - intros k Hk. rewrite table_of_set_table, String.eqb_refl. cbn [D1.rows].
    by rewrite lookup_insert_ne.
  - intros t' Ht'. rewrite table_of_set_table.
    by destruct (String.eqb_spec tname t').
Qed.

Lemma expectedRevenue_of_numbers data a p :
  JS.get data "amount" = JS.Num a -> JS.truthy (JS.Num a) = true ->
  JS.get data "probability" = JS.Num p -> JS.truthy (JS.Num p) = true ->
  expectedRevenue data = JS.Num (PrimFloat.div (PrimFloat.mul a p) 100).
Proof.
  intros Ha Hta Hp Htp. unfold expectedRevenue, JS.or. by rewrite Ha, Hp, Hta, Htp.
Qed.

(** C9. A creation answered 201 stored a new row, answers with that row as
    read back, and its [expected_revenue] is the bound value of
    [(amount || 0) * (probability || 0) / 100]: for numbers other than 0 and
    NaN, [amount * probability / 100] in floating point, and 1,500,000 for
    2,500,000 at 60. *)
Theorem create_opportunity_expected_revenue user data now db :
  let result := post_opportunities (Some user) (Some data) now db in
  status (fst result) = 201 ->
  exists id row,
    body (fst result) = JRow (Some (D1.with_id id row))
    /\ D1.rows (D1.table_of db "opportunities") !! id = None
    /\ D1.rows (D1.table_of (snd result) "opportunities") !! id = Some row
    /\ Some (D1.col row "expected_revenue") = D1.bind (expectedRevenue data)
    /\ (forall a p,
          JS.get data "amount" = JS.Num a -> JS.truthy (JS.Num a) = true ->
          JS.get data "probability" = JS.Num p -> JS.truthy (JS.Num p) = true ->
          expectedRevenue data = JS.Num (PrimFloat.div (PrimFloat.mul a p) 100))
    /\ (JS.get data "amount" = JS.Num 2500000 ->
        JS.get data "probability" = JS.Num 60 ->
        D1.col row "expected_revenue" = SReal 1500000).
Proof.
  intros result Hst. subst result. revert Hst.
  unfold post_opportunities, try_catch, c_get_user, req_json.
  rewrite !bind_ret, bind_bind_all.
  destruct (mapM _ (opportunity_params user data)) as [vs|] eqn:Hvs; [|done].
  rewrite bind_run_insert.
  destruct (D1.insert "opportunities" vs now db) as [[id db1]|] eqn:Hins; [|done].
  rewrite bind_bind_all.
  destruct (mapM _ (opportunity_log user data id)) as [log|] eqn:Hlog; [|done].
  rewrite bind_run_insert.
  destruct (D1.insert "activity_log" log now db1) as [[id2 db2]|] eqn:Hins2; [|done].
  rewrite bind_query. unfold mret, action_ret.
  cbn [fst snd status body c_json]. intros _.
  destruct (created_row _ _ _ _ _ _ _ Hvs Hins) as (Hfresh & Hrow & _ & _ & _ & _).
  destruct (created_row _ _ _ _ _ _ _ Hlog Hins2) as (_ & _ & _ & _ & _ & Hothers).
  set (row := D1.stored_row (D1.schema_of "opportunities") vs now) in *.
  assert (Hrow2 : D1.rows (D1.table_of db2 "opportunities") !! id = Some row)
    by (rewrite (Hothers "opportunities"); done).
  assert (Her : Some (D1.col row "expected_revenue") = D1.bind (expectedRevenue data)).
  { unfold row. rewrite col_stored_row, (assoc_bound _ _ _ Hvs).
    cbn [assoc opportunity_params String.eqb Ascii.eqb Bool.eqb mbind option_bind].
    destruct (D1.bind (expectedRevenue data)) as [v|] eqn:Hv.
    - f_equal. eapply bound_real_is_stable. exact Hv.
    - exfalso. unfold expectedRevenue, JS.div in Hv. cbn [D1.bind] in Hv.
      discriminate. }
  exists id, row. split; [|split; [done|split; [done|split; [done|split]]]].
  - unfold D1.select_by_id. by rewrite Hrow2.
  - apply expectedRevenue_of_numbers.
  - intros Ha Hp. revert Her. unfold expectedRevenue, JS.or. rewrite Ha, Hp.
    by intros [= ->].
Qed.

End Create.

(** ** Reading within a tenant *)

Lemma elem_of_select_where tname cond db r :
  r ∈ D1.select_where tname cond db -> cond r = true.
Proof.
  unfold D1.select_where. rewrite list_elem_of_In, filter_In. tauto.
Qed.

Lemma elem_of_order_by le l r : r ∈ D1.order_by le l <-> r ∈ l.
Proof. unfold D1.order_by. by rewrite merge_sort_Permutation. Qed.

Lemma tenant_is_insert t c v r :
  c <> "tenant_id" -> tenant_is t (<[c := v]> r) = tenant_is t r.
Proof.
  intros Hc. unfold tenant_is, D1.col. by rewrite lookup_insert_ne.
Qed.

Lemma reads_only_error t msg details st :
  reads_only t (c_json (JError msg details) st).
Proof. intros r Hr. cbn in Hr. by apply elem_of_nil in Hr. Qed.

Lemma writes_only_refl t db : writes_only t db db.
Proof. intros tname k r Hr. by left. Qed.

Lemma writes_only_trans t db1 db2 db3 :
  writes_only t db1 db2 -> writes_only t db2 db3 -> writes_only t db1 db3.
Proof.
  intros H12 H23 tname k r Hr. destruct (H23 _ _ _ Hr) as [Hr2|?]; [|by right].
  by apply H12.
Qed.

Section Reads.
Context `{Runtime}.

Lemma get_companies_isolated user db :
  let result := get_companies (Some user) db in
  reads_only (tenantId user) (fst result) /\ snd result = db
  /\ status (fst result) <> 429.
Proof.
  unfold get_companies, try_catch, c_get_user. repeat step. finish.
  split; [|split; [reflexivity|cbn; lia]]. intros r. finish.
  rewrite elem_of_order_by. apply elem_of_select_where.
Qed.

Lemma joined_rows_isolated t tname (f : D1.row -> D1.row) cond le db :
  (forall c, tenant_is t (f c) = tenant_is t c) ->
  (forall c, cond c = true -> tenant_is t c = true) ->
  reads_only t (c_json (JRows (D1.order_by le
    (f <$> D1.select_where tname cond db))) 200).
Proof.
  intros Hf Hcond r. finish.
  rewrite elem_of_order_by, list_elem_of_fmap. intros (c & -> & Hc).
  rewrite Hf. by apply elem_of_select_where, Hcond in Hc.
Qed.

Lemma get_contacts_isolated user db :
  let result := get_contacts (Some user) db in
  reads_only (tenantId user) (fst result) /\ snd result = db
  /\ status (fst result) <> 429.
Proof.
  unfold get_contacts, try_catch, c_get_user. repeat step. finish.
  split; [|split; [reflexivity|cbn; lia]]. apply joined_rows_isolated; [|done].
  intros c. by rewrite tenant_is_insert.
Qed.

Lemma get_captures_isolated user db :
  let result := get_captures (Some user) db in
  reads_only (tenantId user) (fst result) /\ snd result = db
  /\ status (fst result) <> 429.
Proof.
  unfold get_captures, try_catch, c_get_user. repeat step. finish.
  split; [|split; [reflexivity|cbn; lia]]. apply joined_rows_isolated; [|done].
  intros c. by rewrite tenant_is_insert.
Qed.

Lemma get_opportunities_isolated user q db :
  let result := get_opportunities (Some user) q db in
  reads_only (tenantId user) (fst result) /\ snd result = db
  /\ status (fst result) <> 429.
Proof.
  assert (Hfilter : forall extra1 extra2 : D1.row -> bool,
    reads_only (tenantId user) (c_json (JRows (D1.order_by (D1.desc "created_at")
      ((fun o =>
          <["owner_name" := full_name (joined_in_tenant db "users" o "owner_id")]>
            (<["company_name" :=
                 joined_col (joined_in_tenant db "companies" o "company_id") "name"]> o))
       <$> D1.select_where "opportunities"
             (fun o => tenant_is (tenantId user) o && extra1 o && extra2 o) db))) 200)).
  { intros extra1 extra2. apply joined_rows_isolated.
    - intros c. by rewrite !tenant_is_insert.
    - intros c Hc. apply andb_true_iff in Hc as [Hc _].
      by apply andb_true_iff in Hc as [Hc _]. }
  unfold get_opportunities, try_catch, c_get_user. step.
  destruct (q !! "ownerId") as [o|]; [destruct (String.eqb o "")|].
  - repeat step. finish. split; [|split; [reflexivity|cbn; lia]]. apply Hfilter.
  - do 2 step. cbn [mapM fst snd].
    destruct (D1.bind (JS.Num (parseInt o))) as [v|];
      cbn [fmap option_fmap option_map mbind option_bind mret option_ret];
      [|split; [apply reads_only_error|split; [reflexivity|cbn; lia]]].
    repeat step. finish. split; [|split; [reflexivity|cbn; lia]]. apply Hfilter.
  - repeat step. finish. split; [|split; [reflexivity|cbn; lia]]. apply Hfilter.
Qed.

End Reads.

(** ** Writing within a tenant *)

Lemma bound_keys (ps : list (string * option sqlval)) vs :
  mapM (fun p => pair (fst p) <$> snd p) ps = Some vs -> fst <$> vs = fst <$> ps.
Proof.
  revert vs. induction ps as [|[k o] ps IH]; intros vs.
  - by intros [= <-].
  - cbn [mapM fst snd]. destruct o as [v|]; [|done].
    cbn [fmap option_fmap option_map mbind option_bind].
    destruct (mapM _ ps) as [vs'|]; [|done]. cbn [mbind option_bind mret option_ret].
    intros [= <-]. cbn [fmap list_fmap fst]. f_equal. by apply IH.
Qed.

Lemma tenant_is_own t : tenant_is t (<["tenant_id" := SInt t]> ∅) = true.
Proof.
  unfold tenant_is, D1.col, D1.bind_id. rewrite lookup_insert_eq. cbn. apply Z.eqb_refl.
Qed.

Lemma tenant_is_col t r : D1.col r "tenant_id" = SInt t -> tenant_is t r = true.
Proof. unfold tenant_is, D1.bind_id. intros ->. cbn. apply Z.eqb_refl. Qed.

Lemma tenant_is_with_id t k r : tenant_is t (D1.with_id k r) = tenant_is t r.
Proof. unfold D1.with_id. by apply tenant_is_insert. Qed.

Section Writes.
Context `{Runtime}.

Lemma col_set_other sch (sets : list (string * sqlval)) r c :
  c ∉ fst <$> sets ->
  D1.col (foldl (fun acc s => <[fst s := D1.convert sch (fst s) (snd s)]> acc) r sets) c
    = D1.col r c.
Proof.
  revert r. induction sets as [|[k v] sets IH]; intros r; [done|].
  cbn [fmap list_fmap fst snd foldl]. intros [Hk Hc]%not_elem_of_cons.
  rewrite IH by done. unfold D1.col. by rewrite lookup_insert_ne.
Qed.

Lemma update_row_inv tname k guard sets db db' :
  D1.update_row tname k guard sets db = Some db' ->
  db' = db
  \/ exists r,
       D1.rows (D1.table_of db tname) !! k = Some r /\ guard r = true
       /\ db' = D1.set_table tname
            (D1.Table
               (<[k := foldl (fun acc s =>
                         <[fst s := D1.convert (D1.schema_of tname) (fst s) (snd s)]> acc)
                       r sets]> (D1.rows (D1.table_of db tname)))
               (D1.seq (D1.table_of db tname))) db.
Proof.
  unfold D1.update_row.
  destruct (D1.rows (D1.table_of db tname) !! k) as [r|]; [|intros [= <-]; by left].
  destruct (guard r) eqn:Hg; [|intros [= <-]; by left].
  destruct (D1.constraints_ok _ _ _ _); [|done].
  intros [= <-]. right. by exists r.
Qed.

Lemma insert_writes_only t tname ps vs now db id db1 :
  mapM (fun p => pair (fst p) <$> snd p) ps = Some vs ->
  assoc "tenant_id" ps = Some (Some (SInt t)) ->
  D1.affinity_of (D1.schema_of tname) "tenant_id" = Some D1.AffInt ->
  D1.insert tname vs now db = Some (id, db1) ->
  writes_only t db db1
  /\ D1.rate_limits db1 = D1.rate_limits db
  /\ (exists r, D1.select_by_id tname id db1 = Some (D1.with_id id r)
                /\ tenant_is t r = true)
  /\ (forall t', t' <> tname -> D1.table_of db1 t' = D1.table_of db t').
Proof.
  intros Hvs Htenant Haff Hins.
  destruct (created_row _ _ _ _ _ _ _ Hvs Hins) as (_ & Hrow & Hsel & Hrl & Hrows & Htabs).
  assert (Hown : tenant_is t (D1.stored_row (D1.schema_of tname) vs now) = true).
  { apply tenant_is_col. rewrite col_stored_row, (assoc_bound _ _ _ Hvs), Htenant.
    cbn [mbind option_bind]. unfold D1.convert. rewrite Haff. reflexivity. }
  split; [|split; [done|split; [eauto|done]]].
  intros tname' k r Hr. destruct (String.eqb_spec tname' tname) as [->|Hne].
  - destruct (decide (k = id)) as [->|Hk].
    + right. rewrite Hrow in Hr. by injection Hr as <-.
    + left. by rewrite <- Hrows.
  - left. by rewrite <- Htabs.
Qed.

Lemma update_writes_only t tname k sets db db' :
  "tenant_id" ∉ fst <$> sets ->
  D1.update_row tname k (tenant_is t) sets db = Some db' ->
  writes_only t db db' /\ D1.rate_limits db' = D1.rate_limits db.
Proof.
  intros Hkeys [->|(r & Hr & Hguard & ->)]%update_row_inv.
  - split; [apply writes_only_refl|done].
  - split; [|done]. intros tname' k' r' Hr'. rewrite table_of_set_table in Hr'.
    destruct (String.eqb_spec tname tname') as [<-|Hne]; [|by left].
    cbn [D1.rows] in Hr'. rewrite lookup_insert in Hr'. case_decide; [|by left].
    injection Hr' as <-. right. unfold tenant_is. by rewrite col_set_other.
Qed.

End Writes.

(** ** The domain handlers, one by one *)

Create HintDb tenant discriminated.
#[export] Hint Resolve writes_only_refl reads_only_error : tenant.

Lemma guarded_error t db db' msg details st :
  writes_only t db db' -> guarded t db (c_json (JError msg details) st, db').
Proof. intros Hw. split; [apply reads_only_error|exact Hw]. Qed.

Lemma unmetered_intro db db' (resp : response) :
  D1.rate_limits db' = D1.rate_limits db -> status resp <> 429 ->
  unmetered db (resp, db').
Proof. by split. Qed.

#[export] Hint Resolve guarded_error unmetered_intro : tenant.

Lemma reads_only_row t k r st :
  tenant_is t r = true -> reads_only t (c_json (JRow (Some (D1.with_id k r))) st).
Proof.
  intros Hr r'. cbn. intros ->%list_elem_of_singleton. by rewrite tenant_is_with_id.
Qed.

Section Handlers.
Context `{Runtime}.

Lemma creation_guarded t tname ps now db (after : Z -> action response) e :
  assoc "tenant_id" ps = Some (Some (SInt t)) ->
  D1.affinity_of (D1.schema_of tname) "tenant_id" = Some D1.AffInt ->
  (forall id db1,
     (exists r, D1.select_by_id tname id db1 = Some (D1.with_id id r)
                /\ tenant_is t r = true) ->
     (forall t', t' <> tname -> D1.table_of db1 t' = D1.table_of db t') ->
     guarded t db1 (try_catch (after id) e db1)
     /\ unmetered db1 (try_catch (after id) e db1)) ->
  (forall msg, reads_only t (e msg) /\ status (e msg) <> 429) ->
  guarded t db (try_catch (vals ← bind_all ps; id ← run_insert tname vals now; after id) e db)
  /\ unmetered db (try_catch (vals ← bind_all ps; id ← run_insert tname vals now; after id) e db).
Proof.
  intros Htenant Haff Hafter He. unfold try_catch. step.
  destruct (mapM _ ps) as [vs|] eqn:Hvs.
  2:{ destruct (He "D1_TYPE_ERROR") as [? ?].
      split; split; [done | apply writes_only_refl | done | done]. }
  step. destruct (D1.insert tname vs now db) as [[id db1]|] eqn:Hins.
  2:{ destruct (He "D1_ERROR: constraint failed") as [? ?].
      split; split; [done | apply writes_only_refl | done | done]. }
  destruct (insert_writes_only _ _ _ _ _ _ _ _ Hvs Htenant Haff Hins)
    as (Hw & Hrl & Hsel & Hframe).
  destruct (Hafter id db1 Hsel Hframe) as [[Hreads Hwrites] [Hrl' Hst]].
  unfold try_catch in Hreads, Hwrites, Hrl', Hst.
  split; split; [done | by eapply writes_only_trans | congruence | done].
Qed.

Lemma try_catch_ret {A} (a : A) (f : A -> action response) e db :
  try_catch (mret a ≫= f) e db = try_catch (f a) e db.
Proof. reflexivity. Qed.

Lemma try_catch_throw {A} msg (f : A -> action response) e db :
  try_catch (throw msg ≫= f) e db = (e msg, db).
Proof. reflexivity. Qed.

Ltac creation :=
  unfold c_get_user; rewrite try_catch_ret;
  match goal with
  | b : option jsobject |- _ =>
      destruct b as [data|]; cbn [req_json];
      [ rewrite try_catch_ret
      | rewrite try_catch_throw;
        split; split;
        [apply reads_only_error | apply writes_only_refl | done | cbn; lia] ]
  end.

Ltac read_back Hsel Hown :=
  unfold try_catch; step; rewrite Hsel; finish;
  split; split;
  [by apply reads_only_row | apply writes_only_refl | done | cbn; lia].

Ltac on_error :=
  intros msg; split; [apply reads_only_error | cbn; lia].

Lemma post_contacts_ok user b now db :
  guarded (tenantId user) db (post_contacts (Some user) b now db)
  /\ unmetered db (post_contacts (Some user) b now db).
Proof.
  unfold post_contacts. creation.
  apply creation_guarded; [reflexivity | reflexivity | | on_error].
  intros id db1 (r & Hsel & Hown) _. read_back Hsel Hown.
Qed.

Lemma post_companies_ok user b now db :
  guarded (tenantId user) db (post_companies (Some user) b now db)
  /\ unmetered db (post_companies (Some user) b now db).
Proof.
  unfold post_companies. creation.
  apply creation_guarded; [reflexivity | reflexivity | | on_error].
  intros id db1 (r & Hsel & Hown) _. read_back Hsel Hown.
Qed.

Lemma post_captures_ok user b now db :
  guarded (tenantId user) db (post_captures (Some user) b now db)
  /\ unmetered db (post_captures (Some user) b now db).
Proof.
  unfold post_captures. creation.
  apply creation_guarded; [reflexivity | reflexivity | | on_error].
  intros id db1 (r & Hsel & Hown) _. read_back Hsel Hown.
Qed.

Lemma post_opportunities_ok user b now db :
  guarded (tenantId user) db (post_opportunities (Some user) b now db)
  /\ unmetered db (post_opportunities (Some user) b now db).
Proof.
  unfold post_opportunities. creation.
  apply creation_guarded; [reflexivity | reflexivity | | on_error].
  intros id db1 (r & Hsel & Hown) _.
  apply creation_guarded; [reflexivity | reflexivity | | on_error].
  intros id2 db2 _ Hframe.
  assert (Hsel2 : D1.select_by_id "opportunities" id db2 = Some (D1.with_id id r)).
  { unfold D1.select_by_id in *. by rewrite Hframe. }
  read_back Hsel2 Hown.
Qed.

End Handlers.

Section Update.
Context `{Runtime}.

Lemma own_opportunity_inv t id db k :
  own_opportunity t id db = Some k ->
  D1.rowid_of (SText id) = Some k
  /\ exists r, D1.rows (D1.table_of db "opportunities") !! k = Some r
               /\ tenant_is t r = true.
Proof.
  unfold own_opportunity.
  destruct (D1.rowid_of (SText id)) as [k'|]; [|done]. cbn [mbind option_bind].
  destruct (D1.rows (D1.table_of db "opportunities") !! k') as [r|] eqn:Hr; [|done].
  cbn [mbind option_bind]. destruct (tenant_is t r) eqn:Hown; [|done].
  intros [= <-]. eauto.
Qed.

Lemma own_opportunity_foreign user id db :
  (forall k r,
     D1.rowid_of (SText id) = Some k ->
     D1.rows (D1.table_of db "opportunities") !! k = Some r ->
     exists t, D1.col r "tenant_id" = SInt t /\ t <> tenantId user) ->
  own_opportunity (tenantId user) id db = None.
Proof.
  intros Hforeign.
  destruct (own_opportunity (tenantId user) id db) as [k|] eqn:Hown; [|done].
  apply own_opportunity_inv in Hown as (Hk & r & Hr & Hmine).
  destruct (Hforeign k r Hk Hr) as (t & Ht & Hne).
  unfold tenant_is, D1.bind_id in Hmine. rewrite Ht in Hmine. cbn in Hmine.
  apply Z.eqb_eq in Hmine. done.
Qed.

Lemma put_opportunity_not_owned user id b now db :
  own_opportunity (tenantId user) id db = None ->
  put_opportunity (Some user) id b now db =
    (match b with
     | Some _ => c_json (JError "Opportunity not found" None) 404
     | None => c_json (JError "Failed to update opportunity" None) 500
     end, db).
Proof.
  intros Hown. unfold put_opportunity, try_catch, c_get_user. step.
  destruct b as [data|]; cbn [req_json].
  - do 2 step. by rewrite Hown.
  - by step.
Qed.

Lemma opportunity_updates_keys data now :
  "tenant_id" ∉ fst <$> opportunity_updates data now.
Proof.
  unfold opportunity_updates.
  destruct (JS.truthy (JS.get data "name")), (JS.truthy (JS.get data "stage")),
    (JS.defined (JS.get data "amount")), (JS.defined (JS.get data "probability"));
    simpl; rewrite !not_elem_of_cons;
    repeat split; try discriminate; apply not_elem_of_nil.
Qed.

Lemma update_then_read t k sets db db' r :
  "tenant_id" ∉ fst <$> sets ->
  D1.rows (D1.table_of db "opportunities") !! k = Some r ->
  tenant_is t r = true ->
  D1.update_row "opportunities" k (tenant_is t) sets db = Some db' ->
  exists r', D1.select_by_id "opportunities" k db' = Some (D1.with_id k r')
             /\ tenant_is t r' = true.
Proof.
  intros Hkeys Hr Hown [->|(r0 & Hr0 & _ & ->)]%update_row_inv.
  - exists r. unfold D1.select_by_id. by rewrite Hr.
  - rewrite Hr in Hr0. injection Hr0 as <-. eexists. unfold D1.select_by_id.
    rewrite table_of_set_table, String.eqb_refl. cbn [D1.rows].
    rewrite lookup_insert_eq. split; [reflexivity|].
    unfold tenant_is. by rewrite col_set_other.
Qed.

Lemma put_opportunity_ok user id b now db :
  guarded (tenantId user) db (put_opportunity (Some user) id b now db)
  /\ unmetered db (put_opportunity (Some user) id b now db).
Proof.
  destruct (own_opportunity (tenantId user) id db) as [k|] eqn:Hown.
  2:{ rewrite (put_opportunity_not_owned _ _ _ _ _ Hown).
      destruct b; (split; split;
        [apply reads_only_error | apply writes_only_refl | done | cbn; lia]). }
  apply own_opportunity_inv in Hown as Hinv. destruct Hinv as (_ & r & Hr & Hmine).
  unfold put_opportunity, try_catch, c_get_user. step.
  destruct b as [data|]; cbn [req_json].
  2:{ step. split; split;
        [apply reads_only_error | apply writes_only_refl | done | cbn; lia]. }
  do 2 step. rewrite Hown. step.
  destruct (mapM _ (opportunity_updates data now)) as [sets|] eqn:Hsets.
  2:{ split; split;
        [apply reads_only_error | apply writes_only_refl | done | cbn; lia]. }
  assert (Hkeys : "tenant_id" ∉ fst <$> sets).
  { rewrite (bound_keys _ _ Hsets). apply opportunity_updates_keys. }
  step. destruct (D1.update_row _ _ _ _ _) as [db'|] eqn:Hupd.
  2:{ split; split;
        [apply reads_only_error | apply writes_only_refl | done | cbn; lia]. }
  destruct (update_writes_only _ _ _ _ _ _ Hkeys Hupd) as [Hw Hrl].
  destruct (update_then_read _ _ _ _ _ _ Hkeys Hr Hmine Hupd) as (r' & Hsel & Hown').
  step. rewrite Hsel. finish.
  split; split; [by apply reads_only_row | done | done | cbn; lia].
Qed.

End Update.

Section Dashboards.
Context `{Runtime}.

Lemma get_kpis_eq user db :
  get_kpis (Some user) db =
    (c_json (kpis_of (D1.select_where "opportunities"
                        (tenant_is (tenantId user)) db)) 200, db).
Proof. reflexivity. Qed.

Lemma get_pipeline_eq user db :
  get_pipeline (Some user) db =
    (c_json (JRows (pipeline_of (D1.select_where "opportunities"
                                   (tenant_is (tenantId user)) db))) 200, db).
Proof. reflexivity. Qed.

Lemma pipeline_rows_have_no_tenant opps r :
  r ∈ pipeline_of opps -> D1.col r "tenant_id" = SNull.
Proof.
  unfold pipeline_of. rewrite elem_of_order_by, list_elem_of_fmap.
  intros (s & -> & _). unfold D1.col. rewrite lookup_list_to_map. reflexivity.
Qed.

End Dashboards.

(** ** Routes *)

Lemma guarded_quiet t db (resp : response) :
  rows_of (body resp) = [] -> guarded t db (resp, db).
Proof.
  intros Hrows. split; [|apply writes_only_refl].
  intros r Hr. cbn [fst] in Hr. rewrite Hrows in Hr. by apply elem_of_nil in Hr.
Qed.

Section Routes.
Context `{Runtime}.

(** Without an identity a domain handler fails before it touches the
    database. *)
Lemma anonymous_handler (body_ : identity -> action response) e db :
  try_catch (user ← c_get_user None; body_ user) e db = (e "TypeError", db).
Proof. reflexivity. Qed.

Lemma pure_read t db (result : response * D1.DB) :
  reads_only t (fst result) /\ snd result = db /\ status (fst result) <> 429 ->
  guarded t db result /\ unmetered db result.
Proof.
  intros (Hr & Hdb & Hst). split; split; [done | | by rewrite Hdb | done].
  rewrite Hdb. apply writes_only_refl.
Qed.

Lemma quiet_answer t db (resp : response) :
  rows_of (body resp) = [] -> status resp <> 429 ->
  guarded t db (resp, db) /\ unmetered db (resp, db).
Proof. intros Hrows Hst. split; [by apply guarded_quiet | by split]. Qed.

Ltac quiet := apply quiet_answer; [reflexivity | cbn; lia].

(** Every route but the two authentication routes and the grouped dashboard:
    the answer and the effect stay in the caller's tenant, and the rate limiter
    is not involved. *)
Lemma route_guarded t env user req now db :
  (forall u, user = Some u -> tenantId u = t) ->
  req_path req <> "/api/auth/register" ->
  req_path req <> "/api/auth/login" ->
  req_path req <> "/api/dashboard/pipeline-by-stage" ->
  guarded t db (route env user req now db)
  /\ unmetered db (route env user req now db).
Proof.
  intros Huser Hregister Hlogin Hpipeline. unfold route.
  assert (Hu : forall u, user = Some u -> t = tenantId u)
    by (intros u Hu; symmetry; auto).
  destruct (req_method req).
  - (* GET *)
    destruct (String.eqb (req_path req) "/api/opportunities").
    { destruct user as [u|]; [|quiet]. rewrite (Hu u eq_refl).
      apply pure_read, get_opportunities_isolated. }
    destruct (String.eqb (req_path req) "/api/contacts").
    { destruct user as [u|]; [|quiet]. rewrite (Hu u eq_refl).
      apply pure_read, get_contacts_isolated. }
    destruct (String.eqb (req_path req) "/api/companies").
    { destruct user as [u|]; [|quiet]. rewrite (Hu u eq_refl).
      apply pure_read, get_companies_isolated. }
    destruct (String.eqb (req_path req) "/api/captures").
    { destruct user as [u|]; [|quiet]. rewrite (Hu u eq_refl).
      apply pure_read, get_captures_isolated. }
    destruct (String.eqb (req_path req) "/api/dashboard/kpis").
    { destruct user as [u|]; quiet. }
    destruct (String.eqb_spec (req_path req) "/api/dashboard/pipeline-by-stage");
      [done|].
    destruct (String.eqb (req_path req) "/health"); quiet.
  - (* POST *)
    destruct (String.eqb_spec (req_path req) "/api/auth/register"); [done|].
    destruct (String.eqb_spec (req_path req) "/api/auth/login"); [done|].
    destruct (String.eqb (req_path req) "/api/opportunities").
    { destruct user as [u|]; [|quiet]. rewrite (Hu u eq_refl).
      apply post_opportunities_ok. }
    destruct (String.eqb (req_path req) "/api/contacts").
    { destruct user as [u|]; [|quiet]. rewrite (Hu u eq_refl).
      apply post_contacts_ok. }
    destruct (String.eqb (req_path req) "/api/companies").
    { destruct user as [u|]; [|quiet]. rewrite (Hu u eq_refl).
      apply post_companies_ok. }
    destruct (String.eqb (req_path req) "/api/captures").
    { destruct user as [u|]; [|quiet]. rewrite (Hu u eq_refl).
      apply post_captures_ok. }
    quiet.
  - (* PUT *)
    destruct (opportunity_id (req_path req)) as [id|]; [|quiet].
    destruct user as [u|]; [|quiet]. rewrite (Hu u eq_refl).
    apply put_opportunity_ok.
  - quiet.
  - quiet.
Qed.

(** The grouped dashboard, too, leaves the rate limiter alone. *)
Lemma route_unmetered env user req now db :
  req_path req <> "/api/auth/register" ->
  req_path req <> "/api/auth/login" ->
  unmetered db (route env user req now db).
Proof.
  intros Hregister Hlogin.
  destruct (String.eqb_spec (req_path req) "/api/dashboard/pipeline-by-stage")
    as [Hp|Hp].
  - unfold route. rewrite Hp.
    destruct (req_method req); try (split; [reflexivity | cbn; lia]).
    cbn [String.eqb Ascii.eqb Bool.eqb]. destruct user as [u|].
    + rewrite get_pipeline_eq. split; [reflexivity | cbn; lia].
    + unfold get_pipeline. rewrite anonymous_handler. split; [reflexivity | cbn; lia].
  - apply (route_guarded (from_option tenantId 0 user)); try done.
    by intros u ->.
Qed.

End Routes.

(** ** Joined columns and memberships *)

Lemma elem_of_scan t r :
  r ∈ D1.scan t <-> exists k r0, D1.rows t !! k = Some r0 /\ r = D1.with_id k r0.
Proof.
  unfold D1.scan. rewrite list_elem_of_fmap. split.
  - intros ([k r0] & -> & Hin). rewrite merge_sort_Permutation in Hin.
    apply elem_of_map_to_list in Hin. by exists k, r0.
  - intros (k & r0 & Hr & ->). exists (k, r0). split; [done|].
    rewrite merge_sort_Permutation. by apply elem_of_map_to_list.
Qed.

Lemma elem_of_select tname cond db r :
  r ∈ D1.select_where tname cond db <->
    cond r = true
    /\ exists k r0, D1.rows (D1.table_of db tname) !! k = Some r0
                    /\ r = D1.with_id k r0.
Proof.
  unfold D1.select_where. rewrite list_elem_of_In, filter_In, <- list_elem_of_In.
  rewrite elem_of_scan. tauto.
Qed.

Lemma col_with_id k r c : c <> "id" -> D1.col (D1.with_id k r) c = D1.col r c.
Proof. intros Hc. unfold D1.col, D1.with_id. by rewrite lookup_insert_ne. Qed.

Lemma col_id k r : D1.col (D1.with_id k r) "id" = SInt k.
Proof. unfold D1.col, D1.with_id. by rewrite lookup_insert_eq. Qed.

Lemma col_insert_eq (r : D1.row) c v : D1.col (<[c := v]> r) c = v.
Proof. unfold D1.col. by rewrite lookup_insert_eq. Qed.

Lemma col_insert_other (r : D1.row) c c' v :
  c <> c' -> D1.col (<[c := v]> r) c' = D1.col r c'.
Proof. intros Hc. unfold D1.col. by rewrite lookup_insert_ne. Qed.

(** The rows of a list: the selected rows of the tenant, each with what [f]
    adds. *)
Lemma listed_rows t tname (f : D1.row -> D1.row) cond le db r :
  (forall c, cond c = true -> tenant_is t c = true) ->
  r ∈ D1.order_by le (f <$> D1.select_where tname cond db) ->
  exists k r0, D1.rows (D1.table_of db tname) !! k = Some r0
               /\ tenant_is t r0 = true /\ r = f (D1.with_id k r0).
Proof.
  intros Hcond. rewrite elem_of_order_by, list_elem_of_fmap.
  intros (c & -> & (Hc & k & r0 & Hk & ->)%elem_of_select).
  exists k, r0. apply Hcond in Hc. by rewrite tenant_is_with_id in Hc.
Qed.

(** [base.tenant_id = j.tenant_id], for a base row of tenant [t]. *)
Lemma same_tenant t (b c : sqlval) :
  b = SInt t -> D1.sql_eqb b c = true -> D1.sql_eqb c (SInt t) = true.
Proof.
  intros ->. destruct c as [|m|x|s|d]; cbn; try done.
  intros Heq%Z.eqb_eq. subst m. apply Z.eqb_refl.
Qed.

Lemma joined_in_tenant_drawn db t tname base fk (f : D1.row -> sqlval) :
  D1.col base "tenant_id" = SInt t ->
  drawn_from db t tname f
    (from_option f SNull (joined_in_tenant db tname base fk)).
Proof.
  intros Hbase. unfold joined_in_tenant.
  destruct (D1.col base fk) as [|k| | |]; try by left.
  destruct (D1.rows (D1.table_of db tname) !! k) as [r|] eqn:Hr; [|by left].
  cbn [mbind option_bind].
  destruct (D1.sql_eqb _ _) eqn:Hsame; [|by left].
  right. exists k, r. split; [done|]. split; [|done].
  by apply (same_tenant t (D1.col base "tenant_id")).
Qed.

Lemma joined_col_from j c :
  joined_col j c = from_option (fun r => D1.col r c) SNull j.
Proof. by destruct j. Qed.

Lemma full_name_from j :
  full_name j = from_option (fun u => full_name (Some u)) SNull j.
Proof. by destruct j. Qed.

(** The manager of a capture, when the managers are in their captures'
    tenants. *)
Lemma joined_manager_drawn db t k c :
  managers_in_tenant db ->
  D1.rows (D1.table_of db "captures") !! k = Some c ->
  tenant_is t c = true ->
  drawn_from db t "users" (fun u => full_name (Some u))
    (full_name (joined db "users" (D1.with_id k c) "capture_manager_id")).
Proof.
  intros Hinv Hc Hmine. rewrite full_name_from. unfold joined.
  rewrite col_with_id by done.
  destruct (D1.col c "capture_manager_id") as [|m| | |] eqn:Hm; try by left.
  destruct (Hinv k c m Hc Hm) as (u & Hu & Hsame). rewrite Hu.
  right. exists m, u. auto.
Qed.

(** A property of the rows of a table holds if it evaluates to [b] on each. *)
Lemma rows_checked {A} (f : A -> bool) (b : bool) (m : gmap Z A) :
  forallb (fun p => Bool.eqb (f (snd p)) b) (map_to_list m) = true ->
  map_Forall (fun _ x => f x = b) m.
Proof.
  intros Hall. apply map_Forall_to_list, Forall_forall. intros [k x] Hin.
  rewrite forallb_forall in Hall.
  apply list_elem_of_In, Hall, Bool.eqb_prop in Hin. exact Hin.
Qed.

Lemma managers_checked db :
  forallb (fun p => Bool.eqb (manager_of_tenant db (snd p)) true)
    (map_to_list (D1.rows (D1.table_of db "captures"))) = true ->
  managers_in_tenant db.
Proof.
  intros Hall%rows_checked k c m Hc Hm. specialize (Hall k c Hc). cbn beta in Hall.
  unfold manager_of_tenant in Hall. rewrite Hm in Hall.
  destruct (D1.rows (D1.table_of db "users") !! m) as [u|]; [|done].
  destruct (D1.col c "tenant_id") as [|a| | |] eqn:Ha; try done.
  destruct (D1.col u "tenant_id") as [|b| | |] eqn:Hb; try done.
  apply Z.eqb_eq in Hall as <-.
  exists u. split; [done|]. intros t. unfold tenant_is. by rewrite Ha, Hb.
Qed.

Section Lists.
Context `{Runtime}.

Lemma get_companies_rows user db r :
  r ∈ rows_of (body (fst (get_companies (Some user) db))) ->
  stored_for db (tenantId user) "companies" [] r.
Proof.
  unfold get_companies, try_catch, c_get_user. repeat step. finish.
  rewrite elem_of_order_by.
  intros (Hmine & k & r0 & Hk & ->)%elem_of_select.
  rewrite tenant_is_with_id in Hmine. by exists k, r0.
Qed.

Lemma get_contacts_rows user db r :
  r ∈ rows_of (body (fst (get_contacts (Some user) db))) ->
  stored_for db (tenantId user) "contacts" ["company_name"] r
  /\ (D1.col r "tenant_id" = SInt (tenantId user) ->
      drawn_from db (tenantId user) "companies" (fun c => D1.col c "name")
        (D1.col r "company_name")).
Proof.
  unfold get_contacts, try_catch, c_get_user. repeat step. finish.
  intros (k & r0 & Hk & Hmine & ->)%(listed_rows (tenantId user)); [|done].
  split.
  - exists k, r0. split; [done|]. split; [done|].
    intros c Hc. apply col_insert_other. intros <-. apply Hc, list_elem_of_here.
  - rewrite col_insert_eq, col_insert_other by done. intros Hbase.
    rewrite joined_col_from. by apply joined_in_tenant_drawn.
Qed.

Lemma get_captures_rows user db r :
  r ∈ rows_of (body (fst (get_captures (Some user) db))) ->
  stored_for db (tenantId user) "captures" ["capture_manager_name"] r
  /\ (managers_in_tenant db ->
      drawn_from db (tenantId user) "users" (fun u => full_name (Some u))
        (D1.col r "capture_manager_name")).
Proof.
  unfold get_captures, try_catch, c_get_user. repeat step. finish.
  intros (k & r0 & Hk & Hmine & ->)%(listed_rows (tenantId user)); [|done].
  split.
  - exists k, r0. split; [done|]. split; [done|].
    intros c Hc. apply col_insert_other. intros <-. apply Hc, list_elem_of_here.
  - rewrite col_insert_eq. intros Hinv. by apply joined_manager_drawn.
Qed.

Lemma get_opportunities_rows user q db r :
  r ∈ rows_of (body (fst (get_opportunities (Some user) q db))) ->
  stored_for db (tenantId user) "opportunities" ["company_name"; "owner_name"] r
  /\ (D1.col r "tenant_id" = SInt (tenantId user) ->
      drawn_from db (tenantId user) "companies" (fun c => D1.col c "name")
        (D1.col r "company_name")
      /\ drawn_from db (tenantId user) "users" (fun u => full_name (Some u))
           (D1.col r "owner_name")).
Proof.
  assert (Hrows : forall extra1 extra2 : D1.row -> bool,
    r ∈ D1.order_by (D1.desc "created_at")
      ((fun o =>
          <["owner_name" := full_name (joined_in_tenant db "users" o "owner_id")]>
            (<["company_name" :=
                 joined_col (joined_in_tenant db "companies" o "company_id") "name"]> o))
       <$> D1.select_where "opportunities"
             (fun o => tenant_is (tenantId user) o && extra1 o && extra2 o) db) ->
    stored_for db (tenantId user) "opportunities" ["company_name"; "owner_name"] r
    /\ (D1.col r "tenant_id" = SInt (tenantId user) ->
        drawn_from db (tenantId user) "companies" (fun c => D1.col c "name")
          (D1.col r "company_name")
        /\ drawn_from db (tenantId user) "users" (fun u => full_name (Some u))
             (D1.col r "owner_name"))).
  { intros extra1 extra2
      (k & r0 & Hk & Hmine & ->)%(listed_rows (tenantId user)).
    2:{ intros c Hc. apply andb_true_iff in Hc as [Hc _].
        by apply andb_true_iff in Hc as [Hc _]. }
    split.
    - exists k, r0. split; [done|]. split; [done|].
      intros c Hc. rewrite !col_insert_other; [done| |].
      + intros <-. apply Hc, list_elem_of_here.
      + intros <-. apply Hc, list_elem_of_further, list_elem_of_here.
    - rewrite col_insert_eq, (col_insert_other _ "owner_name" "company_name"),
        col_insert_eq, !col_insert_other by done.
      intros Hbase. rewrite joined_col_from, full_name_from.
      split; by apply joined_in_tenant_drawn. }
  unfold get_opportunities, try_catch, c_get_user. step.
  destruct (q !! "ownerId") as [o|]; [destruct (String.eqb o "")|].
  - repeat step. finish. apply Hrows.
  - do 2 step. cbn [mapM fst snd].
    destruct (D1.bind (JS.Num (parseInt o))) as [v|];
      cbn [fmap option_fmap option_map mbind option_bind mret option_ret];
      [|by intros ?%elem_of_nil].
    repeat step. finish. apply Hrows.
  - repeat step. finish. apply Hrows.
Qed.

End Lists.

Section Memberships.
Context `{Runtime}.

(** A creation leaves every table but its own alone. *)
Lemma creation_frame tname ps now db (after : Z -> action response) e t' :
  t' <> tname ->
  (forall id db1,
     D1.table_of (snd (try_catch (after id) e db1)) t' = D1.table_of db1 t') ->
  D1.table_of
    (snd (try_catch (vals ← bind_all ps; id ← run_insert tname vals now; after id)
            e db)) t'
  = D1.table_of db t'.
Proof.
  intros Hne Hafter. unfold try_catch. step.
  destruct (mapM _ ps) as [vs|] eqn:Hvs; [|done].
  step. destruct (D1.insert tname vs now db) as [[id db1]|] eqn:Hins; [|done].
  destruct (created_row _ _ _ _ _ _ _ Hvs Hins) as (_ & _ & _ & _ & _ & Htabs).
  specialize (Hafter id db1). unfold try_catch in Hafter.
  rewrite Hafter. by apply Htabs.
Qed.

Ltac opened :=
  unfold c_get_user; rewrite try_catch_ret;
  match goal with
  | b : option jsobject |- _ =>
      destruct b as [data|]; cbn [req_json];
      [ rewrite try_catch_ret | by rewrite try_catch_throw ]
  end.

Ltac answered_row := intros ? ?; unfold try_catch; by step.

Lemma post_contacts_frame user b now db t' :
  t' <> "contacts" ->
  D1.table_of (snd (post_contacts (Some user) b now db)) t' = D1.table_of db t'.
Proof.
  intros Hne. unfold post_contacts. opened.
  apply creation_frame; [done|]. answered_row.
Qed.

Lemma post_companies_frame user b now db t' :
  t' <> "companies" ->
  D1.table_of (snd (post_companies (Some user) b now db)) t' = D1.table_of db t'.
Proof.
  intros Hne. unfold post_companies. opened.
  apply creation_frame; [done|]. answered_row.
Qed.

Lemma post_captures_frame user b now db t' :
  t' <> "captures" ->
  D1.table_of (snd (post_captures (Some user) b now db)) t' = D1.table_of db t'.
Proof.
  intros Hne. unfold post_captures. opened.
  apply creation_frame; [done|]. answered_row.
Qed.

Lemma post_opportunities_frame user b now db t' :
  t' <> "opportunities" -> t' <> "activity_log" ->
  D1.table_of (snd (post_opportunities (Some user) b now db)) t'
  = D1.table_of db t'.
Proof.
  intros Hne Hlog. unfold post_opportunities. opened.
  apply creation_frame; [done|]. intros created db0.
  apply creation_frame; [done|]. answered_row.
Qed.

Lemma put_opportunity_frame user id b now db t' :
  t' <> "opportunities" ->
  D1.table_of (snd (put_opportunity (Some user) id b now db)) t'
  = D1.table_of db t'.
Proof.
  intros Hne.
  destruct (own_opportunity (tenantId user) id db) as [k|] eqn:Hown.
  2:{ by rewrite (put_opportunity_not_owned _ _ _ _ _ Hown). }
  unfold put_opportunity, try_catch, c_get_user. step.
  destruct b as [data|]; cbn [req_json]; [|by step].
  do 2 step. rewrite Hown. step.
  destruct (mapM _ (opportunity_updates data now)) as [sets|]; [|done].
  step. destruct (D1.update_row _ _ _ _ _) as [db'|] eqn:Hupd; [|done].
  step. finish.
  apply update_row_inv in Hupd as [->|(r & _ & _ & ->)]; [done|].
  rewrite table_of_set_table.
  destruct (String.eqb_spec "opportunities" t'); [congruence | done].
Qed.

(** A capture is created in the tenant of the identity and managed by its
    user. *)
Lemma post_captures_memberships user b now db :
  user_in_tenant db user -> managers_in_tenant db ->
  managers_in_tenant (snd (post_captures (Some user) b now db)).
Proof.
  intros (u & Hu & Hmember) Hinv.
  unfold post_captures. unfold c_get_user. rewrite try_catch_ret.
  destruct b as [data|]; cbn [req_json];
    [rewrite try_catch_ret | by rewrite try_catch_throw].
  unfold try_catch. step.
  destruct (mapM _ (capture_params user data)) as [vs|] eqn:Hvs; [|done].
  step. destruct (D1.insert "captures" vs now db) as [[id db1]|] eqn:Hins; [|done].
  step. finish.
  destruct (created_row _ _ _ _ _ _ _ Hvs Hins)
    as (_ & Hrow & _ & _ & Hrows & Htabs).
  intros k c m Hc Hm. rewrite (Htabs "users") by done.
  destruct (decide (k = id)) as [->|Hk].
  - rewrite Hrow in Hc. injection Hc as <-.
    assert (Htenant : D1.col (D1.stored_row (D1.schema_of "captures") vs now)
                        "tenant_id" = SInt (tenantId user)).
    { rewrite col_stored_row, (assoc_bound _ _ _ Hvs). reflexivity. }
    assert (Hmanager : D1.col (D1.stored_row (D1.schema_of "captures") vs now)
                         "capture_manager_id" = SInt (userId user)).
    { rewrite col_stored_row, (assoc_bound _ _ _ Hvs). reflexivity. }
    rewrite Hmanager in Hm. injection Hm as <-.
    exists u. split; [done|]. intros t. unfold tenant_is at 1.
    rewrite Htenant. unfold D1.bind_id. cbn [D1.sql_eqb].
    by intros <-%Z.eqb_eq.
  - rewrite Hrows in Hc by done. by apply (Hinv k c m).
Qed.

(** Off the two authentication routes no route writes [users], and each
    keeps the managers in their captures' tenants. *)
Lemma route_memberships env user req now db :
  req_path req <> "/api/auth/register" ->
  req_path req <> "/api/auth/login" ->
  D1.table_of (snd (route env user req now db)) "users" = D1.table_of db "users"
  /\ ((forall u, user = Some u -> user_in_tenant db u) ->
      managers_in_tenant db ->
      managers_in_tenant (snd (route env user req now db))).
Proof.
  intros Hregister Hlogin.
  assert (Hkept : forall db',
            D1.table_of db' "users" = D1.table_of db "users" ->
            D1.table_of db' "captures" = D1.table_of db "captures" ->
            managers_in_tenant db -> managers_in_tenant db').
  { intros db' Husers Hcaptures Hinv k c m. rewrite Husers, Hcaptures. apply Hinv. }
  assert (Hquiet : forall resp : response,
            D1.table_of (snd (resp, db)) "users" = D1.table_of db "users"
            /\ ((forall u, user = Some u -> user_in_tenant db u) ->
                managers_in_tenant db -> managers_in_tenant (snd (resp, db))))
    by done.
  assert (Hread : forall result : response * D1.DB,
            snd result = db ->
            D1.table_of (snd result) "users" = D1.table_of db "users"
            /\ ((forall u, user = Some u -> user_in_tenant db u) ->
                managers_in_tenant db -> managers_in_tenant (snd result)))
    by (by intros result ->).
  unfold route. destruct (req_method req).
  - (* GET *)
    destruct (String.eqb (req_path req) "/api/opportunities").
    { destruct user as [u|]; [|apply Hquiet].
      apply Hread, get_opportunities_isolated. }
    destruct (String.eqb (req_path req) "/api/contacts").
    { destruct user as [u|]; [|apply Hquiet]. apply Hread, get_contacts_isolated. }
    destruct (String.eqb (req_path req) "/api/companies").
    { destruct user as [u|]; [|apply Hquiet]. apply Hread, get_companies_isolated. }
    destruct (String.eqb (req_path req) "/api/captures").
    { destruct user as [u|]; [|apply Hquiet]. apply Hread, get_captures_isolated. }
    destruct (String.eqb (req_path req) "/api/dashboard/kpis").
    { destruct user as [u|]; apply Hquiet. }
    destruct (String.eqb (req_path req) "/api/dashboard/pipeline-by-stage").
    { destruct user as [u|]; [|apply Hquiet]. rewrite get_pipeline_eq. apply Hquiet. }
    destruct (String.eqb (req_path req) "/health"); apply Hquiet.
  - (* POST *)
    destruct (String.eqb_spec (req_path req) "/api/auth/register"); [done|].
    destruct (String.eqb_spec (req_path req) "/api/auth/login"); [done|].
    destruct (String.eqb (req_path req) "/api/opportunities").
    { destruct user as [u|]; [|apply Hquiet].
      split; [by apply post_opportunities_frame|]. intros _.
      apply Hkept; by apply post_opportunities_frame. }
    destruct (String.eqb (req_path req) "/api/contacts").
    { destruct user as [u|]; [|apply Hquiet].
      split; [by apply post_contacts_frame|]. intros _.
      apply Hkept; by apply post_contacts_frame. }
    destruct (String.eqb (req_path req) "/api/companies").
    { destruct user as [u|]; [|apply Hquiet].
      split; [by apply post_companies_frame|]. intros _.
      apply Hkept; by apply post_companies_frame. }
    destruct (String.eqb (req_path req) "/api/captures").
    { destruct user as [u|]; [|apply Hquiet].
      split; [by apply post_captures_frame|]. intros Hu.
      apply post_captures_memberships. by apply Hu. }
    apply Hquiet.
  - (* PUT *)
    destruct (opportunity_id (req_path req)) as [id|]; [|apply Hquiet].
    destruct user as [u|]; [|apply Hquiet].
    split; [by apply put_opportunity_frame|]. intros _.
    apply Hkept; by apply put_opportunity_frame.
  - apply Hquiet.
  - apply Hquiet.
Qed.

End Memberships.

(** ** The application *)

Lemma prefix_append (a b p : string) :
  String.prefix (a ++ b) p = true -> String.prefix a p = true.
Proof.
  revert p. induction a as [|c a IH]; intros p; [by destruct p|].
  destruct p as [|d p]; [done|].
  change (String c a ++ b) with (String c (a ++ b)). cbn [String.prefix].
  destruct (ascii_dec c d); [apply IH|done].
Qed.

(** The parameterised route lies under ['/api/*']. *)
Lemma opportunity_route_is_guarded path id :
  opportunity_id path = Some id -> String.prefix "/api/" path = true.
Proof.
  unfold opportunity_id.
  destruct (String.prefix "/api/opportunities/" path) eqn:Hpre; [|done].
  intros _. by apply (prefix_append "/api/" "opportunities/").
Qed.

Section Application.
Context `{Runtime}.

(** The middleware answers 401 itself or hands over to the routes. *)
Lemma auth_middleware_cases env req now next db :
  (exists msg, auth_middleware env req now next db = (c_json (JError msg None) 401, db))
  \/ exists user, auth_middleware env req now next db = next user db.
Proof.
  unfold auth_middleware.
  destruct (includes "/auth/login" (req_path req)
            || includes "/auth/register" (req_path req)); [by right; eexists|].
  destruct (req_authorization req) as [authHeader|]; [|by left; eexists].
  destruct (String.eqb authHeader "" || negb (String.prefix "Bearer " authHeader));
    [by left; eexists|].
  destruct (verifyJWT _ _ _); [by left; eexists | by right; eexists].
Qed.

(** A request that carries a token [verifyJWT] accepts reaches the routes
    under the token's identity. *)
Lemma auth_middleware_accepts env req now next db token cl :
  includes "/auth/login" (req_path req) = false ->
  includes "/auth/register" (req_path req) = false ->
  req_authorization req = Some ("Bearer " ++ token) ->
  verifyJWT token (JWT_SECRET env) now = inr cl ->
  auth_middleware env req now next db = next (Some (sub cl)) db.
Proof.
  intros Hlogin Hregister Hauth Hverify.
  unfold auth_middleware. rewrite Hlogin, Hregister, Hauth.
  destruct (bearer_header token) as (-> & -> & ->). cbn [orb negb].
  rewrite Hverify. by destruct cl as [[] ? ?].
Qed.

Lemma not_the_login_route path :
  includes "/auth/login" path = false -> path <> "/api/auth/login".
Proof. by intros Hno ->. Qed.

Lemma not_the_register_route path :
  includes "/auth/register" path = false -> path <> "/api/auth/register".
Proof. by intros Hno ->. Qed.

(** C4. Outside the two authentication routes no request is counted by the
    rate limiter and none is answered 429: the general API traffic has no limit
    (the 100 of [default_limit] is never passed to [rateLimit], which only
    [post_register] (limit 5) and [post_login] (limit 10) call). *)
Theorem general_api_is_not_rate_limited env req now db :
  req_path req <> "/api/auth/register" ->
  req_path req <> "/api/auth/login" ->
  D1.rate_limits (snd (app env req now db)) = D1.rate_limits db
  /\ status (fst (app env req now db)) <> 429.
Proof.
  intros Hregister Hlogin. unfold app.
  assert (Hroutes : forall user, unmetered db (route env user req now db))
    by (intros user; by apply route_unmetered).
  assert (Hgate : unmetered db
            (auth_middleware env req now (fun user => route env user req now) db)).
  { destruct (auth_middleware_cases env req now
                (fun user => route env user req now) db) as [[msg ->]|[user ->]].
    - split; [reflexivity | cbn; lia].
    - apply Hroutes. }
  destruct (req_method req);
    try (destruct (String.eqb (req_path req) "/api"
                   || String.prefix "/api/" (req_path req)); [apply Hgate | apply Hroutes]).
  split; [reflexivity | cbn; lia].
Qed.

Lemma foreign_row_not_read t (resp : response) a r :
  reads_only t resp -> a <> t -> D1.col r "tenant_id" = SInt a ->
  r ∉ rows_of (body resp).
Proof.
  intros Hreads Hne Hcol Hin. apply Hreads in Hin.
  unfold tenant_is, D1.bind_id in Hin. rewrite Hcol in Hin. cbn in Hin.
  by apply Z.eqb_eq in Hin.
Qed.

(** C1. A request that carries a valid token for tenant [B]:
    - is never answered with a record whose tenant is another tenant [A];
    - on every route but the grouped dashboard is answered only with rows of
      [B] (the lists are filtered by the token's tenant), and the two
      dashboards are computed from the opportunities of [B] alone;
    - is answered 404 "Opportunity not found", without any effect, when it
      updates an opportunity of another tenant;
    - creates or changes only rows of [B], whatever its body says (the body's
      own tenant identifier, if it has one, is never read);
    - is answered, by each list, with rows that are stored rows of [B] in
      every column but the joined ones; in a row whose tenant is the integer
      [B], the joined company name and owner name are NULL or read off a
      company and a user of [B];
    - is answered, by the list of captures, whose join on [users] has no
      tenant condition of its own, with manager names that are NULL or
      those of users of [B], provided every capture is managed by a user of
      its tenant ([managers_in_tenant]);
    - leaves [users] as it is, and keeps [managers_in_tenant] when the
      token's user is a stored user of [B]: a capture is created with the
      token's tenant and the token's user. *)
Theorem tenant_isolation env req now db token cl :
  includes "/auth/login" (req_path req) = false ->
  includes "/auth/register" (req_path req) = false ->
  req_authorization req = Some ("Bearer " ++ token) ->
  verifyJWT token (JWT_SECRET env) now = inr cl ->
  let B := tenantId (sub cl) in
  let result := app env req now db in
  (forall A r, A <> B -> D1.col r "tenant_id" = SInt A ->
     r ∉ rows_of (body (fst result)))
  /\ (req_path req <> "/api/dashboard/pipeline-by-stage" ->
      forall r, r ∈ rows_of (body (fst result)) -> tenant_is B r = true)
  /\ (req_method req = GET -> req_path req = "/api/dashboard/kpis" ->
      body (fst result)
        = kpis_of (D1.select_where "opportunities" (tenant_is B) db))
  /\ (req_method req = GET -> req_path req = "/api/dashboard/pipeline-by-stage" ->
      body (fst result)
        = JRows (pipeline_of (D1.select_where "opportunities" (tenant_is B) db)))
  /\ (forall id data k r A,
        req_method req = PUT -> opportunity_id (req_path req) = Some id ->
        req_body req = Some data ->
        D1.rowid_of (SText id) = Some k ->
        D1.rows (D1.table_of db "opportunities") !! k = Some r ->
        D1.col r "tenant_id" = SInt A -> A <> B ->
        result = (c_json (JError "Opportunity not found" None) 404, db))
  /\ (forall tname k r,
        D1.rows (D1.table_of (snd result) tname) !! k = Some r ->
        D1.rows (D1.table_of db tname) !! k = Some r \/ tenant_is B r = true)
  /\ (req_method req = GET ->
      forall r, r ∈ rows_of (body (fst result)) ->
        (req_path req = "/api/companies" -> stored_for db B "companies" [] r)
        /\ (req_path req = "/api/contacts" ->
            stored_for db B "contacts" ["company_name"] r
            /\ (D1.col r "tenant_id" = SInt B ->
                drawn_from db B "companies" (fun c => D1.col c "name")
                  (D1.col r "company_name")))
        /\ (req_path req = "/api/opportunities" ->
            stored_for db B "opportunities" ["company_name"; "owner_name"] r
            /\ (D1.col r "tenant_id" = SInt B ->
                drawn_from db B "companies" (fun c => D1.col c "name")
                  (D1.col r "company_name")
                /\ drawn_from db B "users" (fun u => full_name (Some u))
                     (D1.col r "owner_name")))
        /\ (req_path req = "/api/captures" ->
            stored_for db B "captures" ["capture_manager_name"] r
            /\ (managers_in_tenant db ->
                drawn_from db B "users" (fun u => full_name (Some u))
                  (D1.col r "capture_manager_name"))))
  /\ D1.table_of (snd result) "users" = D1.table_of db "users"
  /\ (user_in_tenant db (sub cl) -> managers_in_tenant db ->
      managers_in_tenant (snd result)).
Proof.
  intros Hlogin Hregister Hauth Hverify B result.
  pose proof (not_the_login_route _ Hlogin) as Hnl.
  pose proof (not_the_register_route _ Hregister) as Hnr.
  (* what the application amounts to for this request *)
  assert (Happ : result = (c_json JEmpty 204, db) /\ req_method req = OPTIONS
                 \/ (result = route env (Some (sub cl)) req now db
                     /\ (String.eqb (req_path req) "/api"
                         || String.prefix "/api/" (req_path req)) = true
                     /\ req_method req <> OPTIONS)
                 \/ (result = route env None req now db
                     /\ (String.eqb (req_path req) "/api"
                         || String.prefix "/api/" (req_path req)) = false
                     /\ req_method req <> OPTIONS)).
  { subst result. unfold app.
    destruct (req_method req) eqn:Hm; try (by left);
      (destruct (String.eqb (req_path req) "/api"
                 || String.prefix "/api/" (req_path req)) eqn:Hapi;
       [ right; left; split; [|done];
         by apply (auth_middleware_accepts env req now
                     (fun user => route env user req now) db token cl)
       | right; right; done ]). }
  (* outside the grouped dashboard the routes are guarded *)
  assert (Hguard : req_path req <> "/api/dashboard/pipeline-by-stage" ->
                   guarded B db result).
  { intros Hp. destruct Happ as [[-> _]|[(-> & _)|(-> & _)]].
    - by apply guarded_quiet.
    - apply (route_guarded B); try done. by intros u [= <-].
    - by apply (route_guarded B). }
  (* the grouped dashboard *)
  assert (Hpipe : req_path req = "/api/dashboard/pipeline-by-stage" ->
            (req_method req = GET /\
             result = (c_json (JRows (pipeline_of
                         (D1.select_where "opportunities" (tenant_is B) db))) 200, db))
            \/ (rows_of (body (fst result)) = [] /\ snd result = db
                /\ req_method req <> GET)).
  { intros Hp. destruct Happ as [[-> Hm]|[(-> & Hapi & Hm)|(-> & Hapi & _)]].
    - right. by rewrite Hm.
    - unfold route. rewrite Hp. destruct (req_method req); try by right.
      left. split; [done|]. apply get_pipeline_eq.
    - rewrite Hp in Hapi. discriminate. }
  (* a list is answered by its handler, for the token's identity *)
  assert (Hlist : req_method req = GET ->
            String.prefix "/api/" (req_path req) = true ->
            result = route env (Some (sub cl)) req now db).
  { intros Hm Hp. destruct Happ as [[_ Ho]|[(-> & _)|(_ & Hapi & _)]].
    - congruence.
    - reflexivity.
    - apply orb_false_elim in Hapi as [_ Hapi]. congruence. }
  split; [|split; [|split; [|split; [|split; [|split; [|split; [|split]]]]]]].
  - intros A r HA Hcol.
    destruct (String.eqb_spec (req_path req) "/api/dashboard/pipeline-by-stage")
      as [Hp|Hp].
    + destruct (Hpipe Hp) as [[_ ->]|(-> & _)]; [|apply not_elem_of_nil].
      cbn [fst body c_json rows_of].
      intros Hin%pipeline_rows_have_no_tenant. congruence.
    + destruct (Hguard Hp) as [Hreads _]. by eapply foreign_row_not_read.
  - intros Hp. by destruct (Hguard Hp).
  - intros Hm Hp. destruct Happ as [[_ Ho]|[(-> & _)|(-> & Hapi & _)]].
    + congruence.
    + unfold route. rewrite Hm, Hp. reflexivity.
    + rewrite Hp in Hapi. discriminate.
  - intros Hm Hp. destruct (Hpipe Hp) as [[_ ->]|(_ & _ & ?)]; done.
  - intros id data k r A Hm Hid Hbody Hk Hr Hcol HA.
    destruct Happ as [[_ Ho]|[(-> & _)|(-> & Hapi & _)]].
    + congruence.
    + unfold route. rewrite Hm, Hid, Hbody.
      rewrite put_opportunity_not_owned; [done|].
      apply own_opportunity_foreign. intros k' r' Hk' Hr'.
      rewrite Hk in Hk'. injection Hk' as <-. rewrite Hr in Hr'. injection Hr' as <-.
      eauto.
    + apply opportunity_route_is_guarded in Hid.
      apply orb_false_elim in Hapi as [_ Hapi]. congruence.
  - intros tname k r Hr.
    destruct (String.eqb_spec (req_path req) "/api/dashboard/pipeline-by-stage")
      as [Hp|Hp].
    + left. destruct (Hpipe Hp) as [[_ Heq]|(_ & Heq & _)]; by rewrite Heq in Hr.
    + destruct (Hguard Hp) as [_ Hwrites]. by apply Hwrites.
  - intros Hm r Hr. split; [|split; [|split]]; intros Hp.
    + rewrite Hlist in Hr by (by rewrite ?Hp). unfold route in Hr.
      rewrite Hm, Hp in Hr. by apply get_companies_rows in Hr.
    + rewrite Hlist in Hr by (by rewrite ?Hp). unfold route in Hr.
      rewrite Hm, Hp in Hr. by apply get_contacts_rows in Hr.
    + rewrite Hlist in Hr by (by rewrite ?Hp). unfold route in Hr.
      rewrite Hm, Hp in Hr. by apply get_opportunities_rows in Hr.
    + rewrite Hlist in Hr by (by rewrite ?Hp). unfold route in Hr.
      rewrite Hm, Hp in Hr. by apply get_captures_rows in Hr.
  - destruct Happ as [[-> _]|[(-> & _)|(-> & _)]]; [done| |];
      by apply route_memberships.
  - intros Huser Hinv. destruct Happ as [[-> _]|[(-> & _)|(-> & _)]]; [done| |].
    + apply route_memberships; [done|done| |done]. by intros u [= <-].
    + by apply route_memberships.
Qed.

End Application.

(** ** Login *)

Section Login.
Context `{Runtime}.

Lemma bind_returns {A B} (m : action A) (f : A -> action B) db a db1 :
  m db = (Return a, db1) -> (m ≫= f) db = f a db1.
Proof. intros Hm. unfold mbind, action_bind. by rewrite Hm. Qed.

Lemma found_is_default {A} (o : option A) (d : A) :
  match o with Some _ => true | None => false end = true ->
  o = Some (default d o).
Proof. by destruct o. Qed.

Lemma bound_one k v :
  mapM (fun p : string * option sqlval => pair (fst p) <$> snd p) [(k, Some v)]
    = Some [(k, v)].
Proof. reflexivity. Qed.

(** With a password that is a string: once past the rate limiter, a login
    attempt that names an unknown or inactive tenant, an unknown (or inactive)
    user, or a wrong password gets one and the same answer, 401 with the
    message "Invalid credentials", and leaves the same database behind: the one
    the rate limiter produced. *)
Theorem login_failures_are_uniform secret path data now db db1 :
  rateLimit path (JS.get data "email") (Some 10) now db = (Return None, db1) ->
  login_failure data db1 ->
  post_login secret path (Some data) now db
    = (c_json (JError "Invalid credentials" None) 401, db1).
Proof.
  intros Hlimit Hfail. unfold post_login, try_catch, req_json. step.
  rewrite (bind_returns _ _ _ _ _ Hlimit).
  destruct Hfail as [key Hkey Htenant
                    |key tenant Hkey Htenant Hinactive
                    |key tenant address Hkey Htenant Hactive Haddress Huser
                    |key tenant address user password hash
                       Hkey Htenant Hactive Haddress Huser Hpassword Hhash Hwrong];
    step; rewrite Hkey, bound_one; step.
  all: unfold text_param; cbn [head fmap option_fmap option_map snd default from_option];
    unfold id; rewrite Htenant.
  - reflexivity.
  - rewrite Hinactive. reflexivity.
  - rewrite Hactive. cbn [negb]. step. rewrite Haddress, bound_one. step.
    cbn [head fmap option_fmap option_map snd default from_option]; unfold id.
    rewrite Huser. reflexivity.
  - rewrite Hactive. cbn [negb]. step. rewrite Haddress, bound_one. step.
    cbn [head fmap option_fmap option_map snd default from_option]; unfold id.
    rewrite Huser, Hpassword, Hhash. cbn [verifyPassword]. step.
    rewrite Hwrong. reflexivity.
Qed.

(** C8, as the code has it. With a password that is missing or is not a
    string, a login attempt that passes the rate limiter and names an active
    tenant is answered 401 "Invalid credentials" when the tenant has no active
    user of that address, but 500 "Login failed" when it has one:
    [verifyPassword] throws, and it is reached only once the user was found.
    The two answers tell a client whether the address is a user's. *)
Theorem login_without_password_tells_users_apart secret path data now db db1
    key tenant address :
  rateLimit path (JS.get data "email") (Some 10) now db = (Return None, db1) ->
  D1.bind (JS.get data "tenantKey") = Some key ->
  find_tenant (D1.apply_affinity D1.AffText key) db1 = Some tenant ->
  D1.js_truthy (D1.col tenant "is_active") = true ->
  D1.bind (JS.get data "email") = Some address ->
  (forall p, JS.get data "password" <> JS.Str p) ->
  let answer := fst (post_login secret path (Some data) now db) in
  (find_user (D1.id_of tenant) (D1.apply_affinity D1.AffText address) db1 = None ->
   answer = c_json (JError "Invalid credentials" None) 401)
  /\ (forall user,
        find_user (D1.id_of tenant) (D1.apply_affinity D1.AffText address) db1
          = Some user ->
        status answer = 500 /\ error_of (body answer) = Some "Login failed").
Proof.
  intros Hlimit Hkey Htenant Hactive Haddress Hpassword.
  unfold post_login, try_catch, req_json. step.
  rewrite (bind_returns _ _ _ _ _ Hlimit).
  step. rewrite Hkey, bound_one. step.
  unfold text_param. cbn [head fmap option_fmap option_map snd default from_option].
  unfold id. rewrite Htenant, Hactive. cbn [negb]. step.
  rewrite Haddress, bound_one. step.
  cbn [head fmap option_fmap option_map snd default from_option]. unfold id.
  split.
  - intros ->. reflexivity.
  - intros user ->.
    destruct (JS.get data "password") as [| | | |p|] eqn:Hp;
      try (cbn [verifyPassword]; rewrite bind_throw; by split).
    by destruct (Hpassword p).
Qed.

End Login.

(** ** The rate limiter's window *)

Section Window.
Context `{Runtime}.

Lemma single_before_later now now' l :
  now <= now' -> single_before now l -> single_before now' l.
Proof.
  unfold single_before. intros Hle Hl.
  eapply Forall_impl; [exact Hl|]. intros r [? ?]. cbn. lia.
Qed.

Lemma single_before_filter now (keep : D1.rate_limit -> bool) l :
  single_before now l -> single_before now (List.filter keep l).
Proof.
  unfold single_before. rewrite !Forall_forall. intros Hall r Hin.
  apply list_elem_of_In, filter_In in Hin as [Hin _].
  by apply Hall, list_elem_of_In.
Qed.

(** The conflict target includes the instant, so a key not yet seen at that
    instant gets a row of its own. *)
Lemma upsert_fresh ident path now l :
  single_before now l ->
  upsert ident path now l = (l ++ [D1.RateLimit ident path 1 now])%list.
Proof.
  induction 1 as [|r l [_ Hlt] _ IH]; [reflexivity|].
  cbn [upsert]. replace (D1.window_start r =? now) with false by lia.
  rewrite andb_false_r, IH. reflexivity.
Qed.

Lemma head_single now l r :
  single_before now l -> head l = Some r -> D1.count r = 1.
Proof. destruct 1 as [|? ? [? ?]]; [done|]. cbn. by intros [= <-]. Qed.

(** A request at an instant later than every counter's is let through, and
    adds a counter of its own, again standing at one. *)
Lemma rateLimit_at_new_instant path ident limit now db :
  1 < limit ->
  single_before now (D1.rate_limits db) ->
  exists db',
    rateLimit path (JS.Str ident) (Some limit) now db = (Return None, db')
    /\ single_before (now + 1) (D1.rate_limits db').
Proof.
  intros Hlimit Hsingle. unfold rateLimit. cbn [default from_option].
  step. step. cbn [D1.bind mapM fmap option_fmap option_map fst snd mbind option_bind
    mret option_ret head default from_option D1.apply_affinity].
  step. cbn [D1.rate_limits D1.set_rate_limits]. unfold id. cbv beta iota.
  set (kept := List.filter _ (D1.rate_limits db)).
  assert (Hkept : single_before now kept) by by apply single_before_filter.
  set (found := head (List.filter _ kept)).
  assert (Hfound : match found with
                   | Some r => limit <=? D1.count r
                   | None => false
                   end = false).
  { destruct found as [r|] eqn:Hhead; [|done].
    apply head_single with (now := now) in Hhead;
      [|by apply single_before_filter].
    rewrite Hhead. lia. }
  rewrite Hfound. step. eexists. split; [reflexivity|].
  cbn [D1.rate_limits D1.set_rate_limits]. rewrite upsert_fresh by done.
  apply Forall_app. split.
  - apply single_before_later with now; [lia|done].
  - repeat constructor. cbn. lia.
Qed.

(** Requests at strictly increasing instants are all let through, however
    close together they are and whatever the limit above one. *)
Lemma spaced_requests_pass path ident limit times :
  1 < limit ->
  Sorted Z.lt times ->
  forall db,
    (forall t, head times = Some t -> single_before t (D1.rate_limits db)) ->
    fst (limited path (JS.Str ident) (Some limit) times db)
      = (fun _ => Return None) <$> times.
Proof.
  intros Hlimit. induction 1 as [|t times Hsorted IH Hhd]; intros db Hdb.
  - reflexivity.
  - cbn [limited].
    destruct (rateLimit_at_new_instant path ident limit t db Hlimit)
      as (db' & -> & Hdb'); [by apply Hdb|].
    specialize (IH db').
    destruct (limited path (JS.Str ident) (Some limit) times db') as [os final].
    cbn [fst fmap list_fmap] in *. f_equal. apply IH.
    intros t' Ht'. destruct Hhd as [|t'' times Hlt]; [done|].
    cbn in Ht'. injection Ht' as <-.
    apply single_before_later with (t + 1); [lia|done].
Qed.

End Window.

Section Divergences.

#[local] Existing Instance Reference.runtime.

(** C2. The counters are keyed by the request's own instant, to the
    millisecond, and the check reads one of them: six requests for the same
    identifier and endpoint, one millisecond apart, with limit 5, are all let
    through and leave six counters standing at one. Only requests at the very
    same instant share a counter; of six such, the sixth is rejected. *)
Theorem six_rapid_requests_are_all_let_through :
  limited "/api/auth/register" (JS.Str "a@b.c") (Some 5)
    [1700000000000; 1700000000001; 1700000000002;
     1700000000003; 1700000000004; 1700000000005] Demo.empty
  = (replicate 6 (Return None),
     D1.RateLimit "a@b.c" "/api/auth/register" 1 <$>
       [1700000000000; 1700000000001; 1700000000002;
        1700000000003; 1700000000004; 1700000000005])
  /\ limited "/api/auth/register" (JS.Str "a@b.c") (Some 5)
       (replicate 6 1700000000000) Demo.empty
     = (replicate 5 (Return None)
          ++ [Return (Some (c_json (JError "Rate limit exceeded" None) 429))],
        [D1.RateLimit "a@b.c" "/api/auth/register" 5 1700000000000])%list.
Proof. split; vm_compute; reflexivity. Qed.

(** C3. On the seeded opportunity (amount 2,500,000, probability 60, expected
    revenue 1,500,000), an update that supplies only the amount stores the new
    amount and leaves the expected revenue as it was; an update that supplies
    only the probability computes the expected revenue from an amount of 0. *)
Theorem update_leaves_expected_revenue_inconsistent :
  (let answer := fst (put_opportunity (Some Demo.demo_user) "1"
                        (Some {[ "amount" := JS.Num 1000000 ]})
                        1700000000000 Demo.seed) in
   status answer = 200
   /\ field answer "amount" = Some (SReal 1000000)
   /\ field answer "probability" = Some (SReal 60)
   /\ field answer "expected_revenue" = Some (SReal 1500000))
  /\ (let answer := fst (put_opportunity (Some Demo.demo_user) "1"
                           (Some {[ "probability" := JS.Num 50 ]})
                           1700000000000 Demo.seed) in
      status answer = 200
      /\ field answer "amount" = Some (SReal 2500000)
      /\ field answer "probability" = Some (SReal 50)
      /\ field answer "expected_revenue" = Some (SReal 0)).
Proof. repeat split; vm_compute; reflexivity. Qed.

End Divergences.

(** ** Updating what is not the caller's *)

Section NotFound.
Context `{Runtime}.

(** C7. When the opportunity named by the path parameter is not stored, or is
    stored under another tenant than the caller's, the update is answered 404
    with the message "Opportunity not found", the same in both cases, and the
    database is left as it was. *)
Theorem update_of_missing_or_foreign_opportunity user id data now db :
  (forall k,
     D1.rowid_of (SText id) = Some k ->
     match D1.rows (D1.table_of db "opportunities") !! k with
     | None => True
     | Some r => exists t, D1.col r "tenant_id" = SInt t /\ t <> tenantId user
     end) ->
  put_opportunity (Some user) id (Some data) now db
    = (c_json (JError "Opportunity not found" None) 404, db).
Proof.
  intros Hnot. apply (put_opportunity_not_owned user id (Some data)).
  apply own_opportunity_foreign. intros k r Hk Hr.
  specialize (Hnot k Hk). by rewrite Hr in Hnot.
Qed.

End NotFound.

(** * Worked scenarios on the seed data *)

Section Scenarios.

#[local] Existing Instance Reference.runtime.

Lemma update_of_missing_or_foreign_opportunity_witness :
  put_opportunity (Some Demo.other_user) "1" (Some {[ "amount" := JS.Num 1 ]})
      Demo.clock Demo.two_tenants
    = (c_json (JError "Opportunity not found" None) 404, Demo.two_tenants)
  /\ put_opportunity (Some Demo.other_user) "99" (Some {[ "amount" := JS.Num 1 ]})
         Demo.clock Demo.two_tenants
       = (c_json (JError "Opportunity not found" None) 404, Demo.two_tenants).
Proof.
  split; apply update_of_missing_or_foreign_opportunity;
    intros k Hk; vm_compute in Hk; injection Hk as <-.
  - (* the seeded opportunity, of tenant 1 *)
    vm_compute. exists 1. split; [reflexivity | discriminate].
  - (* no such row *)
    vm_compute. exact I.
Defined.

(** On the seed data, without a password: the address of the demo user is
    answered 500, an address that is no user's 401. *)
Lemma login_without_password_tells_users_apart_witness :
  let answer address :=
    fst (post_login "s3cret" "/api/auth/login"
           (Some (list_to_map [("tenantKey", JS.Str "demo");
                               ("email", JS.Str address)]))
           Demo.clock Demo.seed) in
  (status (answer "demo@example.com") = 500
   /\ error_of (body (answer "demo@example.com")) = Some "Login failed")
  /\ answer "nobody@example.com" = c_json (JError "Invalid credentials" None) 401.
Proof.
  cbv zeta. split.
  - destruct (login_without_password_tells_users_apart "s3cret" "/api/auth/login"
                (list_to_map [("tenantKey", JS.Str "demo");
                              ("email", JS.Str "demo@example.com")])
                Demo.clock Demo.seed
                (snd (rateLimit "/api/auth/login" (JS.Str "demo@example.com")
                        (Some 10) Demo.clock Demo.seed))
                (SText "demo")
                (default ∅ (find_tenant (SText "demo") Demo.seed))
                (SText "demo@example.com")) as [_ Hknown];
      [vm_compute; reflexivity
      |reflexivity
      |apply (found_is_default _ ∅); vm_compute; reflexivity
      |vm_compute; reflexivity
      |reflexivity
      |intros p Hp; vm_compute in Hp; discriminate
      |].
    apply (Hknown (default ∅ (find_user 1 (SText "demo@example.com") Demo.seed))).
    apply (found_is_default _ ∅). vm_compute. reflexivity.
  - destruct (login_without_password_tells_users_apart "s3cret" "/api/auth/login"
                (list_to_map [("tenantKey", JS.Str "demo");
                              ("email", JS.Str "nobody@example.com")])
                Demo.clock Demo.seed
                (snd (rateLimit "/api/auth/login" (JS.Str "nobody@example.com")
                        (Some 10) Demo.clock Demo.seed))
                (SText "demo")
                (default ∅ (find_tenant (SText "demo") Demo.seed))
                (SText "nobody@example.com")) as [Hunknown _];
      [vm_compute; reflexivity
      |reflexivity
      |apply (found_is_default _ ∅); vm_compute; reflexivity
      |vm_compute; reflexivity
      |reflexivity
      |intros p Hp; vm_compute in Hp; discriminate
      |].
    apply Hunknown. vm_compute. reflexivity.
Defined.

(** Each failing login with a string password, on the seed data, is answered
    alike. *)
Lemma login_failures_are_uniform_witness :
  let answer credentials db :=
    fst (post_login "s3cret" "/api/auth/login" (Some credentials) Demo.clock db) in
  answer (Demo.login_with "demo" "demo@example.com" "wrong-password") Demo.seed
    = c_json (JError "Invalid credentials" None) 401
  /\ answer (Demo.login_with "demo" "nobody@example.com" "password123") Demo.seed
       = c_json (JError "Invalid credentials" None) 401
  /\ answer (Demo.login_with "demo" "demo@example.com" "password123")
         Demo.deactivated
       = c_json (JError "Invalid credentials" None) 401.
Proof.
  cbv zeta. split; [|split].
  - rewrite (login_failures_are_uniform _ _ _ _ Demo.seed
               (snd (rateLimit "/api/auth/login" (JS.Str "demo@example.com")
                       (Some 10) Demo.clock Demo.seed)));
      [reflexivity | vm_compute; reflexivity |].
    eapply (wrong_password _ _ (SText "demo") _ (SText "demo@example.com"));
      [reflexivity
      |apply (found_is_default _ ∅); vm_compute; reflexivity
      |vm_compute; reflexivity
      |reflexivity
      |apply (found_is_default _ ∅); vm_compute; reflexivity
      |vm_compute; reflexivity ..].
  - rewrite (login_failures_are_uniform _ _ _ _ Demo.seed
               (snd (rateLimit "/api/auth/login" (JS.Str "nobody@example.com")
                       (Some 10) Demo.clock Demo.seed)));
      [reflexivity | vm_compute; reflexivity |].
    eapply (unknown_user _ _ (SText "demo") _ (SText "nobody@example.com"));
      [reflexivity
      |apply (found_is_default _ ∅); vm_compute; reflexivity
      |vm_compute; reflexivity
      |reflexivity
      |vm_compute; reflexivity].
  - rewrite (login_failures_are_uniform _ _ _ _ Demo.deactivated
               (snd (rateLimit "/api/auth/login" (JS.Str "demo@example.com")
                       (Some 10) Demo.clock Demo.deactivated)));
      [reflexivity | vm_compute; reflexivity |].
    eapply (inactive_tenant _ _ (SText "demo"));
      [reflexivity
      |apply (found_is_default _ ∅); vm_compute; reflexivity
      |vm_compute; reflexivity].
Defined.

(** The creation scenario: amount 2,500,000 at probability 60. *)
Lemma create_opportunity_expected_revenue_witness :
  exists id row,
    body (fst (post_opportunities (Some Demo.demo_user)
                 (Some Demo.cloud_migration) Demo.clock Demo.seed))
      = JRow (Some (D1.with_id id row))
    /\ D1.col row "expected_revenue" = SReal 1500000.
Proof.
  destruct (create_opportunity_expected_revenue Demo.demo_user
              Demo.cloud_migration Demo.clock Demo.seed)
    as (id & row & Hbody & _ & _ & _ & _ & Hrevenue);
    [vm_compute; reflexivity|].
  exists id, row. split; [exact Hbody|].
  apply Hrevenue; vm_compute; reflexivity.
Defined.

(** A token of the demo user, an hour short of its expiry, is accepted
    whether or not the user and the tenant have been deactivated since. *)
Lemma middleware_ignores_database_witness :
  let req := Demo.list_companies Demo.demo_user in
  let now := Demo.clock + 23 * 60 * 60 * 1000 in
  let next user := route Demo.env user req now in
  auth_middleware Demo.env req now next Demo.seed
    = next (Some Demo.demo_user) Demo.seed
  /\ auth_middleware Demo.env req now next Demo.deactivated
       = next (Some Demo.demo_user) Demo.deactivated.
Proof.
  cbv zeta.
  destruct (middleware_ignores_database Demo.env
              (Demo.list_companies Demo.demo_user)
              (Demo.clock + 23 * 60 * 60 * 1000)) as [_ Haccepted].
  split; apply (Haccepted Demo.demo_user Demo.clock);
    vm_compute; first [reflexivity | discriminate].
Defined.

(** A listing by the demo user is neither counted nor limited. *)
Lemma general_api_is_not_rate_limited_witness :
  D1.rate_limits
      (snd (app Demo.env (Demo.list_companies Demo.demo_user) Demo.clock Demo.seed))
    = D1.rate_limits Demo.seed
  /\ status
       (fst (app Demo.env (Demo.list_companies Demo.demo_user) Demo.clock Demo.seed))
     <> 429.
Proof.
  apply general_api_is_not_rate_limited; vm_compute; discriminate.
Defined.

(** The second tenant creates a company with a body that names the first
    tenant, then tries to update the first tenant's opportunity. *)
Lemma tenant_isolation_witness :
  (let result :=
     app Demo.env (Demo.create_company Demo.other_user) Demo.clock
       Demo.two_tenants in
   (forall r, r ∈ rows_of (body (fst result)) -> tenant_is 2 r = true)
   /\ (forall tname k r,
         D1.rows (D1.table_of (snd result) tname) !! k = Some r ->
         D1.rows (D1.table_of Demo.two_tenants tname) !! k = Some r
         \/ tenant_is 2 r = true))
  /\ app Demo.env
       (Demo.update_opportunity Demo.other_user "1" {[ "amount" := JS.Num 1 ]})
       Demo.clock Demo.two_tenants
     = (c_json (JError "Opportunity not found" None) 404, Demo.two_tenants)
  /\ (forall r,
        r ∈ rows_of (body (fst (app Demo.env
                                  (Request GET "/api/captures"
                                     (Demo.bearer Demo.demo_user) ∅ None)
                                  Demo.clock Demo.two_tenants))) ->
        drawn_from Demo.two_tenants 1 "users" (fun u => full_name (Some u))
          (D1.col r "capture_manager_name"))
  /\ managers_in_tenant
       (snd (app Demo.env
               (Request POST "/api/captures" (Demo.bearer Demo.demo_user) ∅
                  (Some (list_to_map [("name", JS.Str "Border Sensors");
                                      ("customerName", JS.Str "DHS");
                                      ("captureType", JS.Str "sole")])))
               Demo.clock Demo.two_tenants)).
Proof.
  assert (Hmanagers : managers_in_tenant Demo.two_tenants)
    by (apply managers_checked; vm_compute; reflexivity).
  split; [|split; [|split]].
  - destruct (tenant_isolation Demo.env (Demo.create_company Demo.other_user)
                Demo.clock Demo.two_tenants
                (generateJWT Demo.other_user "s3cret" Demo.clock)
                (jwtPayload Demo.other_user Demo.clock))
      as (_ & Hreads & _ & _ & _ & Hwrites & _);
      [vm_compute; reflexivity ..|].
    split; [apply Hreads; discriminate | exact Hwrites].
  - destruct (tenant_isolation Demo.env
                (Demo.update_opportunity Demo.other_user "1"
                   {[ "amount" := JS.Num 1 ]})
                Demo.clock Demo.two_tenants
                (generateJWT Demo.other_user "s3cret" Demo.clock)
                (jwtPayload Demo.other_user Demo.clock))
      as (_ & _ & _ & _ & Hforeign & _);
      [vm_compute; reflexivity ..|].
    apply (Hforeign "1" {[ "amount" := JS.Num 1 ]} 1
             (default ∅ (D1.rows (D1.table_of Demo.two_tenants "opportunities") !! 1))
             1);
      [reflexivity | vm_compute; reflexivity | reflexivity | vm_compute; reflexivity
      |apply (found_is_default _ ∅); vm_compute; reflexivity
      |vm_compute; reflexivity
      |vm_compute; discriminate].
  - destruct (tenant_isolation Demo.env
                (Request GET "/api/captures" (Demo.bearer Demo.demo_user) ∅ None)
                Demo.clock Demo.two_tenants
                (generateJWT Demo.demo_user "s3cret" Demo.clock)
                (jwtPayload Demo.demo_user Demo.clock))
      as (_ & _ & _ & _ & _ & _ & Hlists & _);
      [vm_compute; reflexivity ..|].
    intros r Hr.
    destruct (Hlists eq_refl r Hr) as (_ & _ & _ & Hcaptures).
    destruct (Hcaptures eq_refl) as [_ Hdrawn]. apply Hdrawn, Hmanagers.
  - destruct (tenant_isolation Demo.env
                (Request POST "/api/captures" (Demo.bearer Demo.demo_user) ∅
                   (Some (list_to_map [("name", JS.Str "Border Sensors");
                                       ("customerName", JS.Str "DHS");
                                       ("captureType", JS.Str "sole")])))
                Demo.clock Demo.two_tenants
                (generateJWT Demo.demo_user "s3cret" Demo.clock)
                (jwtPayload Demo.demo_user Demo.clock))
      as (_ & _ & _ & _ & _ & _ & _ & _ & Hkept);
      [vm_compute; reflexivity ..|].
    apply Hkept; [|exact Hmanagers].
    exists (default ∅ (D1.rows (D1.table_of Demo.two_tenants "users") !! 1)).
    split; [apply (found_is_default _ ∅) |]; vm_compute; reflexivity.
Defined.


(** Six registrations a millisecond apart, against a limit of five. *)
Lemma spaced_requests_pass_witness :
  fst (limited "/api/auth/register" (JS.Str "a@b.c") (Some 5)
         [1700000000000; 1700000000001; 1700000000002;
          1700000000003; 1700000000004; 1700000000005] Demo.empty)
    = (fun _ => Return None) <$>
        [1700000000000; 1700000000001; 1700000000002;
         1700000000003; 1700000000004; 1700000000005].
Proof.
  apply spaced_requests_pass.
  - lia.
  - repeat constructor.
  - intros t _. constructor.
Defined.

End Scenarios.

(** * Further properties *)

(** ** The segments of a token *)

Lemma split_nonempty sep s : split sep s <> [].
Proof.
  destruct s as [|c r]; [done|]. cbn [split].
  destruct (Ascii.eqb c sep); [done|]. by destruct (split sep r).
Qed.

Lemma split_at_separator sep a b :
  split sep (a ++ String sep b) = (split sep a ++ split sep b)%list.
Proof.
  induction a as [|c a IH].
  - change ("" ++ String sep b) with (String sep b). cbn [split].
    by rewrite Ascii.eqb_refl.
  - rewrite append_cons. cbn [split]. rewrite IH.
    destruct (Ascii.eqb c sep); [reflexivity|].
    pose proof (split_nonempty sep a). by destruct (split sep a).
Qed.

Section Segments.
Context `{Runtime}.

(** [verifyJWT] reads the first three dot-separated segments of what it is
    given and nothing else. A token of fewer than three segments has no
    signature, and fails with [InvalidSignature] (even when it is empty); what
    follows a fourth dot is ignored, so a token that verifies still verifies,
    with the same claims, after anything is appended behind a dot. *)
Theorem verifyJWT_reads_three_segments token secret now :
  ((length (split "."%char token) < 3)%nat ->
     verifyJWT token secret now = inl InvalidSignature)
  /\ ((3 <= length (split "."%char token))%nat ->
      forall extra,
        verifyJWT (token ++ "." ++ extra) secret now = verifyJWT token secret now).
Proof.
  split.
  - intros Hshort. unfold verifyJWT. cbv zeta.
    rewrite (lookup_ge_None_2 _ 2) by lia.
    by rewrite bool_decide_eq_false_2.
  - intros Hlong extra. unfold verifyJWT. cbv zeta.
    change ("." ++ extra) with (String "."%char extra).
    rewrite split_at_separator.
    by rewrite !lookup_app_l by lia.
Qed.

End Segments.

(** ** Requests that carry no valid token *)

Lemma prefix_substring_from p s :
  String.prefix p s = true -> s = p ++ substring_from (String.length p) s.
Proof.
  revert s. induction p as [|c p IH]; intros s Hp; [reflexivity|].
  destruct s as [|d s]; [done|]. cbn [String.prefix] in Hp.
  destruct (Ascii.ascii_dec c d) as [->|]; [|done].
  rewrite append_cons. cbn [String.length substring_from]. f_equal. by apply IH.
Qed.

Section NoToken.
Context `{Runtime}.

(** Reached without an identity, every route but the two authentication
    routes answers without data and leaves the database alone. *)
Lemma route_anonymous env req now db :
  req_path req <> "/api/auth/register" ->
  req_path req <> "/api/auth/login" ->
  snd (route env None req now db) = db
  /\ carries_no_data (body (fst (route env None req now db))) = true.
Proof.
  intros Hregister Hlogin. unfold route.
  destruct (req_method req).
  - repeat (match goal with
            | |- context [String.eqb ?a ?b] => destruct (String.eqb a b)
            end; [by split|]).
    by split.
  - destruct (String.eqb_spec (req_path req) "/api/auth/register"); [done|].
    destruct (String.eqb_spec (req_path req) "/api/auth/login"); [done|].
    repeat (match goal with
            | |- context [String.eqb ?a ?b] => destruct (String.eqb a b)
            end; [by split|]).
    by split.
  - by destruct (opportunity_id (req_path req)).
  - by split.
  - by split.
Qed.

(** Apart from registration and login, a request that does not carry a token
    which verifies reads nothing and changes nothing: the database is left as it
    was and the answer holds no row, no token and no figure. On a protected
    path the answer is 401. *)
Theorem request_without_valid_token_is_harmless env req now db :
  req_path req <> "/api/auth/register" ->
  req_path req <> "/api/auth/login" ->
  (forall token cl,
     req_authorization req = Some ("Bearer " ++ token) ->
     verifyJWT token (JWT_SECRET env) now <> inr cl) ->
  let result := app env req now db in
  snd result = db
  /\ carries_no_data (body (fst result)) = true
  /\ (req_method req <> OPTIONS ->
      String.prefix "/api/" (req_path req) = true ->
      includes "/auth/login" (req_path req) = false ->
      includes "/auth/register" (req_path req) = false ->
      status (fst result) = 401).
Proof.
  intros Hregister Hlogin Hinvalid result. subst result.
  pose proof (route_anonymous env req now db Hregister Hlogin) as [Hdb Hbody].
  assert (Hgate :
    let result := auth_middleware env req now (fun user => route env user req now) db in
    snd result = db /\ carries_no_data (body (fst result)) = true
    /\ (includes "/auth/login" (req_path req) = false ->
        includes "/auth/register" (req_path req) = false ->
        status (fst result) = 401)).
  { cbv zeta. unfold auth_middleware.
    destruct (includes "/auth/login" (req_path req)) eqn:Hl;
      [by repeat split|].
    destruct (includes "/auth/register" (req_path req)) eqn:Hr;
      [by repeat split|].
    cbn [orb]. destruct (req_authorization req) as [authHeader|] eqn:Hauth;
      [|by repeat split].
    destruct (String.eqb authHeader ""); [by repeat split|]. cbn [orb].
    destruct (String.prefix "Bearer " authHeader) eqn:Hbearer;
      [|by repeat split]. cbn [negb].
    destruct (verifyJWT (substring_from 7 authHeader) (JWT_SECRET env) now)
      as [e|cl] eqn:Hverify; [by repeat split|].
    exfalso. apply (Hinvalid (substring_from 7 authHeader) cl); [|done].
    f_equal. by apply (prefix_substring_from "Bearer "). }
  unfold app. destruct (req_method req) eqn:Hmethod;
    try (destruct (String.eqb (req_path req) "/api"
                   || String.prefix "/api/" (req_path req)) eqn:Hapi;
         [ destruct Hgate as (? & ? & ?); repeat split; auto
         | repeat split; auto; intros _ Hp;
           rewrite Hp, orb_true_r in Hapi; discriminate ]).
  by repeat split.
Qed.

End NoToken.

(** ** The rate limiter: expiry and counting *)

Lemma filter_none {A} (f : A -> bool) l :
  (forall x, In x l -> f x = false) -> List.filter f l = [].
Proof.
  induction l as [|x l IH]; intros Hall; [reflexivity|]. cbn [List.filter].
  rewrite (Hall x) by by left. apply IH. intros y Hy. apply Hall. by right.
Qed.

Section Counting.
Context `{Runtime}.

Lemma rateLimit_text path ident limit now db :
  rateLimit path (JS.Str ident) limit now db =
    let kept := List.filter (fun r => negb (D1.window_start r <? now - 60000))
                  (D1.rate_limits db) in
    let found := head (List.filter
                   (fun r => same_key ident path r
                             && (now - 60000 <=? D1.window_start r)) kept) in
    if match found with
       | Some r => default default_limit limit <=? D1.count r
       | None => false
       end
    then (Return (Some (c_json (JError "Rate limit exceeded" None) 429)),
          D1.set_rate_limits kept db)
    else (Return None,
          D1.set_rate_limits (upsert ident path now kept) db).
Proof.
  unfold rateLimit. step. step.
  cbn [D1.bind mapM fmap option_fmap option_map fst snd mbind option_bind
    mret option_ret head default from_option D1.apply_affinity].
  step. cbn [D1.rate_limits D1.set_rate_limits]. unfold id. cbv beta iota zeta.
  destruct (match head _ with Some _ => _ | None => _ end); [reflexivity|].
  by step.
Qed.

Lemma upsert_window ident path now l (P : Z -> Prop) :
  P now -> Forall (fun r => P (D1.window_start r)) l ->
  Forall (fun r => P (D1.window_start r)) (upsert ident path now l).
Proof.
  intros Hnow. induction 1 as [|r l Hr Hl IH]; cbn [upsert].
  - by repeat constructor.
  - destruct (same_key ident path r && (D1.window_start r =? now));
      constructor; cbn; auto.
Qed.

(** A request is let through, whatever the limit, when every counter of its
    identifier and endpoint is more than a minute old; and after any request
    that is let through no counter older than a minute is left, for any
    identifier. *)
Theorem request_after_a_minute_is_let_through path ident limit now db :
  (forall r, r ∈ D1.rate_limits db -> same_key ident path r = true ->
     D1.window_start r < now - 60000) ->
  exists db',
    rateLimit path (JS.Str ident) limit now db = (Return None, db')
    /\ D1.tables db' = D1.tables db
    /\ D1.RateLimit ident path 1 now ∈ D1.rate_limits db'
    /\ forall r, r ∈ D1.rate_limits db' -> now - 60000 <= D1.window_start r.
Proof.
  intros Hold. rewrite rateLimit_text. cbv zeta.
  set (kept := List.filter _ (D1.rate_limits db)).
  assert (Hkept : Forall (fun r => now - 60000 <= D1.window_start r) kept).
  { apply Forall_forall. intros r Hr.
    apply list_elem_of_In, filter_In in Hr as [_ Hr]. lia. }
  assert (Hnone : List.filter
            (fun r => same_key ident path r && (now - 60000 <=? D1.window_start r))
            kept = []).
  { apply filter_none. intros r Hin.
    destruct (same_key ident path r) eqn:Hkey; [|done].
    apply filter_In in Hin as [Hin Hr]. apply list_elem_of_In in Hin.
    specialize (Hold r Hin Hkey). lia. }
  rewrite Hnone. cbn [head]. eexists. split; [reflexivity|].
  cbn [D1.tables D1.rate_limits D1.set_rate_limits]. split; [reflexivity|]. split.
  - clear Hkept Hnone. assert (Hfree : Forall (fun r => same_key ident path r
                        && (D1.window_start r =? now) = false) kept).
    { apply Forall_forall. intros r Hr.
      apply list_elem_of_In, filter_In in Hr as [Hin Hr].
      destruct (same_key ident path r) eqn:Hkey; [|done].
      apply list_elem_of_In in Hin. specialize (Hold r Hin Hkey). lia. }
    induction Hfree as [|r l Hr _ IH]; cbn [upsert];
      [apply list_elem_of_here|].
    rewrite Hr. apply list_elem_of_further, IH.
  - apply Forall_forall.
    apply (upsert_window ident path now kept (fun w => now - 60000 <= w));
      [lia | done].
Qed.

(** The table while requests at instant [now] are being counted: counters of
    other keys, none older than a minute, then the counter of the key. *)
Lemma upsert_other ident path now l :
  Forall (fun r => same_key ident path r = false) l ->
  upsert ident path now l = (l ++ [D1.RateLimit ident path 1 now])%list.
Proof.
  induction 1 as [|r l Hr _ IH]; [reflexivity|].
  cbn [upsert]. rewrite Hr, IH. reflexivity.
Qed.

Lemma upsert_counted ident path now k l :
  Forall (fun r => same_key ident path r = false) l ->
  upsert ident path now (l ++ [D1.RateLimit ident path k now])
    = (l ++ [D1.RateLimit ident path (k + 1) now])%list.
Proof.
  induction 1 as [|r l Hr _ IH].
  - rewrite !app_nil_l. cbn [upsert]. unfold same_key.
    cbn [D1.identifier D1.endpoint D1.window_start D1.count].
    by rewrite !String.eqb_refl, Z.eqb_refl.
  - rewrite <- !app_comm_cons. cbn [upsert]. rewrite Hr. cbn [andb]. by rewrite IH.
Qed.

Lemma filter_all {A} (f : A -> bool) l :
  Forall (fun x => f x = true) l -> List.filter f l = l.
Proof.
  induction 1 as [|x l Hx _ IH]; [reflexivity|]. cbn [List.filter].
  by rewrite Hx, IH.
Qed.

Lemma counting_step path ident limit now k others db :
  Forall (fun r => same_key ident path r = false
                   /\ now - 60000 <= D1.window_start r) others ->
  D1.rate_limits db = (others ++ [D1.RateLimit ident path k now])%list ->
  rateLimit path (JS.Str ident) (Some limit) now db =
    if limit <=? k
    then (Return (Some (c_json (JError "Rate limit exceeded" None) 429)),
          D1.set_rate_limits (others ++ [D1.RateLimit ident path k now]) db)
    else (Return None,
          D1.set_rate_limits (others ++ [D1.RateLimit ident path (k + 1) now]) db).
Proof.
  intros Hothers Hdb. rewrite rateLimit_text, Hdb. cbv zeta.
  assert (Hkey : Forall (fun r => same_key ident path r = false) others)
    by (eapply Forall_impl; [exact Hothers | by intros r [? ?]]).
  rewrite (filter_all _ (others ++ _)).
  2:{ apply Forall_app. split.
      - eapply Forall_impl; [exact Hothers|]. intros r [_ ?]. cbn. lia.
      - repeat constructor. cbn. lia. }
  rewrite List.filter_app, (filter_none _ others).
  2:{ intros r Hr. apply list_elem_of_In in Hr.
      by rewrite (proj1 (Forall_forall _ _) Hkey r Hr). }
  cbn [app List.filter]. unfold same_key at 1.
  cbn [D1.identifier D1.endpoint D1.window_start D1.count].
  rewrite !String.eqb_refl. replace (now - 60000 <=? now) with true by lia.
  cbn [andb default from_option]. unfold id. rewrite app_nil_l.
  cbn [head D1.count].
  destruct (limit <=? k); [reflexivity|]. by rewrite upsert_counted.
Qed.

Lemma counting path ident limit now n : forall k others db,
  1 <= k ->
  Forall (fun r => same_key ident path r = false
                   /\ now - 60000 <= D1.window_start r) others ->
  D1.rate_limits db = (others ++ [D1.RateLimit ident path k now])%list ->
  fst (limited path (JS.Str ident) (Some limit) (replicate n now) db)
    = (replicate (n `min` Z.to_nat (limit - k)) (Return None)
       ++ replicate (n - Z.to_nat (limit - k))
            (Return (Some (c_json (JError "Rate limit exceeded" None) 429))))%list.
Proof.
  induction n as [|n IH]; intros k others db Hk Hothers Hdb; [reflexivity|].
  cbn [replicate limited].
  rewrite (counting_step path ident limit now k others db Hothers Hdb).
  destruct (Z.leb_spec limit k) as [Hle|Hlt].
  - specialize (IH k others
      (D1.set_rate_limits (others ++ [D1.RateLimit ident path k now]) db)
      Hk Hothers eq_refl).
    destruct (limited _ _ _ (replicate n now) _) as [os final].
    cbn [fst] in *. rewrite IH.
    replace (Z.to_nat (limit - k)) with 0%nat by lia.
    by rewrite !Nat.min_0_r, !Nat.sub_0_r.
  - specialize (IH (k + 1) others
      (D1.set_rate_limits (others ++ [D1.RateLimit ident path (k + 1) now]) db)
      ltac:(lia) Hothers eq_refl).
    destruct (limited _ _ _ (replicate n now) _) as [os final].
    cbn [fst] in *. rewrite IH.
    replace (Z.to_nat (limit - k)) with (S (Z.to_nat (limit - (k + 1)))) by lia.
    reflexivity.
Qed.

(** Requests of one identifier on one endpoint that all arrive at the same
    instant are counted: when the table holds no counter of theirs, the first
    [limit] of them are let through and every later one is answered 429. *)
Theorem requests_at_one_instant_are_counted path ident limit now n db :
  1 <= limit ->
  (forall r, r ∈ D1.rate_limits db -> same_key ident path r = false) ->
  fst (limited path (JS.Str ident) (Some limit) (replicate n now) db)
    = (replicate (n `min` Z.to_nat limit) (Return None)
       ++ replicate (n - Z.to_nat limit)
            (Return (Some (c_json (JError "Rate limit exceeded" None) 429))))%list.
Proof.
  intros Hlimit Hnone. destruct n as [|n]; [reflexivity|].
  cbn [replicate limited]. rewrite rateLimit_text. cbv zeta.
  set (kept := List.filter _ (D1.rate_limits db)).
  assert (Hkept : Forall (fun r => same_key ident path r = false
                            /\ now - 60000 <= D1.window_start r) kept).
  { apply Forall_forall. intros r Hr.
    apply list_elem_of_In, filter_In in Hr as [Hin Hr].
    apply list_elem_of_In in Hin. split; [by apply Hnone | lia]. }
  assert (Hkey : Forall (fun r => same_key ident path r = false) kept)
    by (eapply Forall_impl; [exact Hkept | by intros r [? ?]]).
  rewrite (filter_none _ kept).
  2:{ intros r Hr. apply list_elem_of_In in Hr.
      by rewrite (proj1 (Forall_forall _ _) Hkey r Hr). }
  cbn [head]. rewrite upsert_other by done.
  pose proof (counting path ident limit now n 1 kept
    (D1.set_rate_limits (kept ++ [D1.RateLimit ident path 1 now]) db)
    ltac:(lia) Hkept eq_refl) as Hrest.
  destruct (limited _ _ _ (replicate n now) _) as [os final].
  cbn [fst] in *. rewrite Hrest.
  replace (Z.to_nat limit) with (S (Z.to_nat (limit - 1))) by lia.
  reflexivity.
Qed.

End Counting.

(** ** Tenant keys *)

Lemma dashes_cons c r :
  dashes (String c r) =
    if alnum (lower c) then String (lower c) (dashes r)
    else if String.prefix "-" (dashes r) then dashes r
         else String "-"%char (dashes r).
Proof.
  cbn [dashes]. destruct (alnum (lower c)); [reflexivity|].
  destruct (dashes r) as [|x d]; [reflexivity|].
  destruct x as [[] [] [] [] [] [] [] []]; destruct d; reflexivity.
Qed.

Lemma drop_last_dash_cons c r :
  drop_last_dash (String c r) =
    if Ascii.eqb c "-"%char && String.eqb r "" then ""
    else String c (drop_last_dash r).
Proof.
  destruct r as [|d r]; destruct c as [[] [] [] [] [] [] [] []]; reflexivity.
Qed.

Lemma trim_dashes_eq s :
  trim_dashes s =
    drop_last_dash (if String.prefix "-" s then substring_from 1 s else s).
Proof.
  destruct s as [|c r]; [reflexivity|].
  destruct c as [[] [] [] [] [] [] [] []]; try reflexivity.
  cbn. by destruct r.
Qed.

Lemma prefix_dash c r :
  String.prefix "-" (String c r) = Ascii.eqb c "-"%char.
Proof.
  cbn [String.prefix]. destruct (Ascii.eqb_spec c "-"%char) as [->|Hc].
  - by destruct r.
  - destruct (ascii_dec "-" c); [congruence | done].
Qed.

Lemma prefix_dashes c r :
  String.prefix "--" (String c r) = Ascii.eqb c "-"%char && String.prefix "-" r.
Proof.
  cbn [String.prefix]. destruct (Ascii.eqb_spec c "-"%char) as [->|Hc].
  - destruct (ascii_dec "-" "-"); [|done]. by destruct r.
  - destruct (ascii_dec "-" c); [congruence | done].
Qed.

Lemma includes_cons needle c r :
  includes needle (String c r)
    = String.prefix needle (String c r) || includes needle r.
Proof. reflexivity. Qed.

Lemma alnum_not_dash c : alnum c = true -> Ascii.eqb c "-"%char = false.
Proof. destruct (Ascii.eqb_spec c "-"%char) as [->|]; [by cbn | done]. Qed.

Lemma dashes_chars c s : has c (dashes s) = true -> slug_char c = true.
Proof.
  unfold slug_char. induction s as [|d r IH]; [done|]. rewrite dashes_cons.
  destruct (alnum (lower d)) eqn:Hd.
  - cbn [has]. destruct (Ascii.eqb_spec (lower d) c) as [<-|]; [by rewrite Hd | done].
  - destruct (String.prefix "-" (dashes r)); [done|]. cbn [has].
    destruct (Ascii.eqb_spec "-"%char c) as [<-|]; [by rewrite orb_true_r | done].
Qed.

Lemma dashes_no_run s : includes "--" (dashes s) = false.
Proof.
  induction s as [|d r IH]; [reflexivity|]. rewrite dashes_cons.
  destruct (alnum (lower d)) eqn:Hd.
  - rewrite includes_cons, prefix_dashes, (alnum_not_dash _ Hd). exact IH.
  - destruct (String.prefix "-" (dashes r)) eqn:Hp; [exact IH|].
    by rewrite includes_cons, prefix_dashes, Hp, andb_false_r.
Qed.

Lemma drop_last_dash_chars c s :
  has c (drop_last_dash s) = true -> has c s = true.
Proof.
  induction s as [|d r IH]; [done|]. rewrite drop_last_dash_cons.
  destruct (Ascii.eqb d "-"%char && String.eqb r ""); [done|].
  cbn [has]. destruct (Ascii.eqb d c); [done|]. exact IH.
Qed.

Lemma drop_last_dash_prefix s :
  String.prefix "-" (drop_last_dash s) = true -> String.prefix "-" s = true.
Proof.
  destruct s as [|d r]; [done|]. rewrite drop_last_dash_cons.
  destruct (Ascii.eqb d "-"%char && String.eqb r ""); [done|].
  by rewrite !prefix_dash.
Qed.

Lemma drop_last_dash_no_run s :
  includes "--" s = false -> includes "--" (drop_last_dash s) = false.
Proof.
  induction s as [|d r IH]; [done|]. rewrite drop_last_dash_cons.
  destruct (Ascii.eqb d "-"%char && String.eqb r ""); [done|].
  rewrite !includes_cons, !prefix_dashes.
  intros [Hhere Hrest]%orb_false_elim. rewrite (IH Hrest), orb_false_r.
  destruct (Ascii.eqb d "-"%char); [|done]. cbn [andb] in *.
  destruct (String.prefix "-" (drop_last_dash r)) eqn:Hp; [|done].
  by rewrite (drop_last_dash_prefix _ Hp) in Hhere.
Qed.

Lemma drop_last_dash_empty s :
  drop_last_dash s = "" -> s = "" \/ s = "-".
Proof.
  destruct s as [|d r]; [by left|]. rewrite drop_last_dash_cons.
  destruct (Ascii.eqb_spec d "-"%char) as [->|]; [|done].
  destruct (String.eqb_spec r "") as [->|]; [by right | done].
Qed.

Lemma drop_last_dash_last s :
  includes "--" s = false -> last_char (drop_last_dash s) <> Some "-"%char.
Proof.
  induction s as [|d r IH]; [done|]. rewrite drop_last_dash_cons.
  destruct (Ascii.eqb d "-"%char && String.eqb r "") eqn:Hend; [done|].
  rewrite includes_cons, prefix_dashes.
  intros [Hhere Hrest]%orb_false_elim. specialize (IH Hrest).
  destruct (drop_last_dash r) as [|x t] eqn:Hdrop; [|exact IH].
  cbn [last_char]. intros [= ->].
  destruct (drop_last_dash_empty _ Hdrop) as [->| ->]; by cbn in *.
Qed.

(** The tenant key made from a company name holds only lower-case letters,
    digits and dashes, does not begin or end with a dash, and has no two dashes
    in a row. (It is empty when the name has no letter or digit.) *)
Theorem tenant_key_is_a_slug name :
  let key := tenant_key_of name in
  (forall c, has c key = true -> slug_char c = true)
  /\ String.prefix "-" key = false
  /\ last_char key <> Some "-"%char
  /\ includes "--" key = false.
Proof.
  cbv zeta. unfold tenant_key_of. rewrite trim_dashes_eq.
  pose proof (dashes_no_run name) as Hrun.
  assert (Hchars : forall c, has c (dashes name) = true -> slug_char c = true)
    by (intros c; apply dashes_chars).
  destruct (dashes name) as [|d r]; [by repeat split|].
  rewrite includes_cons, prefix_dashes in Hrun.
  apply orb_false_elim in Hrun as [Hhere Hrest].
  rewrite prefix_dash. destruct (Ascii.eqb_spec d "-"%char) as [->|Hd].
  - cbn [andb substring_from] in *. repeat split.
    + intros c Hc. apply Hchars. cbn [has].
      by rewrite (drop_last_dash_chars _ _ Hc), orb_true_r.
    + destruct (String.prefix "-" (drop_last_dash r)) eqn:Hp; [|done].
      by rewrite (drop_last_dash_prefix _ Hp) in Hhere.
    + by apply drop_last_dash_last.
    + by apply drop_last_dash_no_run.
  - assert (Hall : includes "--" (String d r) = false).
    { rewrite includes_cons, prefix_dashes, Hrest.
      by destruct (Ascii.eqb_spec d "-"%char). }
    repeat split.
    + intros c Hc. by apply Hchars, drop_last_dash_chars.
    + destruct (String.prefix "-" (drop_last_dash (String d r))) eqn:Hp; [|done].
      apply drop_last_dash_prefix in Hp. rewrite prefix_dash in Hp.
      by destruct (Ascii.eqb_spec d "-"%char).
    + by apply drop_last_dash_last.
    + by apply drop_last_dash_no_run.
Qed.

(** ** Selecting from a table *)

Lemma head_only {A} (l : list A) x :
  x ∈ l -> (forall y, y ∈ l -> y = x) -> head l = Some x.
Proof.
  destruct l as [|y l]; [by intros ?%elem_of_nil|].
  intros _ Hall. cbn. f_equal. apply Hall. apply list_elem_of_here.
Qed.

Lemma head_none {A} (l : list A) : head l = None -> l = [].
Proof. by destruct l. Qed.

(** The first row selected after an INSERT is the new row, when it meets the
    condition and no row did before. *)
Lemma first_after_insert tname cond db db1 id r :
  D1.rows (D1.table_of db tname) !! id = None ->
  D1.rows (D1.table_of db1 tname) !! id = Some r ->
  (forall k, k <> id ->
     D1.rows (D1.table_of db1 tname) !! k = D1.rows (D1.table_of db tname) !! k) ->
  (forall r0, r0 ∈ D1.select_where tname cond db -> False) ->
  cond (D1.with_id id r) = true ->
  head (D1.select_where tname cond db1) = Some (D1.with_id id r).
Proof.
  intros Hfresh Hnew Hold Hnone Hcond. apply head_only.
  - apply elem_of_select. split; [done|]. by exists id, r.
  - intros y (Hy & k & r0 & Hk & ->)%elem_of_select.
    destruct (decide (k = id)) as [->|Hne]; [congruence|].
    exfalso. apply (Hnone (D1.with_id k r0)). apply elem_of_select.
    split; [done|]. exists k, r0. by rewrite <- Hold.
Qed.

Lemma select_where_ext tname cond db db' :
  D1.table_of db tname = D1.table_of db' tname ->
  D1.select_where tname cond db = D1.select_where tname cond db'.
Proof. unfold D1.select_where. by intros ->. Qed.

Lemma table_of_tables db db' tname :
  D1.tables db' = D1.tables db -> D1.table_of db' tname = D1.table_of db tname.
Proof. unfold D1.table_of. by intros ->. Qed.

Lemma insert_ok `{Runtime} tname vals now db id db1 :
  D1.insert tname vals now db = Some (id, db1) ->
  D1.constraints_ok (D1.schema_of tname) db (D1.rows (D1.table_of db tname))
    (D1.stored_row (D1.schema_of tname) vals now) = true.
Proof.
  unfold D1.insert. cbv zeta.
  by destruct (D1.constraints_ok _ _ _ _).
Qed.

Section Limiter.
Context `{Runtime}.

Lemma bind_any {A B} (m : action A) (f : A -> action B) db :
  (m ≫= f) db =
    match m db with
    | (Return a, db') => f a db'
    | (Throw e, db') => (Throw e, db')
    end.
Proof. reflexivity. Qed.

(** Whatever it answers, the rate limiter leaves the tables alone, and what
    it answers with is the 429. *)
Lemma rateLimit_frame path ident limit now db :
  D1.tables (snd (rateLimit path ident limit now db)) = D1.tables db
  /\ forall r, fst (rateLimit path ident limit now db) = Return (Some r) ->
       r = c_json (JError "Rate limit exceeded" None) 429.
Proof.
  unfold rateLimit. step. step.
  destruct (mapM _ _) as [ps|]; [|by split]. step.
  destruct (match head _ with Some _ => _ | None => _ end).
  - unfold mret, action_ret. cbn [fst snd]. split; [reflexivity|]. by intros r [= <-].
  - destruct (D1.apply_affinity _ _); by split.
Qed.

End Limiter.

(** ** Registration *)

(** Case analysis on the parameters being bound and on the statement being
    run, where the goal is about to branch on them. *)
Ltac bound vs Hvs :=
  match goal with
  | |- context [match mapM ?f ?l with Some _ => _ | None => _ end] =>
      destruct (mapM f l) as [vs|] eqn:Hvs
  end.

Ltac inserted id db' Hins :=
  match goal with
  | |- context [match D1.insert ?t ?v ?n ?d with Some _ => _ | None => _ end] =>
      destruct (D1.insert t v n d) as [[id db']|] eqn:Hins
  end.

Section Registration.
Context `{Runtime}.

(** The parameters of the two INSERTs of a registration. *)
Lemma register_inv path data now db :
  status (fst (post_register path (Some data) now db)) = 201 ->
  exists name password db0 vt tenant dbt vu admin,
    JS.get data "companyName" = JS.Str name
    /\ JS.get data "password" = JS.Str password
    /\ rateLimit path (JS.get data "email") (Some 5) now db = (Return None, db0)
    /\ find_tenant (SText (tenant_key_of name)) db0 = None
    /\ mapM (fun p : string * option sqlval => pair (fst p) <$> snd p)
         [("tenant_key", Some (SText (tenant_key_of name)));
          ("company_name", D1.bind (JS.get data "companyName"));
          ("contact_email", D1.bind (JS.get data "email"))] = Some vt
    /\ D1.insert "tenants" vt now db0 = Some (tenant, dbt)
    /\ mapM (fun p : string * option sqlval => pair (fst p) <$> snd p)
         [("tenant_id", Some (D1.bind_id tenant));
          ("email", D1.bind (JS.get data "email"));
          ("password_hash", Some (SText (bcrypt_hash password)));
          ("first_name", D1.bind (JS.get data "firstName"));
          ("last_name", D1.bind (JS.get data "lastName"));
          ("role", Some (SText "admin"))] = Some vu
    /\ D1.insert "users" vu now dbt = Some (admin, snd (post_register path (Some data) now db))
    /\ fst (post_register path (Some data) now db)
         = c_json (JRegistered (tenant_key_of name) tenant) 201.
Proof.
  unfold post_register, try_catch, req_json. step. rewrite bind_any.
  pose proof (rateLimit_frame path (JS.get data "email") (Some 5) now db)
    as [_ Hanswer].
  destruct (rateLimit path (JS.get data "email") (Some 5) now db)
    as [[[r|]|e] db0]; [|clear Hanswer|done].
  { rewrite (Hanswer r eq_refl). done. }
  destruct (JS.get data "companyName") as [| | | |name|] eqn:Hname;
    try (rewrite bind_throw; done).
  step. step.
  destruct (find_tenant (SText (tenant_key_of name)) db0) eqn:Hfree; [done|].
  step.
  bound vt Hvt; [|done]. step.
  inserted tenant dbt Htenant; [|done].
  destruct (JS.get data "password") as [| | | |password|] eqn:Hpassword;
    try (cbn [hashPassword]; rewrite bind_throw; done).
  cbn [hashPassword]. step. step.
  bound vu Hvu; [|done]. step.
  inserted admin db1 Hadmin; [|done].
  unfold mret, action_ret. cbn [fst snd]. intros _.
  by exists name, password, db0, vt, tenant, dbt, vu, admin.
Qed.

Lemma find_tenant_none key db :
  find_tenant key db = None ->
  forall r, r ∈ D1.select_where "tenants"
              (fun r => D1.sql_eqb (D1.col r "tenant_key") key) db -> False.
Proof.
  unfold find_tenant. intros Hnone%head_none r Hr. rewrite Hnone in Hr.
  by apply elem_of_nil in Hr.
Qed.

(** What a registration answered 201 stored, by the parameters bound. *)
Lemma registration_rows path data now db :
  let result := post_register path (Some data) now db in
  status (fst result) = 201 ->
  exists name password tenant admin vt vu,
    JS.get data "companyName" = JS.Str name
    /\ JS.get data "password" = JS.Str password
    /\ fst result = c_json (JRegistered (tenant_key_of name) tenant) 201
    /\ find_tenant (SText (tenant_key_of name)) db = None
    /\ mapM (fun p : string * option sqlval => pair (fst p) <$> snd p)
         [("tenant_key", Some (SText (tenant_key_of name)));
          ("company_name", D1.bind (JS.get data "companyName"));
          ("contact_email", D1.bind (JS.get data "email"))] = Some vt
    /\ mapM (fun p : string * option sqlval => pair (fst p) <$> snd p)
         [("tenant_id", Some (D1.bind_id tenant));
          ("email", D1.bind (JS.get data "email"));
          ("password_hash", Some (SText (bcrypt_hash password)));
          ("first_name", D1.bind (JS.get data "firstName"));
          ("last_name", D1.bind (JS.get data "lastName"));
          ("role", Some (SText "admin"))] = Some vu
    /\ D1.rows (D1.table_of db "tenants") !! tenant = None
    /\ D1.rows (D1.table_of (snd result) "tenants") !! tenant
         = Some (D1.stored_row (D1.schema_of "tenants") vt now)
    /\ D1.rows (D1.table_of db "users") !! admin = None
    /\ D1.rows (D1.table_of (snd result) "users") !! admin
         = Some (D1.stored_row (D1.schema_of "users") vu now)
    /\ (forall k, k <> tenant ->
          D1.rows (D1.table_of (snd result) "tenants") !! k
            = D1.rows (D1.table_of db "tenants") !! k)
    /\ (forall k, k <> admin ->
          D1.rows (D1.table_of (snd result) "users") !! k
            = D1.rows (D1.table_of db "users") !! k)
    /\ (exists dbt,
          D1.insert "users" vu now dbt = Some (admin, snd result)
          /\ D1.table_of dbt "tenants" = D1.table_of (snd result) "tenants"
          /\ D1.table_of dbt "users" = D1.table_of db "users").
Proof.
  intros result Hst. subst result.
  destruct (register_inv _ _ _ _ Hst)
    as (name & password & db0 & vt & tenant & dbt & vu & admin
        & Hname & Hpassword & Hlimit & Hfree & Hvt & Htenant & Hvu & Hadmin & Hanswer).
  pose proof (rateLimit_frame path (JS.get data "email") (Some 5) now db)
    as [Htables _]. rewrite Hlimit in Htables. cbn [snd] in Htables.
  destruct (created_row _ _ _ _ _ _ _ Hvt Htenant)
    as (Hfresh_t & Hrow_t & _ & _ & Hkeep_t & Hothers_t).
  destruct (created_row _ _ _ _ _ _ _ Hvu Hadmin)
    as (Hfresh_u & Hrow_u & _ & _ & Hkeep_u & Hothers_u).
  exists name, password, tenant, admin, vt, vu.
  rewrite (Hothers_u "tenants") by done.
  rewrite (Hothers_t "users") in Hfresh_u, Hkeep_u by done.
  rewrite (table_of_tables db db0) in * by done.
  repeat split; try done.
  - unfold find_tenant in *.
    by rewrite (select_where_ext _ _ db db0) by by rewrite (table_of_tables db db0).
  - exists dbt. split; [done|]. split; [done|].
    rewrite (Hothers_t "users") by done. by apply table_of_tables.
Qed.

(** A registration answered 201 found the key of the company name free, and
    stored a new tenant under that key and, for it, a new user with the role
    [admin] who holds the bcrypt hash of the password; no other tenant and no
    other user was touched. The answer names the key and the tenant. *)
Theorem registration_creates_tenant_and_admin path data now db :
  let result := post_register path (Some data) now db in
  status (fst result) = 201 ->
  exists name password tenant admin trow urow,
    JS.get data "companyName" = JS.Str name
    /\ JS.get data "password" = JS.Str password
    /\ body (fst result) = JRegistered (tenant_key_of name) tenant
    /\ find_tenant (SText (tenant_key_of name)) db = None
    /\ D1.rows (D1.table_of db "tenants") !! tenant = None
    /\ D1.rows (D1.table_of (snd result) "tenants") !! tenant = Some trow
    /\ D1.col trow "tenant_key" = SText (tenant_key_of name)
    /\ D1.col trow "company_name" = SText name
    /\ D1.col trow "is_active" = SInt 1
    /\ D1.rows (D1.table_of db "users") !! admin = None
    /\ D1.rows (D1.table_of (snd result) "users") !! admin = Some urow
    /\ D1.col urow "tenant_id" = SInt tenant
    /\ D1.col urow "role" = SText "admin"
    /\ D1.col urow "password_hash" = SText (bcrypt_hash password)
    /\ (forall k, k <> tenant ->
          D1.rows (D1.table_of (snd result) "tenants") !! k
            = D1.rows (D1.table_of db "tenants") !! k)
    /\ (forall k, k <> admin ->
          D1.rows (D1.table_of (snd result) "users") !! k
            = D1.rows (D1.table_of db "users") !! k).
Proof.
  intros result Hst.
  destruct (registration_rows path data now db Hst)
    as (name & password & tenant & admin & vt & vu & Hname & Hpassword & Hanswer
        & Hfree & Hvt & Hvu & Hfresh_t & Hrow_t & Hfresh_u & Hrow_u
        & Hkeep_t & Hkeep_u & _).
  exists name, password, tenant, admin,
    (D1.stored_row (D1.schema_of "tenants") vt now),
    (D1.stored_row (D1.schema_of "users") vu now).
  repeat split; try done.
  - subst result. by rewrite Hanswer.
  - rewrite col_stored_row, (assoc_bound _ _ _ Hvt). reflexivity.
  - rewrite col_stored_row, (assoc_bound _ _ _ Hvt), Hname. reflexivity.
  - rewrite col_stored_row, (assoc_bound _ _ _ Hvt). reflexivity.
  - rewrite col_stored_row, (assoc_bound _ _ _ Hvu). reflexivity.
  - rewrite col_stored_row, (assoc_bound _ _ _ Hvu). reflexivity.
  - rewrite col_stored_row, (assoc_bound _ _ _ Hvu). reflexivity.
Qed.

(** After a registration, looking up the key finds the tenant. *)
Lemma registered_tenant_is_found path data now db name db' :
  status (fst (post_register path (Some data) now db)) = 201 ->
  JS.get data "companyName" = JS.Str name ->
  D1.tables db' = D1.tables (snd (post_register path (Some data) now db)) ->
  exists tenant trow,
    find_tenant (SText (tenant_key_of name)) db' = Some (D1.with_id tenant trow)
    /\ body (fst (post_register path (Some data) now db))
         = JRegistered (tenant_key_of name) tenant
    /\ D1.rows (D1.table_of db "tenants") !! tenant = None
    /\ D1.rows (D1.table_of db' "tenants") !! tenant = Some trow
    /\ D1.col trow "is_active" = SInt 1.
Proof.
  intros Hst Hname Hdb'.
  destruct (registration_rows path data now db Hst)
    as (name' & password & tenant & admin & vt & vu & Hname' & _ & Hanswer
        & Hfree & Hvt & _ & Hfresh & Hrow & _ & _ & Hkeep & _).
  rewrite Hname in Hname'. injection Hname' as <-.
  exists tenant, (D1.stored_row (D1.schema_of "tenants") vt now).
  rewrite (table_of_tables _ _ "tenants" Hdb').
  assert (Hkey : D1.col (D1.stored_row (D1.schema_of "tenants") vt now) "tenant_key"
                   = SText (tenant_key_of name))
    by (rewrite col_stored_row, (assoc_bound _ _ _ Hvt); reflexivity).
  repeat split; try done.
  - unfold find_tenant.
    rewrite (select_where_ext _ _ db' (snd (post_register path (Some data) now db)))
      by by apply table_of_tables.
    eapply first_after_insert; try done.
    + by apply find_tenant_none.
    + rewrite col_with_id, Hkey by done. cbn [D1.sql_eqb]. apply String.eqb_refl.
  - by rewrite Hanswer.
  - rewrite col_stored_row, (assoc_bound _ _ _ Hvt). reflexivity.
Qed.

(** Once a company is registered, its key is taken: a later registration under
    a name with the same key (the same name, or one that differs in case or
    punctuation only) is answered 400 and stores nothing. *)
Theorem second_registration_is_refused path path' data data' now now' db
    name name' db2 :
  status (fst (post_register path (Some data) now db)) = 201 ->
  JS.get data "companyName" = JS.Str name ->
  JS.get data' "companyName" = JS.Str name' ->
  tenant_key_of name' = tenant_key_of name ->
  rateLimit path' (JS.get data' "email") (Some 5) now'
    (snd (post_register path (Some data) now db)) = (Return None, db2) ->
  post_register path' (Some data') now' (snd (post_register path (Some data) now db))
    = (c_json (JError "Company name already registered" None) 400, db2).
Proof.
  intros Hst Hname Hname' Hkey Hlimit.
  pose proof (rateLimit_frame path' (JS.get data' "email") (Some 5) now'
                (snd (post_register path (Some data) now db))) as [Htables _].
  rewrite Hlimit in Htables. cbn [snd] in Htables.
  destruct (registered_tenant_is_found path data now db name db2 Hst Hname Htables)
    as (tenant & trow & Hfound & _).
  set (db1 := snd (post_register path (Some data) now db)) in *.
  unfold post_register at 1, try_catch, req_json. step.
  rewrite (bind_returns _ _ _ _ _ Hlimit), Hname'. step. step.
  by rewrite Hkey, Hfound.
Qed.

End Registration.

(** ** Registration is not atomic *)

Section Partial.
Context `{Runtime}.

Lemma sql_eqb_text_sym s v : D1.sql_eqb (SText s) v = D1.sql_eqb v (SText s).
Proof. destruct v; try reflexivity. cbn. apply String.eqb_sym. Qed.

(** The INSERT of a tenant under a free key goes through. *)
Lemma tenant_insert_succeeds key name e now db :
  find_tenant (SText key) db = None ->
  exists tenant dbt,
    D1.insert "tenants"
      [("tenant_key", SText key); ("company_name", SText name);
       ("contact_email", e)] now db = Some (tenant, dbt).
Proof.
  intros Hfree. unfold D1.insert. cbv zeta.
  pose proof (col_stored_row (D1.schema_of "tenants")
    [("tenant_key", SText key); ("company_name", SText name); ("contact_email", e)]
    now) as Hcol.
  pose proof (Hcol "tenant_key") as Hkey.
  pose proof (Hcol "company_name") as Hname.
  pose proof (Hcol "subscription_tier") as Htier.
  change (D1.col ?r "tenant_key" = _) with (D1.col r "tenant_key" = SText key) in Hkey.
  change (D1.col ?r "company_name" = _)
    with (D1.col r "company_name" = SText name) in Hname.
  change (D1.col ?r "subscription_tier" = _)
    with (D1.col r "subscription_tier" = SText "trial") in Htier.
  clear Hcol. revert Hkey Hname Htier.
  generalize (D1.stored_row (D1.schema_of "tenants")
    [("tenant_key", SText key); ("company_name", SText name); ("contact_email", e)]
    now).
  intros r Hkey Hname Htier.
  assert (Hok : D1.constraints_ok (D1.schema_of "tenants") db
                  (D1.rows (D1.table_of db "tenants")) r = true).
  { unfold D1.constraints_ok.
    change (D1.schema_of "tenants") with D1.tenants_schema.
    cbn [D1.sch_not_null D1.sch_check D1.sch_fk D1.sch_unique D1.tenants_schema
         forallb andb].
    unfold D1.check_ok. cbn [fst snd]. rewrite Hkey, Hname, Htier.
    cbn [D1.is_null negb andb existsb String.eqb Ascii.eqb Bool.eqb orb].
    rewrite andb_true_r. unfold D1.unique_ok. apply bool_decide_eq_true_2.
    intros k r0 Hr0. cbn [D1.same_on forallb]. rewrite Hkey, andb_true_r.
    destruct (D1.sql_eqb (SText key) (D1.col r0 "tenant_key")) eqn:Heq; [|done].
    exfalso. apply (find_tenant_none _ _ Hfree (D1.with_id k r0)).
    apply elem_of_select. split; [|by exists k, r0].
    by rewrite col_with_id, <- sql_eqb_text_sym. }
  rewrite Hok. by eexists _, _.
Qed.

Lemma rateLimit_passed path ident limit now db db0 :
  rateLimit path ident limit now db = (Return None, db0) ->
  exists e, D1.bind ident = Some e.
Proof.
  unfold rateLimit. step. step. cbn [mapM].
  destruct (D1.bind ident) as [e|]; [by exists e | done].
Qed.

(** A registration whose password is missing, or is not a string, is answered
    500 after the tenant has been stored: the tenant stays, without any user,
    and its key is taken from then on. *)
Theorem failed_registration_keeps_the_tenant path data now db name db0 :
  JS.get data "companyName" = JS.Str name ->
  (forall p, JS.get data "password" <> JS.Str p) ->
  rateLimit path (JS.get data "email") (Some 5) now db = (Return None, db0) ->
  find_tenant (SText (tenant_key_of name)) db = None ->
  let result := post_register path (Some data) now db in
  status (fst result) = 500
  /\ (exists tenant trow,
        D1.rows (D1.table_of db "tenants") !! tenant = None
        /\ D1.rows (D1.table_of (snd result) "tenants") !! tenant = Some trow
        /\ D1.col trow "tenant_key" = SText (tenant_key_of name))
  /\ D1.table_of (snd result) "users" = D1.table_of db "users"
  /\ find_tenant (SText (tenant_key_of name)) (snd result) <> None.
Proof.
  intros Hname Hpassword Hlimit Hfree result. subst result.
  pose proof (rateLimit_frame path (JS.get data "email") (Some 5) now db)
    as [Htables _]. rewrite Hlimit in Htables. cbn [snd] in Htables.
  assert (Hfree0 : find_tenant (SText (tenant_key_of name)) db0 = None).
  { unfold find_tenant in *.
    by rewrite (select_where_ext _ _ db0 db) by by apply table_of_tables. }
  destruct (rateLimit_passed _ _ _ _ _ _ Hlimit) as [e He].
  destruct (tenant_insert_succeeds (tenant_key_of name) name e now db0 Hfree0)
    as (tenant & dbt & Htenant).
  assert (Hvt : mapM (fun p : string * option sqlval => pair (fst p) <$> snd p)
            [("tenant_key", Some (SText (tenant_key_of name)));
             ("company_name", D1.bind (JS.get data "companyName"));
             ("contact_email", D1.bind (JS.get data "email"))]
          = Some [("tenant_key", SText (tenant_key_of name));
                  ("company_name", SText name); ("contact_email", e)])
    by (rewrite Hname, He; reflexivity).
  destruct (created_row _ _ _ _ _ _ _ Hvt Htenant)
    as (Hfresh & Hrow & _ & _ & Hkeep & Hothers).
  assert (Hresult : post_register path (Some data) now db
            = (c_json (JError "Registration failed" (Some "Illegal arguments")) 500,
               dbt)).
  { unfold post_register, try_catch, req_json. step.
    rewrite (bind_returns _ _ _ _ _ Hlimit), Hname. step. step.
    rewrite Hfree0. step. rewrite <- Hname, Hvt. step. rewrite Htenant.
    destruct (JS.get data "password") as [| | | |p|] eqn:Hp;
      try (cbn [hashPassword]; by rewrite bind_throw).
    by destruct (Hpassword p). }
  rewrite Hresult. cbn [fst snd status c_json].
  rewrite <- (table_of_tables db db0 "tenants") by done.
  split; [reflexivity|]. split; [|split].
  - exists tenant, (D1.stored_row (D1.schema_of "tenants")
                      [("tenant_key", SText (tenant_key_of name));
                       ("company_name", SText name); ("contact_email", e)] now).
    split; [done|]. split; [done|]. rewrite col_stored_row. reflexivity.
  - rewrite (Hothers "users") by done. by apply table_of_tables.
  - unfold find_tenant.
    rewrite (first_after_insert "tenants" _ db0 dbt tenant _ Hfresh Hrow Hkeep
               (find_tenant_none _ _ Hfree0)); [discriminate|].
    rewrite col_with_id, col_stored_row by done. cbn [D1.sql_eqb].
    apply String.eqb_refl.
Qed.

End Partial.

(** ** Constraints on a changed row *)

Lemma forallb_agree {A} (f g : A -> bool) l :
  (forall x, In x l -> f x = g x) -> forallb f l = forallb g l.
Proof.
  induction l as [|x l IH]; intros Hfg; [reflexivity|]. cbn [forallb].
  rewrite (Hfg x) by by left. f_equal. apply IH. intros y Hy. apply Hfg. by right.
Qed.

Section Constraints.
Context `{Runtime}.

(** The constraints of a table read a row only through the constrained
    columns, and the database only through the referenced tables. *)
Lemma constraints_ok_frame sch db db' others r r' :
  (forall c, In c (D1.sch_not_null sch) -> D1.col r' c = D1.col r c) ->
  (forall chk, In chk (D1.sch_check sch) ->
     D1.col r' (fst chk) = D1.col r (fst chk)) ->
  (forall fk, In fk (D1.sch_fk sch) ->
     D1.col r' (fst fk) = D1.col r (fst fk)
     /\ D1.table_of db' (snd fk) = D1.table_of db (snd fk)) ->
  (forall cs c, In cs (D1.sch_unique sch) -> In c cs ->
     D1.col r' c = D1.col r c) ->
  D1.constraints_ok sch db others r = true ->
  D1.constraints_ok sch db' others r' = true.
Proof.
  intros Hnn Hchk Hfk Huq. unfold D1.constraints_ok.
  rewrite !andb_true_iff, !forallb_forall.
  intros [[[Hok1 Hok2] Hok3] Hok4]. repeat split.
  - intros c Hc. rewrite Hnn by done. by apply Hok1.
  - intros chk Hc. unfold D1.check_ok. rewrite Hchk by done. by apply Hok2.
  - intros fk Hc. unfold D1.fk_ok. destruct (Hfk fk Hc) as [-> ->].
    by apply Hok3.
  - intros cs Hc. specialize (Hok4 cs Hc). unfold D1.unique_ok in *.
    apply bool_decide_eq_true_1 in Hok4. apply bool_decide_eq_true_2.
    intros k r0 Hr0. rewrite <- (Hok4 k r0 Hr0). unfold D1.same_on.
    apply forallb_agree. intros c Hin. by rewrite (Huq cs c).
Qed.

End Constraints.

(** ** Logging in *)

Section LoggingIn.
Context `{Runtime}.

Lemma id_of_with_id k r : D1.id_of (D1.with_id k r) = k.
Proof. unfold D1.id_of, D1.col, D1.with_id. by rewrite lookup_insert_eq. Qed.

Lemma col_insert_ne (r : D1.row) c c' v :
  c <> c' -> D1.col (<[c := v]> r) c' = D1.col r c'.
Proof. intros Hc. unfold D1.col. by rewrite lookup_insert_ne. Qed.

(** The UPDATE of [last_login] on a user that satisfies the constraints of
    its table goes through and changes that column of that row only. *)
Lemma last_login_update user urow now db :
  D1.rows (D1.table_of db "users") !! user = Some urow ->
  D1.constraints_ok D1.users_schema db
    (delete user (D1.rows (D1.table_of db "users"))) urow = true ->
  D1.update_row "users" user (fun _ => true) [("last_login", D1.now_text now)] db
    = Some (D1.set_table "users"
              (D1.Table (<[user := <["last_login" := D1.now_text now]> urow]>
                           (D1.rows (D1.table_of db "users")))
                 (D1.seq (D1.table_of db "users"))) db).
Proof.
  intros Hrow Hok. unfold D1.update_row. cbv zeta. rewrite Hrow.
  change (D1.schema_of "users") with D1.users_schema.
  cbn [foldl fst snd].
  change (D1.convert D1.users_schema "last_login" (D1.now_text now))
    with (D1.now_text now).
  rewrite (constraints_ok_frame D1.users_schema db db _ urow); [done| | | |  |done].
  - intros c Hc. apply col_insert_ne. cbn in Hc. intuition congruence.
  - intros chk Hc. apply col_insert_ne. cbn in Hc. intuition (subst; done).
  - intros fk Hc. split; [|done]. apply col_insert_ne. cbn in Hc.
    intuition (subst; done).
  - intros cs c Hcs Hc. apply col_insert_ne. cbn in Hcs.
    destruct Hcs as [<-|[]]. cbn in Hc. intuition congruence.
Qed.

(** The INSERT into the activity log for a stored tenant and a stored user goes
    through. *)
Lemma login_is_logged tenant trow user urow now db :
  D1.rows (D1.table_of db "tenants") !! tenant = Some trow ->
  D1.rows (D1.table_of db "users") !! user = Some urow ->
  exists id db',
    D1.insert "activity_log"
      [("tenant_id", D1.bind_id tenant); ("user_id", D1.bind_id user);
       ("activity_type", SText "login"); ("description", SText "User logged in")]
      now db = Some (id, db').
Proof.
  intros Htenant Huser. unfold D1.insert. cbv zeta.
  pose proof (col_stored_row (D1.schema_of "activity_log")
    [("tenant_id", D1.bind_id tenant); ("user_id", D1.bind_id user);
     ("activity_type", SText "login"); ("description", SText "User logged in")]
    now) as Hcol.
  pose proof (Hcol "tenant_id") as Ht. pose proof (Hcol "user_id") as Hu.
  change (D1.col ?r "tenant_id" = _) with (D1.col r "tenant_id" = SInt tenant) in Ht.
  change (D1.col ?r "user_id" = _) with (D1.col r "user_id" = SInt user) in Hu.
  clear Hcol. revert Ht Hu.
  generalize (D1.stored_row (D1.schema_of "activity_log")
    [("tenant_id", D1.bind_id tenant); ("user_id", D1.bind_id user);
     ("activity_type", SText "login"); ("description", SText "User logged in")]
    now).
  intros r Ht Hu.
  assert (Hok : D1.constraints_ok (D1.schema_of "activity_log") db
                  (D1.rows (D1.table_of db "activity_log")) r = true).
  { unfold D1.constraints_ok.
    change (D1.schema_of "activity_log") with D1.activity_log_schema.
    cbn [D1.sch_not_null D1.sch_check D1.sch_fk D1.sch_unique
         D1.activity_log_schema forallb andb].
    unfold D1.fk_ok. cbn [fst snd]. rewrite Ht, Hu, Htenant, Huser.
    cbn [D1.is_null negb andb].
    rewrite !bool_decide_eq_true_2 by eauto. reflexivity. }
  rewrite Hok. by eexists _, _.
Qed.

(** The steps of a login that passes every check. *)
Lemma login_steps secret path credentials now db db1
    key address password tenant trow user urow hash :
  JS.get credentials "tenantKey" = JS.Str key ->
  JS.get credentials "email" = JS.Str address ->
  JS.get credentials "password" = JS.Str password ->
  rateLimit path (JS.Str address) (Some 10) now db = (Return None, db1) ->
  find_tenant (SText key) db1 = Some (D1.with_id tenant trow) ->
  D1.rows (D1.table_of db1 "tenants") !! tenant = Some trow ->
  D1.js_truthy (D1.col trow "is_active") = true ->
  find_user tenant (SText address) db1 = Some (D1.with_id user urow) ->
  D1.rows (D1.table_of db1 "users") !! user = Some urow ->
  D1.constraints_ok D1.users_schema db1
    (delete user (D1.rows (D1.table_of db1 "users"))) urow = true ->
  D1.col urow "password_hash" = SText hash ->
  bcrypt_compare password hash = true ->
  exists db2,
    post_login secret path (Some credentials) now db
      = (c_json
           (JLogin
              (generateJWT
                 (Identity user tenant (D1.text_of (D1.col urow "email"))
                    (D1.text_of (D1.col urow "role"))) secret now)
              (SInt user) (D1.col urow "email") (D1.col urow "first_name")
              (D1.col urow "last_name") (D1.col urow "role") (JS.Str key)) 200,
         db2)
    /\ D1.rows (D1.table_of db2 "users") !! user
         = Some (<["last_login" := D1.now_text now]> urow).
Proof.
  intros Hkey Haddress Hpassword Hlimit Htenant Htrow Hactive Huser Hurow Hok
    Hhash Hmatch.
  pose proof (last_login_update user urow now db1 Hurow Hok) as Hupdate.
  set (db2 := D1.set_table "users" _ db1) in Hupdate.
  assert (Hurow2 : D1.rows (D1.table_of db2 "users") !! user
                     = Some (<["last_login" := D1.now_text now]> urow)).
  { unfold db2. rewrite table_of_set_table, String.eqb_refl. cbn [D1.rows].
    apply lookup_insert_eq. }
  assert (Htrow2 : D1.rows (D1.table_of db2 "tenants") !! tenant = Some trow).
  { unfold db2. rewrite table_of_set_table.
    by change (String.eqb "users" "tenants") with false. }
  destruct (login_is_logged tenant trow user _ now db2 Htrow2 Hurow2)
    as (entry & db3 & Hlog).
  exists db3. split.
  - unfold post_login, try_catch, req_json. step.
    rewrite Haddress, (bind_returns _ _ _ _ _ Hlimit), Hkey. step.
    cbn [D1.bind mapM fmap option_fmap option_map fst snd mbind option_bind
      mret option_ret]. step. unfold text_param.
    cbn [head fmap option_fmap option_map snd default from_option
      D1.apply_affinity]. unfold id. rewrite Htenant.
    rewrite col_with_id, Hactive by done. cbn [negb]. step.
    cbn [D1.bind mapM fmap option_fmap option_map fst snd mbind option_bind
      mret option_ret]. step.
    cbn [head fmap option_fmap option_map snd default from_option
      D1.apply_affinity]. unfold id. rewrite id_of_with_id, Huser.
    rewrite Hpassword, (col_with_id user urow "password_hash"), Hhash by done.
    cbn [verifyPassword]. step.
    rewrite Hmatch. cbn [negb]. rewrite !id_of_with_id. step.
    rewrite Hupdate. step. rewrite Hlog.
    unfold mret, action_ret.
    rewrite (col_with_id user urow "email"), (col_with_id user urow "role"),
      (col_with_id user urow "first_name"), (col_with_id user urow "last_name")
      by done.
    by rewrite col_id.
  - destruct (created_row "activity_log"
      [("tenant_id", Some (D1.bind_id tenant)); ("user_id", Some (D1.bind_id user));
       ("activity_type", Some (SText "login"));
       ("description", Some (SText "User logged in"))] _ now db2 entry db3 eq_refl Hlog)
      as (_ & _ & _ & _ & _ & Hothers).
    by rewrite (Hothers "users").
Qed.

End LoggingIn.

(** ** From registration to login *)

Section RegisterThenLogin.
Context `{Runtime}.

(** Who registered can log in: after a registration answered 201, a login with
    the key the registration returned, the same address and the same password
    is answered 200 (when the rate limiter lets it through), with a token
    issued to the new user as [admin] of the new tenant. The middleware accepts
    that token for the next 24 hours. This is for a secret that is not empty
    (the runtime imports no empty key) and for strings of 8-bit characters, as
    all strings here are: on an address with a character beyond U+00FF the
    source's [btoa] throws, and the login is answered 500. *)
Theorem registered_user_can_log_in secret path path' data credentials now now'
    db name address password db2 :
  secret <> "" ->
  JS.get data "companyName" = JS.Str name ->
  JS.get data "email" = JS.Str address ->
  JS.get data "password" = JS.Str password ->
  users_have_tenants db ->
  status (fst (post_register path (Some data) now db)) = 201 ->
  JS.get credentials "tenantKey" = JS.Str (tenant_key_of name) ->
  JS.get credentials "email" = JS.Str address ->
  JS.get credentials "password" = JS.Str password ->
  bcrypt_compare password (bcrypt_hash password) = true ->
  rateLimit path' (JS.Str address) (Some 10) now'
    (snd (post_register path (Some data) now db)) = (Return None, db2) ->
  exists tenant admin first last,
    body (fst (post_register path (Some data) now db))
      = JRegistered (tenant_key_of name) tenant
    /\ fst (post_login secret path' (Some credentials) now'
              (snd (post_register path (Some data) now db)))
       = c_json
           (JLogin
              (generateJWT (Identity admin tenant address "admin") secret now')
              (SInt admin) (SText address) first last (SText "admin")
              (JS.Str (tenant_key_of name))) 200
    /\ (JSON_parse (JSON_stringify
                      (jwtPayload (Identity admin tenant address "admin") now'))
          = Some (jwtPayload (Identity admin tenant address "admin") now') ->
        forall later, later <= now' + 24 * 60 * 60 * 1000 ->
          verifyJWT (generateJWT (Identity admin tenant address "admin") secret now')
            secret later
          = inr (jwtPayload (Identity admin tenant address "admin") now')).
Proof.
  intros _ Hname Haddress Hpassword Hintegrity Hst Hkey Hemail Hpw Hbcrypt Hlimit.
  destruct (registration_rows path data now db Hst)
    as (name' & password' & tenant & admin & vt & vu & Hname' & Hpassword' & Hanswer
        & Hfree & Hvt & Hvu & Hfresh_t & Hrow_t & Hfresh_u & Hrow_u
        & Hkeep_t & Hkeep_u & dbt & Hadmin & Htenants_t & Husers_t).
  rewrite Hname in Hname'. injection Hname' as <-.
  rewrite Hpassword in Hpassword'. injection Hpassword' as <-.
  set (db1 := snd (post_register path (Some data) now db)) in *.
  set (trow := D1.stored_row (D1.schema_of "tenants") vt now) in *.
  set (urow := D1.stored_row (D1.schema_of "users") vu now) in *.
  pose proof (rateLimit_frame path' (JS.Str address) (Some 10) now' db1)
    as [Htables _]. rewrite Hlimit in Htables. cbn [snd] in Htables.
  (* the columns of the two rows *)
  assert (Htkey : D1.col trow "tenant_key" = SText (tenant_key_of name))
    by (unfold trow; rewrite col_stored_row, (assoc_bound _ _ _ Hvt); reflexivity).
  assert (Hactive : D1.col trow "is_active" = SInt 1)
    by (unfold trow; rewrite col_stored_row, (assoc_bound _ _ _ Hvt); reflexivity).
  assert (Hutenant : D1.col urow "tenant_id" = SInt tenant)
    by (unfold urow; rewrite col_stored_row, (assoc_bound _ _ _ Hvu); reflexivity).
  assert (Huemail : D1.col urow "email" = SText address)
    by (unfold urow; rewrite col_stored_row, (assoc_bound _ _ _ Hvu), Haddress;
        reflexivity).
  assert (Huactive : D1.col urow "is_active" = SInt 1)
    by (unfold urow; rewrite col_stored_row, (assoc_bound _ _ _ Hvu); reflexivity).
  assert (Hurole : D1.col urow "role" = SText "admin")
    by (unfold urow; rewrite col_stored_row, (assoc_bound _ _ _ Hvu); reflexivity).
  assert (Huhash : D1.col urow "password_hash" = SText (bcrypt_hash password))
    by (unfold urow; rewrite col_stored_row, (assoc_bound _ _ _ Hvu); reflexivity).
  (* the tenant is found *)
  assert (Hfound_t : find_tenant (SText (tenant_key_of name)) db2
                       = Some (D1.with_id tenant trow)).
  { unfold find_tenant.
    rewrite (select_where_ext _ _ db2 db1) by by apply table_of_tables.
    apply (first_after_insert "tenants" _ db db1 tenant trow Hfresh_t Hrow_t Hkeep_t
             (find_tenant_none _ _ Hfree)).
    rewrite col_with_id, Htkey by done. cbn [D1.sql_eqb]. apply String.eqb_refl. }
  (* the user is found *)
  assert (Hfound_u : find_user tenant (SText address) db2
                       = Some (D1.with_id admin urow)).
  { unfold find_user.
    rewrite (select_where_ext _ _ db2 db1) by by apply table_of_tables.
    apply (first_after_insert "users" _ db db1 admin urow Hfresh_u Hrow_u Hkeep_u).
    - intros r0 (Hcond & k & u & Hu & ->)%elem_of_select.
      specialize (Hintegrity k u Hu). unfold user_has_tenant in Hintegrity.
      apply andb_prop in Hcond as [[Hmine _]%andb_prop _].
      unfold tenant_is in Hmine. rewrite col_with_id in Hmine by done.
      destruct (D1.col u "tenant_id") as [|t| | |]; try done.
      apply bool_decide_eq_true_1 in Hintegrity as [? Ht].
      cbn in Hmine. apply Z.eqb_eq in Hmine as ->. congruence.
    - unfold tenant_is. rewrite !col_with_id, Hutenant, Huemail, Huactive by done.
      cbn. by rewrite Z.eqb_refl, String.eqb_refl. }
  (* the stored user satisfies the constraints of its table *)
  assert (Hok : D1.constraints_ok D1.users_schema db2
                  (delete admin (D1.rows (D1.table_of db2 "users"))) urow = true).
  { pose proof (insert_ok _ _ _ _ _ _ Hadmin) as Hok.
    apply insert_inv in Hadmin as [_ Hdb1].
    assert (Hrows : delete admin (D1.rows (D1.table_of db2 "users"))
                      = D1.rows (D1.table_of dbt "users")).
    { rewrite (table_of_tables db1 db2) by done. fold db1 in Hdb1.
      rewrite Hdb1, table_of_set_table, String.eqb_refl. cbn [D1.rows].
      apply delete_insert_id. rewrite Husers_t. exact Hfresh_u. }
    rewrite Hrows.
    apply (constraints_ok_frame _ dbt db2 _ urow urow); try done.
    intros fk Hfk. split; [done|]. cbn in Hfk. destruct Hfk as [<-|[]]. cbn [snd].
    rewrite (table_of_tables db1 db2) by done. by rewrite Htenants_t. }
  destruct (login_steps secret path' credentials now' db1 db2
              (tenant_key_of name) address password tenant trow admin urow
              (bcrypt_hash password))
    as (db3 & Hlogin & _); try done.
  - by rewrite (table_of_tables db1 db2).
  - by rewrite Hactive.
  - by rewrite (table_of_tables db1 db2).
  - exists tenant, admin, (D1.col urow "first_name"), (D1.col urow "last_name").
    split; [by rewrite Hanswer|]. split.
    + rewrite Hlogin. cbn [fst]. by rewrite Huemail, Hurole.
    + intros Hjson later Hlater. rewrite verifyJWT_generateJWT by done.
      apply seconds_within_a_day in Hlater.
      by destruct (Z.ltb_spec (now' / 1000 + 86400) (later / 1000)); [lia|].
Qed.

End RegisterThenLogin.

(** ** Lists are complete *)

Lemma NoDup_kept {A} (f : A -> bool) l : NoDup l -> NoDup (List.filter f l).
Proof.
  induction 1 as [|x l Hx _ IH]; cbn [List.filter]; [constructor|].
  destruct (f x); [|done]. constructor; [|done].
  intros Hin%list_elem_of_In%filter_In. apply Hx, list_elem_of_In. tauto.
Qed.

Lemma NoDup_scan t : NoDup (D1.scan t).
Proof.
  unfold D1.scan. apply NoDup_fmap_2_strong.
  - intros [k r] [k' r'] Hin Hin'. rewrite !merge_sort_Permutation in *.
    apply elem_of_map_to_list in Hin, Hin'. cbn [fst snd]. intros Heq.
    assert (k = k') as <-.
    { assert (Hid : D1.col (D1.with_id k r) "id" = D1.col (D1.with_id k' r') "id")
        by by rewrite Heq.
      rewrite !col_id in Hid. congruence. }
    congruence.
  - rewrite merge_sort_Permutation. apply NoDup_map_to_list.
Qed.

Lemma NoDup_select tname cond db : NoDup (D1.select_where tname cond db).
Proof. unfold D1.select_where. apply NoDup_kept, NoDup_scan. Qed.

(** A list handler's rows: the selected rows, each once, in some order, with
    the joined columns [f] adds (which leave the id alone). *)
Lemma listing tname cond (f : D1.row -> D1.row) le db :
  (forall r, D1.col (f r) "id" = D1.col r "id") ->
  let answer := D1.order_by le (f <$> D1.select_where tname cond db) in
  (forall r, r ∈ answer <->
     exists k r0, D1.rows (D1.table_of db tname) !! k = Some r0
                  /\ cond (D1.with_id k r0) = true
                  /\ r = f (D1.with_id k r0))
  /\ NoDup answer.
Proof.
  intros Hid. cbv zeta. split.
  - intros r. rewrite elem_of_order_by, list_elem_of_fmap. split.
    + intros (r1 & -> & (Hcond & k & r0 & Hk & ->)%elem_of_select). by exists k, r0.
    + intros (k & r0 & Hk & Hcond & ->). exists (D1.with_id k r0).
      split; [done|]. apply elem_of_select. split; [done|]. by exists k, r0.
  - unfold D1.order_by. rewrite merge_sort_Permutation.
    apply NoDup_fmap_2_strong; [|apply NoDup_select].
    intros r1 r2 (_ & k1 & x1 & Hk1 & ->)%elem_of_select
      (_ & k2 & x2 & Hk2 & ->)%elem_of_select Heq.
    assert (Hsame : D1.col (f (D1.with_id k1 x1)) "id"
                      = D1.col (f (D1.with_id k2 x2)) "id") by by rewrite Heq.
    rewrite !Hid, !col_id in Hsame. injection Hsame as <-. congruence.
Qed.

Section Lists.
Context `{Runtime}.

(** The three plain lists give every record of the caller's tenant, with its
    id, exactly once, and nothing else: companies as stored, contacts with the
    name of their company, captures with the name of their manager. *)
Theorem lists_are_complete user db :
  let t := tenantId user in
  let listed tname (f : D1.row -> D1.row) (answer : list D1.row) :=
    (forall r, r ∈ answer <->
       exists k r0, D1.rows (D1.table_of db tname) !! k = Some r0
                    /\ tenant_is t r0 = true
                    /\ r = f (D1.with_id k r0))
    /\ NoDup answer in
  listed "companies" (fun r => r)
    (rows_of (body (fst (get_companies (Some user) db))))
  /\ listed "contacts"
       (fun c => <["company_name" :=
                    joined_col (joined_in_tenant db "companies" c "company_id")
                      "name"]> c)
       (rows_of (body (fst (get_contacts (Some user) db))))
  /\ listed "captures"
       (fun c => <["capture_manager_name" :=
                    full_name (joined db "users" c "capture_manager_id")]> c)
       (rows_of (body (fst (get_captures (Some user) db)))).
Proof.
  cbv zeta.
  assert (Hlisted : forall tname (f : D1.row -> D1.row) le,
    (forall r, D1.col (f r) "id" = D1.col r "id") ->
    let answer := D1.order_by le
      (f <$> D1.select_where tname (tenant_is (tenantId user)) db) in
    (forall r, r ∈ answer <->
       exists k r0, D1.rows (D1.table_of db tname) !! k = Some r0
                    /\ tenant_is (tenantId user) r0 = true
                    /\ r = f (D1.with_id k r0))
    /\ NoDup answer).
  { intros tname f le Hid. cbv zeta.
    destruct (listing tname (tenant_is (tenantId user)) f le db Hid) as [Hin Hnd].
    split; [|done]. intros r. rewrite Hin.
    by setoid_rewrite tenant_is_with_id. }
  split; [|split].
  - unfold get_companies, try_catch, c_get_user. step. step. finish.
    rewrite <- (list_fmap_id (D1.select_where _ _ _)). by apply Hlisted.
  - unfold get_contacts, try_catch, c_get_user. step. step. finish.
    apply Hlisted. intros r. by apply col_insert_ne.
  - unfold get_captures, try_catch, c_get_user. step. step. finish.
    apply Hlisted. intros r. by apply col_insert_ne.
Qed.

Lemma sql_eqb_text v s : D1.sql_eqb v (SText s) = true <-> v = SText s.
Proof.
  destruct v; cbn; try (split; [done | congruence]).
  rewrite String.eqb_eq. split; congruence.
Qed.

(** The list of opportunities, when no owner is asked for, gives every
    opportunity of the caller's tenant that the [stage] parameter admits (all
    of them when it is absent or empty), with its id and the two joined names,
    exactly once, and nothing else. *)
Theorem opportunities_list_filters_by_stage user q db :
  q !! "ownerId" = None ->
  let answer := rows_of (body (fst (get_opportunities (Some user) q db))) in
  (forall r, r ∈ answer <->
     exists k r0, D1.rows (D1.table_of db "opportunities") !! k = Some r0
                  /\ tenant_is (tenantId user) r0 = true
                  /\ stage_matches q r0
                  /\ r = with_names db (D1.with_id k r0))
  /\ NoDup answer.
Proof.
  intros Howner. cbv zeta.
  unfold get_opportunities, try_catch, c_get_user. step. rewrite Howner.
  step. step. finish.
  match goal with
  | |- context [D1.select_where "opportunities" ?c db] => set (cond := c)
  end.
  destruct (listing "opportunities" cond (with_names db) (D1.desc "created_at") db)
    as [Hin Hnd].
  { intros r. unfold with_names. by rewrite !col_insert_ne. }
  split; [|exact Hnd]. intros r. rewrite (Hin r).
  assert (Hcond : forall k r0,
    cond (D1.with_id k r0) = true
    <-> tenant_is (tenantId user) r0 = true /\ stage_matches q r0).
  { intros k r0. unfold cond, stage_matches. clear Hin Hnd. clear cond.
    rewrite andb_true_r, andb_true_iff, tenant_is_with_id, col_with_id by done.
    destruct (q !! "stage") as [s|]; [|tauto].
    destruct (String.eqb_spec s "") as [->|Hs]; [tauto|].
    rewrite sql_eqb_text. tauto. }
  split.
  - intros (k & r0 & Hk & Hc%Hcond & ->). exists k, r0. tauto.
  - intros (k & r0 & Hk & Ht & Hs & ->). exists k, r0.
    split; [done|]. split; [|done]. apply Hcond. tauto.
Qed.

End Lists.

(** ** Dashboards *)

Section Figures.
Context `{Runtime}.

(** The KPI dashboard on little data: for a tenant without opportunities all
    four figures are 0, and as long as no opportunity of the tenant is closed
    (won or lost) the win rate is 0 rather than a division by zero. *)
Theorem kpis_on_little_data user db :
  ((forall k r, D1.rows (D1.table_of db "opportunities") !! k = Some r ->
      tenant_is (tenantId user) r = false) ->
   get_kpis (Some user) db
     = (c_json (JKpis (SInt 0) (SInt 0) (SInt 0) (SInt 0)) 200, db))
  /\ ((forall k r, D1.rows (D1.table_of db "opportunities") !! k = Some r ->
         tenant_is (tenantId user) r = true ->
         D1.col r "stage" <> SText "closed_won"
         /\ D1.col r "stage" <> SText "closed_lost") ->
      win_rate (body (fst (get_kpis (Some user) db))) = Some (SInt 0)).
Proof.
  rewrite get_kpis_eq. split.
  - intros Hnone.
    assert (Hempty : D1.select_where "opportunities" (tenant_is (tenantId user)) db
                       = []).
    { apply filter_none. intros r (k & r0 & Hk & ->)%list_elem_of_In%elem_of_scan.
      rewrite tenant_is_with_id. by apply (Hnone k). }
    by rewrite Hempty.
  - intros Hopen. cbn [fst body c_json]. unfold kpis_of, win_rate. cbv zeta.
    rewrite (filter_none (fun r => won r || lost r)); [reflexivity|].
    intros r (Hmine & k & r0 & Hk & ->)%list_elem_of_In%elem_of_select.
    rewrite tenant_is_with_id in Hmine. destruct (Hopen k r0 Hk Hmine) as [Hw Hl].
    unfold won, lost. rewrite col_with_id by done.
    apply orb_false_intro; apply not_true_is_false; by rewrite sql_eqb_text.
Qed.

Lemma stages_of_source rs s :
  s ∈ stages_of rs -> exists o, o ∈ rs /\ D1.col o "stage" = s.
Proof.
  induction rs as [|r rs IH]; cbn [stages_of]; [by intros ?%elem_of_nil|].
  intros [->|Hin]%elem_of_cons.
  - exists r. split; [apply list_elem_of_here | done].
  - apply list_elem_of_In, filter_In in Hin as [Hin%list_elem_of_In _].
    destruct (IH Hin) as (o & Ho & Hs). exists o.
    split; [by apply list_elem_of_further | done].
Qed.

Lemma stages_of_text rs o t :
  o ∈ rs -> D1.col o "stage" = SText t -> SText t ∈ stages_of rs.
Proof.
  induction rs as [|r rs IH]; [by intros ?%elem_of_nil|].
  cbn [stages_of]. intros Hin Ht.
  destruct (D1.sql_eqb (D1.col r "stage") (SText t)) eqn:Heq.
  - apply sql_eqb_text in Heq as ->. apply list_elem_of_here.
  - apply list_elem_of_further, list_elem_of_In, filter_In.
    rewrite Heq. split; [|done]. apply list_elem_of_In, IH; [|done].
    apply elem_of_cons in Hin as [->|Hin]; [|done].
    rewrite Ht in Heq. cbn in Heq. by rewrite String.eqb_refl in Heq.
Qed.

(** The pipeline dashboard groups the open opportunities of the caller's
    tenant by stage: every row it gives stands for the stage of such an
    opportunity, never a closed one; and every stage in which the tenant has an
    open opportunity has a row, with a count of at least one. *)
Theorem pipeline_shows_open_stages user db :
  let answer := rows_of (body (fst (get_pipeline (Some user) db))) in
  (forall r, r ∈ answer ->
     exists k o, D1.rows (D1.table_of db "opportunities") !! k = Some o
                 /\ tenant_is (tenantId user) o = true
                 /\ D1.col r "stage" = D1.col o "stage"
                 /\ D1.col o "stage" <> SNull
                 /\ D1.col o "stage" <> SText "closed_won"
                 /\ D1.col o "stage" <> SText "closed_lost")
  /\ (forall k o t,
        D1.rows (D1.table_of db "opportunities") !! k = Some o ->
        tenant_is (tenantId user) o = true ->
        D1.col o "stage" = SText t -> t <> "closed_won" -> t <> "closed_lost" ->
        exists r n, r ∈ answer /\ D1.col r "stage" = SText t
                    /\ D1.col r "count" = SInt n /\ 1 <= n).
Proof.
  cbv zeta. rewrite get_pipeline_eq. cbn [fst body c_json rows_of].
  unfold pipeline_of. cbv zeta.
  set (opps := D1.select_where "opportunities" (tenant_is (tenantId user)) db).
  set (rs := List.filter open_stage opps).
  assert (Hrs : forall o, o ∈ rs <->
            open_stage o = true
            /\ exists k o0, D1.rows (D1.table_of db "opportunities") !! k = Some o0
                            /\ tenant_is (tenantId user) o0 = true
                            /\ o = D1.with_id k o0).
  { intros o. unfold rs, opps.
    rewrite list_elem_of_In, filter_In, <- list_elem_of_In, elem_of_select. split.
    - intros [(Hmine & k & o0 & Hk & ->) Hopen]. split; [done|]. exists k, o0.
      by rewrite tenant_is_with_id in Hmine.
    - intros (Hopen & k & o0 & Hk & Hmine & ->). split; [|done].
      split; [by rewrite tenant_is_with_id | by exists k, o0]. }
  split.
  - intros r (s & -> & Hs)%elem_of_order_by%list_elem_of_fmap.
    destruct (stages_of_source _ _ Hs) as (o & Ho & Hstage).
    apply Hrs in Ho as (Hopen & k & o0 & Hk & Hmine & ->).
    rewrite col_with_id in Hstage by done. exists k, o0.
    split; [done|]. split; [done|]. split; [by rewrite Hstage|].
    unfold open_stage, won, lost in Hopen. rewrite col_with_id in Hopen by done.
    apply andb_prop in Hopen as [[Hnull Hwon]%andb_prop Hlost].
    repeat split; intros Heq; rewrite Heq in *; by cbn in *.
  - intros k o t Hk Hmine Ht Hwon Hlost.
    assert (Hopen : open_stage (D1.with_id k o) = true).
    { unfold open_stage, won, lost. rewrite col_with_id, Ht by done. cbn.
      by destruct (String.eqb_spec t "closed_won"),
                  (String.eqb_spec t "closed_lost"). }
    assert (Hin : D1.with_id k o ∈ rs) by (apply Hrs; split; [done|]; by exists k, o).
    assert (Hstage : D1.col (D1.with_id k o) "stage" = SText t)
      by by rewrite col_with_id.
    pose proof (stages_of_text rs _ t Hin Hstage) as Hs.
    eexists _, _. split; [|split; [|split]].
    + apply elem_of_order_by, list_elem_of_fmap. exists (SText t). split; [reflexivity | done].
    + reflexivity.
    + reflexivity.
    + assert (Hgrp : D1.with_id k o ∈ List.filter
                (fun r => D1.sql_eqb (D1.col r "stage") (SText t)) rs).
      { apply list_elem_of_In, filter_In. split; [by apply list_elem_of_In|].
        rewrite Hstage. cbn. apply String.eqb_refl. }
      destruct (List.filter _ rs); [by apply elem_of_nil in Hgrp|]. cbn [length]. lia.
Qed.

End Figures.

(** ** Creating records *)

Lemma mapM_missing (ps : list (string * option sqlval)) k :
  In (k, None) ps ->
  mapM (fun p : string * option sqlval => pair (fst p) <$> snd p) ps = None.
Proof.
  induction ps as [|[k' [v|]] ps IH]; [done| |done].
  intros [[=]|Hin]. cbn [mapM fst snd fmap option_fmap option_map mbind option_bind].
  by rewrite (IH Hin).
Qed.

Section Creating.
Context `{Runtime}.

(** A creation whose body lacks a property that is bound as it is (without a
    fallback) is answered 500 before anything is stored: [name] or [type] of an
    opportunity, [firstName] or [lastName] of a contact, [name] of a company,
    [name], [customerName] or [captureType] of a capture. *)
Theorem creation_needs_its_plain_fields user data now db :
  (JS.get data "name" = JS.Undefined \/ JS.get data "type" = JS.Undefined ->
   post_opportunities (Some user) (Some data) now db
     = (c_json (JError "Failed to create opportunity" None) 500, db))
  /\ (JS.get data "firstName" = JS.Undefined
      \/ JS.get data "lastName" = JS.Undefined ->
      post_contacts (Some user) (Some data) now db
        = (c_json (JError "Failed to create contact" None) 500, db))
  /\ (JS.get data "name" = JS.Undefined ->
      post_companies (Some user) (Some data) now db
        = (c_json (JError "Failed to create company" None) 500, db))
  /\ (JS.get data "name" = JS.Undefined
      \/ JS.get data "customerName" = JS.Undefined
      \/ JS.get data "captureType" = JS.Undefined ->
      post_captures (Some user) (Some data) now db
        = (c_json (JError "Failed to create capture" None) 500, db)).
Proof.
  repeat split.
  - intros Hmissing.
    unfold post_opportunities, try_catch, c_get_user, req_json. step. step. step.
    destruct Hmissing as [Hm|Hm];
      [rewrite (mapM_missing _ "name") | rewrite (mapM_missing _ "type")];
      try done; unfold opportunity_params; rewrite Hm; cbn [D1.bind In]; tauto.
  - intros Hmissing.
    unfold post_contacts, try_catch, c_get_user, req_json. step. step. step.
    destruct Hmissing as [Hm|Hm];
      [rewrite (mapM_missing _ "first_name") | rewrite (mapM_missing _ "last_name")];
      try done; unfold contact_params; rewrite Hm; cbn [D1.bind In]; tauto.
  - intros Hm.
    unfold post_companies, try_catch, c_get_user, req_json. step. step. step.
    rewrite (mapM_missing _ "name"); [done|].
    unfold company_params. rewrite Hm. cbn [D1.bind In]. tauto.
  - intros Hmissing.
    unfold post_captures, try_catch, c_get_user, req_json. step. step. step.
    destruct Hmissing as [Hm|[Hm|Hm]];
      [rewrite (mapM_missing _ "name") | rewrite (mapM_missing _ "customer_name")
      |rewrite (mapM_missing _ "capture_type")];
      try done; unfold capture_params; rewrite Hm; cbn [D1.bind In]; tauto.
Qed.

(** A creation of an opportunity answered 201 appended one entry to the
    activity log: for the caller's tenant and user, of type [create] on an
    [opportunity], with the id of the new opportunity and its name in the
    description. *)
Theorem creation_is_logged user data now db :
  let result := post_opportunities (Some user) (Some data) now db in
  status (fst result) = 201 ->
  exists id entry lrow,
    field (fst result) "id" = Some (SInt id)
    /\ D1.rows (D1.table_of db "activity_log") !! entry = None
    /\ D1.rows (D1.table_of (snd result) "activity_log") !! entry = Some lrow
    /\ D1.col lrow "tenant_id" = SInt (tenantId user)
    /\ D1.col lrow "user_id" = SInt (userId user)
    /\ D1.col lrow "activity_type" = SText "create"
    /\ D1.col lrow "entity_type" = SText "opportunity"
    /\ D1.col lrow "entity_id" = SInt id
    /\ D1.col lrow "description"
         = SText ("Created: " ++ JS.to_string (JS.get data "name"))
    /\ (forall k, k <> entry ->
          D1.rows (D1.table_of (snd result) "activity_log") !! k
            = D1.rows (D1.table_of db "activity_log") !! k).
Proof.
  intros result Hst. subst result. revert Hst.
  unfold post_opportunities, try_catch, c_get_user, req_json.
  rewrite !bind_ret, bind_bind_all.
  bound vs Hvs; [|done]. rewrite bind_run_insert.
  inserted oid db1 Hins; [|done]. rewrite bind_bind_all.
  bound log Hlog; [|done]. rewrite bind_run_insert.
  inserted entry db2 Hins2; [|done].
  rewrite bind_query. unfold mret, action_ret.
  cbn [fst snd status body c_json]. intros _.
  destruct (created_row _ _ _ _ _ _ _ Hvs Hins) as (_ & Hrow & _ & _ & _ & Hothers).
  destruct (created_row _ _ _ _ _ _ _ Hlog Hins2)
    as (Hfresh & Hentry & _ & _ & Hkeep & Hothers2).
  rewrite (Hothers "activity_log") in Hfresh, Hkeep by done.
  exists oid, entry, (D1.stored_row (D1.schema_of "activity_log") log now).
  repeat split; try done.
  - unfold field, D1.select_by_id. cbn [body].
    rewrite (Hothers2 "opportunities"), Hrow by done. cbn. by rewrite col_id.
  - rewrite col_stored_row, (assoc_bound _ _ _ Hlog). reflexivity.
  - rewrite col_stored_row, (assoc_bound _ _ _ Hlog). reflexivity.
  - rewrite col_stored_row, (assoc_bound _ _ _ Hlog). reflexivity.
  - rewrite col_stored_row, (assoc_bound _ _ _ Hlog). reflexivity.
  - rewrite col_stored_row, (assoc_bound _ _ _ Hlog). reflexivity.
  - rewrite col_stored_row, (assoc_bound _ _ _ Hlog). reflexivity.
Qed.

End Creating.

(** ** Updating an opportunity *)

Lemma assoc_key {V} k (l : list (string * V)) v :
  assoc k l = Some v -> k ∈ fst <$> l.
Proof.
  induction l as [|[k' v'] l IH]; [done|]. cbn [assoc fmap list_fmap fst].
  destruct (String.eqb_spec k' k) as [->|_].
  - intros _. apply list_elem_of_here.
  - intros Hl. by apply list_elem_of_further, IH.
Qed.

Section Updating.
Context `{Runtime}.

(** The row an UPDATE leaves: each assigned column holds its assigned value,
    converted; the others are as they were. *)
Lemma col_assigned sch (sets : list (string * sqlval)) : forall r c,
  NoDup (fst <$> sets) ->
  D1.col (foldl (fun acc s => <[fst s := D1.convert sch (fst s) (snd s)]> acc) r sets) c
    = match assoc c sets with
      | Some v => D1.convert sch c v
      | None => D1.col r c
      end.
Proof.
  induction sets as [|[k v] sets IH]; intros r c Hnd; [reflexivity|].
  cbn [fmap list_fmap fst] in Hnd. apply NoDup_cons in Hnd as [Hk Hnd].
  cbn [foldl fst snd assoc]. rewrite IH by done.
  destruct (assoc c sets) as [v'|] eqn:Hc.
  - destruct (String.eqb_spec k c) as [->|_]; [|done].
    by apply assoc_key in Hc.
  - destruct (String.eqb_spec k c) as [->|Hne].
    + unfold D1.col. by rewrite lookup_insert_eq.
    + by apply col_insert_ne.
Qed.

Lemma opportunity_updates_NoDup data now :
  NoDup (fst <$> opportunity_updates data now).
Proof.
  unfold opportunity_updates.
  destruct (JS.truthy (JS.get data "name")), (JS.truthy (JS.get data "stage")),
    (JS.defined (JS.get data "amount")), (JS.defined (JS.get data "probability"));
    cbn [Datatypes.app fmap list_fmap fst]; apply (bool_decide_unpack _); by vm_compute.
Qed.

(** What an update answered 200 did. *)
Lemma put_opportunity_inv user id data now db :
  status (fst (put_opportunity (Some user) id (Some data) now db)) = 200 ->
  exists k r vs,
    D1.rowid_of (SText id) = Some k
    /\ D1.rows (D1.table_of db "opportunities") !! k = Some r
    /\ tenant_is (tenantId user) r = true
    /\ mapM (fun p : string * option sqlval => pair (fst p) <$> snd p)
         (opportunity_updates data now) = Some vs
    /\ put_opportunity (Some user) id (Some data) now db
       = (c_json (JRow (Some (D1.with_id k
            (foldl (fun acc s =>
                      <[fst s := D1.convert D1.opportunities_schema (fst s) (snd s)]> acc)
               r vs)))) 200,
          D1.set_table "opportunities"
            (D1.Table
               (<[k := foldl (fun acc s =>
                          <[fst s := D1.convert D1.opportunities_schema (fst s) (snd s)]>
                            acc) r vs]>
                  (D1.rows (D1.table_of db "opportunities")))
               (D1.seq (D1.table_of db "opportunities"))) db).
Proof.
  unfold put_opportunity, try_catch, c_get_user, req_json. step. step. step.
  destruct (own_opportunity (tenantId user) id db) as [k|] eqn:Hown; [|done].
  apply own_opportunity_inv in Hown as (Hk & r & Hr & Hmine). step.
  bound vs Hvs; [|done]. step. unfold D1.update_row. cbv zeta.
  rewrite Hr, Hmine. change (D1.schema_of "opportunities") with D1.opportunities_schema.
  destruct (D1.constraints_ok _ _ _ _); [|done]. step.
  unfold mret, action_ret, D1.select_by_id.
  rewrite table_of_set_table, String.eqb_refl. cbn [D1.rows].
  rewrite lookup_insert_eq. cbn [fmap option_fmap option_map fst snd]. intros _.
  by exists k, r, vs.
Qed.

(** An update answered 200 changed one row, the caller's, and of it only the
    columns the body supplies and [updated_at]: a [name] or [stage] that is
    absent or empty, an [amount] that is absent, a [probability] that is absent
    leave their columns as they were, and no other column, row or table is
    touched. *)
Theorem update_changes_the_supplied_columns_only user id data now db :
  let result := put_opportunity (Some user) id (Some data) now db in
  status (fst result) = 200 ->
  exists k r r',
    D1.rowid_of (SText id) = Some k
    /\ D1.rows (D1.table_of db "opportunities") !! k = Some r
    /\ tenant_is (tenantId user) r = true
    /\ D1.rows (D1.table_of (snd result) "opportunities") !! k = Some r'
    /\ body (fst result) = JRow (Some (D1.with_id k r'))
    /\ D1.col r' "updated_at" = D1.now_text now
    /\ (forall c, c ∉ ["name"; "stage"; "amount"; "probability";
                       "expected_revenue"; "updated_at"] ->
          D1.col r' c = D1.col r c)
    /\ (JS.truthy (JS.get data "name") = false -> D1.col r' "name" = D1.col r "name")
    /\ (JS.truthy (JS.get data "stage") = false ->
        D1.col r' "stage" = D1.col r "stage")
    /\ (JS.get data "amount" = JS.Undefined ->
        D1.col r' "amount" = D1.col r "amount")
    /\ (JS.get data "probability" = JS.Undefined ->
        D1.col r' "probability" = D1.col r "probability"
        /\ D1.col r' "expected_revenue" = D1.col r "expected_revenue")
    /\ (forall k', k' <> k ->
          D1.rows (D1.table_of (snd result) "opportunities") !! k'
            = D1.rows (D1.table_of db "opportunities") !! k')
    /\ (forall t', t' <> "opportunities" ->
          D1.table_of (snd result) t' = D1.table_of db t').
Proof.
  intros result Hst. subst result.
  destruct (put_opportunity_inv user id data now db Hst)
    as (k & r & vs & Hk & Hr & Hmine & Hvs & ->).
  cbn [fst snd body c_json].
  assert (Hnd : NoDup (fst <$> vs))
    by (rewrite (bound_keys _ _ Hvs); apply opportunity_updates_NoDup).
  assert (Hcol : forall c,
    D1.col (foldl (fun acc s =>
              <[fst s := D1.convert D1.opportunities_schema (fst s) (snd s)]> acc)
              r vs) c
      = match assoc c (opportunity_updates data now) ≫= (fun o => o) with
        | Some v => D1.convert D1.opportunities_schema c v
        | None => D1.col r c
        end)
    by (intros c; by rewrite col_assigned, (assoc_bound _ _ _ Hvs)).
  eexists k, r, _. split; [done|]. split; [done|]. split; [done|].
  split; [by rewrite table_of_set_table, String.eqb_refl; apply lookup_insert_eq|].
  split; [reflexivity|].
  unfold opportunity_updates in Hcol. repeat split.
  - rewrite Hcol.
    destruct (JS.truthy (JS.get data "name")), (JS.truthy (JS.get data "stage")),
      (JS.defined (JS.get data "amount")), (JS.defined (JS.get data "probability"));
      reflexivity.
  - intros c Hc. rewrite Hcol.
    assert (Hne : forall c', c' ∈ ["name"; "stage"; "amount"; "probability";
                                   "expected_revenue"; "updated_at"] ->
                    String.eqb c' c = false).
    { intros c' Hc'. destruct (String.eqb_spec c' c) as [->|]; done. }
    destruct (JS.truthy (JS.get data "name")), (JS.truthy (JS.get data "stage")),
      (JS.defined (JS.get data "amount")), (JS.defined (JS.get data "probability"));
      cbn [Datatypes.app assoc]; rewrite ?Hne by set_solver; reflexivity.
  - intros Hname. rewrite Hcol, Hname.
    destruct (JS.truthy (JS.get data "stage")),
      (JS.defined (JS.get data "amount")), (JS.defined (JS.get data "probability"));
      reflexivity.
  - intros Hstage. rewrite Hcol, Hstage.
    destruct (JS.truthy (JS.get data "name")),
      (JS.defined (JS.get data "amount")), (JS.defined (JS.get data "probability"));
      reflexivity.
  - intros Hamount. rewrite Hcol, Hamount. cbn [JS.defined].
    destruct (JS.truthy (JS.get data "name")), (JS.truthy (JS.get data "stage")),
      (JS.defined (JS.get data "probability")); reflexivity.
  - rewrite Hcol, H0. cbn [JS.defined].
    destruct (JS.truthy (JS.get data "name")), (JS.truthy (JS.get data "stage")),
      (JS.defined (JS.get data "amount")); reflexivity.
  - rewrite Hcol, H0. cbn [JS.defined].
    destruct (JS.truthy (JS.get data "name")), (JS.truthy (JS.get data "stage")),
      (JS.defined (JS.get data "amount")); reflexivity.
  - intros k' Hk'. rewrite table_of_set_table, String.eqb_refl. cbn [D1.rows].
    by apply lookup_insert_ne.
  - intros t' Ht'. rewrite table_of_set_table.
    by destruct (String.eqb_spec "opportunities" t').
Qed.

(** An update answered 200 whose body supplies both a non-zero [amount] and a
    [probability], as numbers, stores them and stores their product over 100
    as the expected revenue. *)
Theorem update_with_both_inputs_recomputes user id data now db a p :
  let result := put_opportunity (Some user) id (Some data) now db in
  status (fst result) = 200 ->
  JS.get data "amount" = JS.Num a ->
  JS.truthy (JS.Num a) = true ->
  JS.get data "probability" = JS.Num p ->
  exists k r',
    D1.rowid_of (SText id) = Some k
    /\ D1.rows (D1.table_of (snd result) "opportunities") !! k = Some r'
    /\ Some (D1.col r' "amount") = D1.bind (JS.Num a)
    /\ Some (D1.col r' "probability") = D1.bind (JS.Num p)
    /\ Some (D1.col r' "expected_revenue")
         = D1.bind (JS.Num (PrimFloat.div (PrimFloat.mul a p) 100)).
Proof.
  intros result Hst Hamount Htruthy Hprobability. subst result.
  destruct (put_opportunity_inv user id data now db Hst)
    as (k & r & vs & Hk & Hr & Hmine & Hvs & ->).
  cbn [fst snd body c_json].
  assert (Hnd : NoDup (fst <$> vs))
    by (rewrite (bound_keys _ _ Hvs); apply opportunity_updates_NoDup).
  assert (Hcol : forall c,
    D1.col (foldl (fun acc s =>
              <[fst s := D1.convert D1.opportunities_schema (fst s) (snd s)]> acc)
              r vs) c
      = match assoc c (opportunity_updates data now) ≫= (fun o => o) with
        | Some v => D1.convert D1.opportunities_schema c v
        | None => D1.col r c
        end)
    by (intros c; by rewrite col_assigned, (assoc_bound _ _ _ Hvs)).
  unfold opportunity_updates in Hcol. rewrite Hamount, Hprobability in Hcol.
  unfold JS.or in Hcol. rewrite Htruthy in Hcol.
  eexists k, _. split; [done|].
  split; [by rewrite table_of_set_table, String.eqb_refl; apply lookup_insert_eq|].
  repeat split; rewrite Hcol;
    destruct (JS.truthy (JS.get data "name")), (JS.truthy (JS.get data "stage"));
    cbn [Datatypes.app assoc JS.defined String.eqb Ascii.eqb Bool.eqb
         mbind option_bind];
    try change (JS.div (JS.mul (JS.Num a) (JS.Num p)) (JS.Num 100))
      with (JS.Num (PrimFloat.div (PrimFloat.mul a p) 100));
    match goal with
    | |- context [D1.bind (JS.Num ?x)] =>
        destruct (D1.bind (JS.Num x)) as [v|] eqn:Hv; [|discriminate Hv];
        f_equal; apply (bound_real_is_stable x v Hv)
    end.
Qed.

End Updating.

(** ** Who gets a token *)

Lemma head_elem {A} (l : list A) x : head l = Some x -> x ∈ l.
Proof. destruct l; [done|]. intros [= ->]. apply list_elem_of_here. Qed.

Section Token.
Context `{Runtime}.

(** A login is answered 200 only on valid credentials: the key names a stored,
    active tenant; the address is that of a stored, active user of this tenant;
    the password is a string that bcrypt accepts against the user's stored
    hash. The token in the answer is the one issued, at that instant, to this
    user in this tenant, with the user's stored address and role. *)
Theorem login_needs_valid_credentials secret path data now db :
  status (fst (post_login secret path (Some data) now db)) = 200 ->
  exists key address password hash tenant trow user urow,
    D1.bind (JS.get data "tenantKey") = Some key
    /\ D1.bind (JS.get data "email") = Some address
    /\ JS.get data "password" = JS.Str password
    /\ D1.rows (D1.table_of db "tenants") !! tenant = Some trow
    /\ D1.sql_eqb (D1.col trow "tenant_key") (D1.apply_affinity D1.AffText key) = true
    /\ D1.js_truthy (D1.col trow "is_active") = true
    /\ D1.rows (D1.table_of db "users") !! user = Some urow
    /\ tenant_is tenant urow = true
    /\ D1.sql_eqb (D1.col urow "email") (D1.apply_affinity D1.AffText address) = true
    /\ D1.sql_eqb (D1.col urow "is_active") (SInt 1) = true
    /\ D1.col urow "password_hash" = SText hash
    /\ bcrypt_compare password hash = true
    /\ body (fst (post_login secret path (Some data) now db))
       = JLogin
           (generateJWT
              (Identity user tenant (D1.text_of (D1.col urow "email"))
                 (D1.text_of (D1.col urow "role"))) secret now)
           (SInt user) (D1.col urow "email") (D1.col urow "first_name")
           (D1.col urow "last_name") (D1.col urow "role")
           (JS.get data "tenantKey").
Proof.
  unfold post_login, try_catch, req_json. step. rewrite bind_any.
  pose proof (rateLimit_frame path (JS.get data "email") (Some 10) now db)
    as [Htables Hanswer].
  destruct (rateLimit path (JS.get data "email") (Some 10) now db)
    as [[[r|]|e] db1] eqn:Hlimit; [|clear Hanswer|done].
  { rewrite (Hanswer r eq_refl). done. }
  cbn [snd] in Htables.
  destruct (rateLimit_passed _ _ _ _ _ _ Hlimit) as [address Haddress].
  step. cbn [mapM fst snd].
  destruct (D1.bind (JS.get data "tenantKey")) as [key|] eqn:Hkey; [|done].
  cbn [fmap option_fmap option_map mbind option_bind mret option_ret]. step.
  unfold text_param.
  cbn [head fmap option_fmap option_map snd default from_option]. unfold id.
  destruct (find_tenant (D1.apply_affinity D1.AffText key) db1)
    as [t|] eqn:Htenant; [|done].
  destruct (D1.js_truthy (D1.col t "is_active")) eqn:Hactive; [|done].
  cbn [negb]. step. rewrite Haddress. cbn [mapM fst snd].
  cbn [fmap option_fmap option_map mbind option_bind mret option_ret]. step.
  cbn [head fmap option_fmap option_map snd default from_option]. unfold id.
  destruct (find_user (D1.id_of t) (D1.apply_affinity D1.AffText address) db1)
    as [u|] eqn:Huser; [|done].
  destruct (JS.get data "password") as [| | | |password|] eqn:Hpassword;
    try (cbn [verifyPassword]; rewrite bind_throw; done).
  destruct (D1.col u "password_hash") as [| | |hash|] eqn:Hhash;
    try (cbn [verifyPassword]; rewrite bind_throw; done).
  cbn [verifyPassword]. step.
  destruct (bcrypt_compare password hash) eqn:Hmatch; [|done].
  cbn [negb]. step.
  destruct (D1.update_row _ _ _ _ _) as [db2|]; [|done]. step.
  destruct (D1.insert _ _ _ _) as [[entry db3]|]; [|done].
  unfold mret, action_ret. cbn [fst snd status body c_json]. intros _.
  apply head_elem, elem_of_select in Htenant as (Hkeyed & tenant & trow & Htrow & ->).
  apply head_elem, elem_of_select in Huser as (Hcond & user & urow & Hurow & ->).
  rewrite (table_of_tables db db1) in Htrow, Hurow by done.
  rewrite id_of_with_id in *.
  apply andb_prop in Hcond as [[Hmine Hemail]%andb_prop Huactive].
  rewrite tenant_is_with_id in Hmine.
  rewrite col_with_id in Hkeyed, Hactive, Hemail, Huactive, Hhash by done.
  exists key, address, password, hash, tenant, trow, user, urow.
  repeat split; try assumption.
  rewrite (id_of_with_id tenant trow), col_id, (col_with_id user urow "email"), (col_with_id user urow "role"),
    (col_with_id user urow "first_name"), (col_with_id user urow "last_name")
    by done.
  reflexivity.
Qed.

End Token.

(** ** Further scenarios *)

Lemma answered {A B} (x : A * B) (a : A) : fst x = a -> x = (a, snd x).
Proof. destruct x. by intros <-. Qed.

Lemma bearer_of (a b : string) :
  Some ("Bearer " ++ a) = Some ("Bearer " ++ b) -> a = b.
Proof. intros Heq. by injection Heq. Qed.

Section MoreScenarios.

#[local] Existing Instance Reference.runtime.

(** Two segments are rejected; text after the third segment of a token of the
    demo user does not change the answer. *)
Lemma verifyJWT_reads_three_segments_witness :
  verifyJWT "abc.def" "s3cret" Demo.clock = inl InvalidSignature
  /\ verifyJWT (generateJWT Demo.demo_user "s3cret" Demo.clock ++ "." ++ "junk")
       "s3cret" Demo.clock
     = verifyJWT (generateJWT Demo.demo_user "s3cret" Demo.clock) "s3cret"
         Demo.clock.
Proof.
  destruct (verifyJWT_reads_three_segments "abc.def" "s3cret" Demo.clock)
    as [Hshort _].
  destruct (verifyJWT_reads_three_segments
              (generateJWT Demo.demo_user "s3cret" Demo.clock) "s3cret"
              Demo.clock) as [_ Hlong].
  split.
  - apply Hshort. clear. vm_compute. repeat constructor.
  - apply Hlong. clear. vm_compute. repeat constructor.
Defined.

(** A listing that presents a token 25 hours old. *)
Lemma request_without_valid_token_is_harmless_witness :
  let result :=
    app Demo.env (Demo.list_companies Demo.demo_user) Cases.late Demo.seed in
  snd result = Demo.seed
  /\ carries_no_data (body (fst result)) = true
  /\ status (fst result) = 401.
Proof.
  destruct (request_without_valid_token_is_harmless Demo.env
              (Demo.list_companies Demo.demo_user) Cases.late Demo.seed)
    as (Hdb & Hbody & Hstatus).
  - vm_compute. discriminate.
  - vm_compute. discriminate.
  - intros token cl Hauth. apply bearer_of in Hauth as <-.
    vm_compute. discriminate.
  - split; [exact Hdb|]. split; [exact Hbody|].
    apply Hstatus; vm_compute; first [reflexivity | discriminate].
Defined.

(** A login a minute and a millisecond after the window was opened. *)
Lemma request_after_a_minute_is_let_through_witness :
  exists db',
    rateLimit "/api/auth/login" (JS.Str "peter@initech.example") (Some 10)
        Demo.clock Cases.stale_window
      = (Return None, db')
    /\ D1.tables db' = D1.tables Cases.stale_window
    /\ D1.RateLimit "peter@initech.example" "/api/auth/login" 1 Demo.clock
         ∈ D1.rate_limits db'
    /\ forall r, r ∈ D1.rate_limits db' -> Demo.clock - 60000 <= D1.window_start r.
Proof.
  apply request_after_a_minute_is_let_through.
  intros r Hr _. apply list_elem_of_singleton in Hr as ->.
  vm_compute. reflexivity.
Defined.

(** Seven registrations at one instant, against a limit of five. *)
Lemma requests_at_one_instant_are_counted_witness :
  fst (limited "/api/auth/register" (JS.Str "peter@initech.example") (Some 5)
         (replicate 7 Demo.clock) Demo.empty)
    = (replicate 5 (Return None)
       ++ replicate 2
            (Return (Some (c_json (JError "Rate limit exceeded" None) 429))))%list.
Proof.
  apply (requests_at_one_instant_are_counted "/api/auth/register"
           "peter@initech.example" 5 Demo.clock 7 Demo.empty).
  - lia.
  - intros r Hr. inversion Hr.
Defined.

(** The registration of Initech Federal on the seed data. *)
Lemma registration_creates_tenant_and_admin_witness :
  exists tenant admin trow urow,
    body (fst (post_register "/api/auth/register" (Some Cases.registration)
                 Demo.clock Demo.seed))
      = JRegistered "initech-federal" tenant
    /\ D1.rows (D1.table_of Cases.registered "tenants") !! tenant = Some trow
    /\ D1.col trow "company_name" = SText "Initech Federal"
    /\ D1.rows (D1.table_of Cases.registered "users") !! admin = Some urow
    /\ D1.col urow "tenant_id" = SInt tenant
    /\ D1.col urow "role" = SText "admin".
Proof.
  destruct (registration_creates_tenant_and_admin "/api/auth/register"
              Cases.registration Demo.clock Demo.seed)
    as (name & password & tenant & admin & trow & urow & Hname & _ & Hbody & _
        & _ & Htenant & _ & Hcompany & _ & _ & Hadmin & Hof & Hrole & _);
    [vm_compute; reflexivity|].
  vm_compute in Hname. injection Hname as <-.
  exists tenant, admin, trow, urow.
  split; [exact Hbody|]. split; [exact Htenant|]. split; [exact Hcompany|].
  split; [exact Hadmin|]. split; [exact Hof | exact Hrole].
Defined.

(** The same company name, written differently, a millisecond later. *)
Lemma second_registration_is_refused_witness :
  fst (post_register "/api/auth/register" (Some Cases.registration_again)
         (Demo.clock + 1) Cases.registered)
    = c_json (JError "Company name already registered" None) 400.
Proof.
  unfold Cases.registered.
  rewrite (second_registration_is_refused "/api/auth/register"
             "/api/auth/register" Cases.registration Cases.registration_again
             Demo.clock (Demo.clock + 1) Demo.seed
             "Initech Federal" "INITECH  (Federal)"
             (snd (rateLimit "/api/auth/register"
                     (JS.get Cases.registration_again "email") (Some 5)
                     (Demo.clock + 1) Cases.registered)));
    [reflexivity | vm_compute; reflexivity ..|].
  apply answered. vm_compute. reflexivity.
Defined.

(** The registration of Initech Federal without a password. *)
Lemma failed_registration_keeps_the_tenant_witness :
  let result :=
    post_register "/api/auth/register"
      (Some Cases.registration_without_password) Demo.clock Demo.seed in
  status (fst result) = 500
  /\ find_tenant (SText "initech-federal") (snd result) <> None
  /\ D1.table_of (snd result) "users" = D1.table_of Demo.seed "users".
Proof.
  destruct (failed_registration_keeps_the_tenant "/api/auth/register"
              Cases.registration_without_password Demo.clock Demo.seed
              "Initech Federal"
              (snd (rateLimit "/api/auth/register"
                      (JS.get Cases.registration_without_password "email")
                      (Some 5) Demo.clock Demo.seed)))
    as (Hstatus & _ & Husers & Hfound).
  - vm_compute. reflexivity.
  - intros p Hp. vm_compute in Hp. discriminate.
  - apply answered. vm_compute. reflexivity.
  - vm_compute. reflexivity.
  - split; [exact Hstatus|]. split; [exact Hfound | exact Husers].
Defined.

(** The administrator of Initech Federal logs in a millisecond after the
    registration; the token is accepted at its expiry instant. *)
Lemma registered_user_can_log_in_witness :
  exists tenant admin first last,
    let token :=
      generateJWT (Identity admin tenant "peter@initech.example" "admin")
        "s3cret" (Demo.clock + 1) in
    fst (post_login "s3cret" "/api/auth/login"
           (Some (Demo.login_with "initech-federal" "peter@initech.example"
                    "tps-reports-123"))
           (Demo.clock + 1) Cases.registered)
      = c_json
          (JLogin token (SInt admin) (SText "peter@initech.example") first last
             (SText "admin") (JS.Str "initech-federal")) 200
    /\ verifyJWT token "s3cret" (Demo.clock + 1 + 24 * 60 * 60 * 1000)
       = inr (jwtPayload (Identity admin tenant "peter@initech.example" "admin")
                (Demo.clock + 1)).
Proof.
  set (credentials := Demo.login_with "initech-federal" "peter@initech.example"
                        "tps-reports-123").
  destruct (registered_user_can_log_in "s3cret" "/api/auth/register"
              "/api/auth/login" Cases.registration credentials
              Demo.clock (Demo.clock + 1) Demo.seed
              "Initech Federal" "peter@initech.example" "tps-reports-123"
              (snd (rateLimit "/api/auth/login" (JS.Str "peter@initech.example")
                      (Some 10) (Demo.clock + 1) Cases.registered)))
    as (tenant & admin & first & last & Hbody & Hlogin & Hverify).
  - discriminate.
  - vm_compute. reflexivity.
  - vm_compute. reflexivity.
  - vm_compute. reflexivity.
  - apply (rows_checked (user_has_tenant Demo.seed) true). vm_compute. reflexivity.
  - vm_compute. reflexivity.
  - vm_compute. reflexivity.
  - vm_compute. reflexivity.
  - vm_compute. reflexivity.
  - vm_compute. reflexivity.
  - apply answered. vm_compute. reflexivity.
  - assert (Htenant : 2 = tenant).
    { transitivity
        (match body (fst (post_register "/api/auth/register"
                            (Some Cases.registration) Demo.clock Demo.seed))
         with JRegistered _ t => t | _ => 0 end);
        [vm_compute; reflexivity | rewrite Hbody; reflexivity]. }
    assert (Hadmin : 2 = admin).
    { transitivity
        (match body (fst (post_login "s3cret" "/api/auth/login"
                            (Some credentials) (Demo.clock + 1)
                            (snd (post_register "/api/auth/register"
                                    (Some Cases.registration) Demo.clock
                                    Demo.seed))))
         with JLogin _ (SInt a) _ _ _ _ _ => a | _ => 0 end);
        [vm_compute; reflexivity | rewrite Hlogin; reflexivity]. }
    destruct Htenant, Hadmin.
    exists 2, 2, first, last. cbv zeta. split; [exact Hlogin|].
    apply Hverify; [vm_compute; reflexivity | lia].
Defined.

(** The demo user lists the opportunities in qualification. *)
Lemma opportunities_list_filters_by_stage_witness :
  exists r,
    r ∈ rows_of (body (fst (get_opportunities (Some Demo.demo_user)
                              {[ "stage" := "qualification" ]} Demo.seed)))
    /\ D1.col r "name" = SText "Federal Cloud Migration"
    /\ D1.col r "owner_name" = SText "Demo User".
Proof.
  destruct (opportunities_list_filters_by_stage Demo.demo_user
              {[ "stage" := "qualification" ]} Demo.seed) as [Hlisted _];
    [vm_compute; reflexivity|].
  set (o := default ∅ (D1.rows (D1.table_of Demo.seed "opportunities") !! 1)).
  exists (with_names Demo.seed (D1.with_id 1 o)).
  split; [|split; vm_compute; reflexivity].
  apply Hlisted. exists 1, o.
  split; [apply (found_is_default _ ∅); vm_compute; reflexivity|].
  split; [vm_compute; reflexivity|].
  split; [|reflexivity].
  right. vm_compute. reflexivity.
Defined.

(** The second tenant, which has no opportunity, reads its key figures. *)
Lemma kpis_on_little_data_witness :
  get_kpis (Some Demo.other_user) Demo.two_tenants
    = (c_json (JKpis (SInt 0) (SInt 0) (SInt 0) (SInt 0)) 200, Demo.two_tenants).
Proof.
  destruct (kpis_on_little_data Demo.other_user Demo.two_tenants) as [Hnone _].
  apply Hnone.
  apply (rows_checked (tenant_is 2) false). vm_compute. reflexivity.
Defined.

(** A company without a name. *)
Lemma creation_needs_its_plain_fields_witness :
  post_companies (Some Demo.demo_user) (Some {[ "type" := JS.Str "partner" ]})
      Demo.clock Demo.seed
    = (c_json (JError "Failed to create company" None) 500, Demo.seed).
Proof.
  destruct (creation_needs_its_plain_fields Demo.demo_user
              {[ "type" := JS.Str "partner" ]} Demo.clock Demo.seed)
    as (_ & _ & Hcompany & _).
  apply Hcompany. vm_compute. reflexivity.
Defined.

(** The creation scenario leaves its entry in the activity log. *)
Lemma creation_is_logged_witness :
  let result :=
    post_opportunities (Some Demo.demo_user) (Some Demo.cloud_migration)
      Demo.clock Demo.seed in
  exists id entry lrow,
    field (fst result) "id" = Some (SInt id)
    /\ D1.rows (D1.table_of (snd result) "activity_log") !! entry = Some lrow
    /\ D1.col lrow "user_id" = SInt 1
    /\ D1.col lrow "entity_id" = SInt id
    /\ D1.col lrow "description" = SText "Created: Cloud Migration II".
Proof.
  destruct (creation_is_logged Demo.demo_user Demo.cloud_migration Demo.clock
              Demo.seed)
    as (id & entry & lrow & Hid & _ & Hentry & _ & Huser & _ & _ & Hentity
        & Hdescription & _);
    [vm_compute; reflexivity|].
  exists id, entry, lrow.
  split; [exact Hid|]. split; [exact Hentry|]. split; [exact Huser|].
  split; [exact Hentity | exact Hdescription].
Defined.

(** The demo user moves the seeded opportunity to the proposal stage. *)
Lemma update_changes_the_supplied_columns_only_witness :
  let result :=
    put_opportunity (Some Demo.demo_user) "1"
      (Some {[ "stage" := JS.Str "proposal" ]}) Demo.clock Demo.seed in
  exists r r',
    D1.rows (D1.table_of Demo.seed "opportunities") !! 1 = Some r
    /\ D1.rows (D1.table_of (snd result) "opportunities") !! 1 = Some r'
    /\ D1.col r' "name" = D1.col r "name"
    /\ D1.col r' "amount" = D1.col r "amount"
    /\ D1.col r' "expected_revenue" = D1.col r "expected_revenue"
    /\ D1.col r' "owner_id" = D1.col r "owner_id"
    /\ D1.table_of (snd result) "activity_log"
       = D1.table_of Demo.seed "activity_log".
Proof.
  destruct (update_changes_the_supplied_columns_only Demo.demo_user "1"
              {[ "stage" := JS.Str "proposal" ]} Demo.clock Demo.seed)
    as (k & r & r' & Hk & Hr & _ & Hr' & _ & _ & Hother & Hname & _ & Hamount
        & Hprobability & _ & Htables);
    [vm_compute; reflexivity|].
  vm_compute in Hk. injection Hk as <-.
  exists r, r'.
  split; [exact Hr|]. split; [exact Hr'|].
  split; [apply Hname; vm_compute; reflexivity|].
  split; [apply Hamount; vm_compute; reflexivity|].
  split; [apply Hprobability; vm_compute; reflexivity|].
  split; [|apply Htables; discriminate].
  apply Hother. clear. intros Hin%list_elem_of_In. simpl in Hin.
  intuition discriminate.
Defined.

(** The demo user sets amount 1000 and probability 50. *)
Lemma update_with_both_inputs_recomputes_witness :
  let result :=
    put_opportunity (Some Demo.demo_user) "1"
      (Some (list_to_map [("amount", JS.Num 1000); ("probability", JS.Num 50)]))
      Demo.clock Demo.seed in
  exists r',
    D1.rows (D1.table_of (snd result) "opportunities") !! 1 = Some r'
    /\ Some (D1.col r' "amount") = D1.bind (JS.Num 1000)
    /\ Some (D1.col r' "probability") = D1.bind (JS.Num 50)
    /\ Some (D1.col r' "expected_revenue") = D1.bind (JS.Num 500).
Proof.
  destruct (update_with_both_inputs_recomputes Demo.demo_user "1"
              (list_to_map [("amount", JS.Num 1000); ("probability", JS.Num 50)])
              Demo.clock Demo.seed 1000 50)
    as (k & r' & Hk & Hr' & Hamount & Hprobability & Hrevenue);
    [vm_compute; reflexivity ..|].
  vm_compute in Hk. injection Hk as <-.
  exists r'. split; [exact Hr'|]. split; [exact Hamount|].
  split; [exact Hprobability | exact Hrevenue].
Defined.

(** The demo user logs in on the seed data. *)
Lemma login_needs_valid_credentials_witness :
  exists user urow hash,
    D1.rows (D1.table_of Demo.seed "users") !! user = Some urow
    /\ D1.sql_eqb (D1.col urow "is_active") (SInt 1) = true
    /\ D1.col urow "password_hash" = SText hash
    /\ bcrypt_compare "password123" hash = true.
Proof.
  destruct (login_needs_valid_credentials "s3cret" "/api/auth/login"
              (Demo.login_with "demo" "demo@example.com" "password123")
              Demo.clock Demo.seed)
    as (key & address & password & hash & tenant & trow & user & urow & _ & _
        & Hpassword & _ & _ & _ & Hurow & _ & _ & Hactive & Hhash & Hmatch & _);
    [vm_compute; reflexivity|].
  vm_compute in Hpassword. injection Hpassword as <-.
  exists user, urow, hash.
  split; [exact Hurow|]. split; [exact Hactive|]. split; [exact Hhash|].
  exact Hmatch.
Defined.

End MoreScenarios.

(** ** Registration and login keep the memberships *)

Lemma memberships_kept_refl db : memberships_kept db db.
Proof. split; [done|]. intros k u Hu. by exists u. Qed.

Lemma memberships_kept_trans db1 db2 db3 :
  memberships_kept db1 db2 -> memberships_kept db2 db3 ->
  memberships_kept db1 db3.
Proof.
  intros [Hc12 Hu12] [Hc23 Hu23]. split; [congruence|].
  intros k u Hu. destruct (Hu12 k u Hu) as (u2 & Hu2 & Ht2).
  destruct (Hu23 k u2 Hu2) as (u3 & Hu3 & Ht3). exists u3. split; [done|congruence].
Qed.

Lemma memberships_kept_tables db db' :
  D1.tables db' = D1.tables db -> memberships_kept db db'.
Proof.
  intros Htables. split; [by apply table_of_tables|].
  intros k u Hu. exists u. by rewrite (table_of_tables db db').
Qed.

(** What the memberships carry with them. *)
Lemma memberships_kept_carry db db' :
  memberships_kept db db' ->
  (managers_in_tenant db -> managers_in_tenant db')
  /\ (forall ident, user_in_tenant db ident -> user_in_tenant db' ident).
Proof.
  intros [Hcaptures Husers]. split.
  - intros Hinv k c m Hc Hm. rewrite Hcaptures in Hc.
    destruct (Hinv k c m Hc Hm) as (u & Hu & Hsame).
    destruct (Husers m u Hu) as (u' & Hu' & Htenant).
    exists u'. split; [done|]. intros t Ht. apply Hsame in Ht.
    unfold tenant_is in *. by rewrite Htenant.
  - intros ident (u & Hu & Hmember).
    destruct (Husers _ u Hu) as (u' & Hu' & Htenant).
    exists u'. split; [done|]. unfold tenant_is in *. by rewrite Htenant.
Qed.

Section Keeping.
Context `{Runtime}.

Lemma keeps_ret {A} (a : A) : keeps_memberships (mret a : action A).
Proof. intros db. apply memberships_kept_refl. Qed.

Lemma keeps_throw {A} msg : keeps_memberships (throw msg : action A).
Proof. intros db. apply memberships_kept_refl. Qed.

Lemma keeps_query {A} (g : D1.DB -> A) : keeps_memberships (query g).
Proof. intros db. apply memberships_kept_refl. Qed.

Lemma keeps_bind_all ps : keeps_memberships (bind_all ps).
Proof.
  intros db. unfold bind_all. destruct (mapM _ ps); apply memberships_kept_refl.
Qed.

Lemma keeps_bind {A B} (m : action A) (f : A -> action B) :
  keeps_memberships m -> (forall a, keeps_memberships (f a)) ->
  keeps_memberships (m ≫= f).
Proof.
  intros Hm Hf db. specialize (Hm db). rewrite bind_any.
  destruct (m db) as [[a|e] db1]; cbn [snd] in *; [|done].
  eapply memberships_kept_trans; [exact Hm | apply Hf].
Qed.

Lemma keeps_rateLimit path ident limit now :
  keeps_memberships (rateLimit path ident limit now).
Proof.
  intros db. apply memberships_kept_tables.
  by destruct (rateLimit_frame path ident limit now db).
Qed.

(** An INSERT into another table than [captures]: a new user gets an id no
    stored user has. *)
Lemma keeps_insert tname vals now :
  tname <> "captures" -> keeps_memberships (run_insert tname vals now).
Proof.
  intros Hne db. unfold run_insert.
  destruct (D1.insert tname vals now db) as [[id db']|] eqn:Hins;
    [|apply memberships_kept_refl].
  cbn [snd]. apply insert_inv in Hins as [Hid ->]. split.
  - rewrite table_of_set_table. by destruct (String.eqb_spec tname "captures").
  - intros k u Hu. rewrite table_of_set_table.
    destruct (String.eqb_spec tname "users") as [->|_]; [|by exists u].
    cbn [D1.rows]. exists u. split; [|done].
    rewrite lookup_insert_ne; [done|]. intros <-.
    rewrite Hid, next_rowid_fresh in Hu. done.
Qed.

(** An UPDATE of [users] that does not set the tenant. *)
Lemma keeps_update k guard sets :
  "tenant_id" ∉ fst <$> sets ->
  keeps_memberships (run_update "users" k guard sets).
Proof.
  intros Hkeys db. unfold run_update.
  destruct (D1.update_row "users" k guard sets db) as [db'|] eqn:Hupd;
    [|apply memberships_kept_refl].
  cbn [snd]. apply update_row_inv in Hupd as [->|(r & Hr & _ & ->)];
    [apply memberships_kept_refl|].
  split; [by rewrite table_of_set_table|].
  intros k' u Hu. rewrite table_of_set_table. cbn [String.eqb Ascii.eqb Bool.eqb D1.rows].
  destruct (decide (k' = k)) as [->|Hk].
  - rewrite lookup_insert_eq. eexists. split; [reflexivity|].
    rewrite col_set_other by done. congruence.
  - rewrite lookup_insert_ne by done. by exists u.
Qed.

Lemma keeps_try_catch (m : action response) e db :
  keeps_memberships m -> memberships_kept db (snd (try_catch m e db)).
Proof.
  intros Hm. specialize (Hm db). unfold try_catch.
  by destruct (m db) as [[r|msg] db1].
Qed.

Ltac keeping :=
  repeat first
    [ apply keeps_ret | apply keeps_throw | apply keeps_query
    | apply keeps_bind_all | apply keeps_rateLimit
    | apply keeps_insert; discriminate
    | apply keeps_update;
        cbn [fmap list_fmap fst]; rewrite not_elem_of_cons;
        split; [discriminate | apply not_elem_of_nil]
    | apply keeps_bind; [|intros ?]
    | match goal with
      | |- keeps_memberships (match ?x with _ => _ end) => destruct x
      | |- keeps_memberships (if ?c then _ else _) => destruct c
      end ].

Lemma post_register_keeps path b now db :
  memberships_kept db (snd (post_register path b now db)).
Proof.
  unfold post_register. apply keeps_try_catch.
  unfold req_json, hashPassword. cbv zeta. keeping.
Qed.

Lemma post_login_keeps secret path b now db :
  memberships_kept db (snd (post_login secret path b now db)).
Proof.
  unfold post_login. apply keeps_try_catch.
  unfold req_json, verifyPassword, invalid_credentials. cbv zeta. keeping.
Qed.

(** Neither registration nor login touches a capture or moves a stored user to
    another tenant, whatever the request holds and however it ends (also when
    it is refused or fails half-way). So both keep every capture managed by a
    user of its tenant, and keep the user of an issued token in the token's
    tenant. *)
Theorem authentication_keeps_memberships secret path b now db :
  let kept db' :=
    memberships_kept db db'
    /\ (managers_in_tenant db -> managers_in_tenant db')
    /\ (forall ident, user_in_tenant db ident -> user_in_tenant db' ident) in
  kept (snd (post_register path b now db))
  /\ kept (snd (post_login secret path b now db)).
Proof.
  cbv zeta. split.
  - pose proof (post_register_keeps path b now db) as Hkept.
    split; [exact Hkept|]. by apply memberships_kept_carry.
  - pose proof (post_login_keeps secret path b now db) as Hkept.
    split; [exact Hkept|]. by apply memberships_kept_carry.
Qed.

End Keeping.
